(** * Deepresearch-Agent: content-enhancement decision and graph nodes

    A shallow embedding of
    - [backend/src/agent/content_enhancement_decision.py]
      ([ContentEnhancementDecisionMaker]) and
    - [backend/src/agent/enhanced_graph_nodes.py]
      ([content_enhancement_analysis], [should_enhance_content],
      [enhanced_reflection]),
    followed by the properties of the specification stated over it.

    Conventions of the embedding.
    - A Python [str] is a [string]; each character stands for one code
      point in the range 0..255, so [len], slicing and [in] count
      characters as Python does on such text.
    - A Python [float] is an IEEE-754 binary64 value, represented by
      [spec_float] with precision 53 and maximal exponent 1024; every
      operation rounds to nearest, ties to even, as the hardware does.
    - A Python [int] is a [Z].
    - A [dict] whose set of keys varies (the partial state update) is a
      [gmap string _]; a dict literal with a fixed set of keys is a record.
    - Code that may raise returns a [result].  In [Nodes] the calls of
      [print] are left out, except in [should_enhance_content] where the
      printed line tells which check decided: [Nodes] is the code when
      writing to the standard output succeeds and every exception is an
      instance of [Exception].  [NodeIO] is the analysis node with every
      line it prints, where [print] may raise, and with the class of
      each exception.  In a printed line a character outside ASCII
      stands as its UTF-8 bytes. *)

From Stdlib Require Import ZArith QArith Qabs Qminmax Bool Ascii String List Lia.
From Stdlib Require Import Sorting.Permutation Sorting.Sorted.
From Stdlib Require Import DecimalString.
From Stdlib Require Import Floats.SpecFloat.
From stdpp Require Import gmap strings.

Local Open Scope Z_scope.

(* ================================================================== *)
(** ** Python strings *)
(* ================================================================== *)

Module PyStr.

Definition code (c : ascii) : N := N_of_ascii c.

(** [str.lower] for a text whose code points are all below 256, one
    [ascii] for each code point.  On one such code point: the ASCII
    capitals and the Latin-1 capitals U+00C0..U+00DE (without the
    multiplication sign U+00D7) move up by 32, every other code point is
    its own lower case.  On these texts [str.lower] works character by
    character and keeps the length; on a text with other code points it
    need not (the lower case of U+0130 has two code points), and such a
    text is outside this model. *)
Definition lower_char (c : ascii) : ascii :=
  let n := code c in
  if ((65 <=? n) && (n <=? 90))%N
     || ((192 <=? n) && (n <=? 222) && negb (n =? 215))%N
  then ascii_of_N (n + 32)
  else c.

Fixpoint lower (s : string) : string :=
  match s with
  | EmptyString => EmptyString
  | String c t => String (lower_char c) (lower t)
  end.

(** [needle in hay] *)
Fixpoint contains (needle hay : string) : bool :=
  String.prefix needle hay ||
  match hay with
  | EmptyString => false
  | String _ t => contains needle t
  end.

(** [any(k in s for k in keys)] *)
Definition any_in (keys : list string) (s : string) : bool :=
  existsb (fun k => contains k s) keys.

(** [s[:n]] and [s[n:]] for [0 <= n] *)
Fixpoint take (n : nat) (s : string) : string :=
  match n, s with
  | S n', String c t => String c (take n' t)
  | _, _ => EmptyString
  end.

Fixpoint drop (n : nat) (s : string) : string :=
  match n, s with
  | S n', String _ t => drop n' t
  | _, _ => s
  end.

(** [sep.join(parts)] *)
Fixpoint join (sep : string) (parts : list string) : string :=
  match parts with
  | [] => EmptyString
  | [p] => p
  | p :: rest => p +:+ sep +:+ join sep rest
  end.

(** [str(n)] for an [int] *)
Definition of_int (n : Z) : string := NilZero.string_of_int (Z.to_int n).

Definition newline : ascii := ascii_of_N 10.
Definition nl : string := String newline EmptyString.
Definition dquote : string := String (ascii_of_N 34) EmptyString.

Definition is_digit (c : ascii) : bool :=
  ((48 <=? code c) && (code c <=? 57))%N.

Definition digit_value (c : ascii) : Z := Z.of_N (code c) - 48.

End PyStr.

(* ================================================================== *)
(** ** Python floats: IEEE-754 binary64 *)
(* ================================================================== *)

Module F64.

Definition prec : Z := 53.
Definition emax : Z := 1024.

Abbreviation float := spec_float.

(** An integer as a double, rounded to nearest-even. *)
Definition of_Z (n : Z) : float := binary_normalize prec emax n 0 false.

Definition add : float -> float -> float := SFadd prec emax.
Definition mul : float -> float -> float := SFmul prec emax.
Definition div : float -> float -> float := SFdiv prec emax.

(** [x < y], [x <= y], [x > y], [x >= y] *)
Definition ltb (x y : float) : bool := SFltb x y.
Definition leb (x y : float) : bool := SFleb x y.
Definition gtb (x y : float) : bool := SFltb y x.
Definition geb (x y : float) : bool := SFleb y x.

(** The decimal literal [n/d] with [d] a power of ten: the double nearest
    to the quotient, because both operands are exact and the division is
    correctly rounded. *)
Definition literal (n d : Z) : float := div (of_Z n) (of_Z d).

Definition f0_0 : float := of_Z 0.
Definition f0_1 : float := literal 1 10.
Definition f0_2 : float := literal 2 10.
Definition f0_3 : float := literal 3 10.
Definition f0_4 : float := literal 4 10.
Definition f0_5 : float := literal 5 10.
Definition f0_6 : float := literal 6 10.
Definition f0_8 : float := literal 8 10.
Definition f1_0 : float := of_Z 1.

(** The builtin [min(a, b)]: the first argument stays unless the second
    is smaller. *)
Definition min2 (a b : float) : float := if ltb b a then b else a.

(** The exact rational value of a finite double. *)
Definition to_Q (x : float) : Q :=
  match x with
  | S754_finite s m e =>
      let v := if (0 <=? e)%Z then inject_Z (Zpos m * 2 ^ e)
               else Qmake (Zpos m) (Z.to_pos (2 ^ (- e))) in
      if s then Qopp v else v
  | _ => 0%Q
  end.

(** Decimal rendering with two fractional digits, as the format
    specification [.2f] does it: the exact binary value is rounded to the
    nearest multiple of 1/100, ties to even. *)
Definition round_hundredths (m : positive) (e : Z) : Z :=
  if (0 <=? e)%Z then Zpos m * 2 ^ e * 100
  else
    let den := 2 ^ (- e) in
    let q := (Zpos m * 100) / den in
    let r := (Zpos m * 100) mod den in
    match (2 * r ?= den)%Z with
    | Lt => q
    | Gt => q + 1
    | Eq => if Z.even q then q else q + 1
    end.

Definition two_digits (n : Z) : string :=
  (if (n <? 10)%Z then "0" else "") +:+ PyStr.of_int n.

Definition format_2f (x : float) : string :=
  match x with
  | S754_nan => "nan"
  | S754_infinity s => if s then "-inf" else "inf"
  | S754_zero s => if s then "-0.00" else "0.00"
  | S754_finite s m e =>
      let h := round_hundredths m e in
      (if s then "-" else "") +:+
      PyStr.of_int (h / 100) +:+ "." +:+ two_digits (h mod 100)
  end.

End F64.

(* ================================================================== *)
(** ** content_enhancement_decision.py *)
(* ================================================================== *)

(** A grounding source is a [dict]; [None] is a key that is absent, which
    [source.get(key, "")] turns into the empty string. *)
Record source := {
  src_title : option string;
  src_url : option string;
  src_snippet : option string
}.

Definition dict_get (v : option string) (dflt : string) : string :=
  match v with Some s => s | None => dflt end.

(** One element of [priority_urls]. *)
Record priority_url := {
  pu_title : string;
  pu_url : string;
  pu_priority_score : F64.float;
  pu_reasoning : string
}.

Record EnhancementDecision := {
  needs_enhancement : bool;
  priority_urls : list priority_url;
  reasoning : string;
  confidence_score : F64.float;
  enhancement_type : string
}.

Module DecisionMaker.

Definition official_domains : list string := [".gov"; ".edu"; ".org"].
Definition known_platforms : list string :=
  ["wikipedia"; "arxiv"; "ieee"; "acm"].
Definition technical_keywords : list string :=
  ["report"; "study"; "research"; "analysis"; "technical"].
Definition company_names : list string :=
  ["google"; "microsoft"; "amazon"; "tesla"; "nvidia"].

(** [_calculate_url_priority] *)
Definition _calculate_url_priority (src : source) : F64.float :=
  let score := F64.f0_0 in
  let url := PyStr.lower (dict_get (src_url src) "") in
  let title := PyStr.lower (dict_get (src_title src) "") in
  let score :=
    if PyStr.any_in official_domains url
    then F64.add score F64.f0_4 else score in
  let score :=
    if PyStr.any_in known_platforms url
    then F64.add score F64.f0_3 else score in
  let score :=
    if PyStr.any_in technical_keywords title
    then F64.add score F64.f0_2 else score in
  let score :=
    if PyStr.any_in company_names url
    then F64.add score F64.f0_2 else score in
  let score := F64.add score F64.f0_1 in
  F64.min2 score F64.f1_0.

(** [_build_analysis_prompt]: the text of the f-string, one list element
    per line. *)

Definition prompt_part1 : string :=
  PyStr.join PyStr.nl
    [ "You are a research quality assessment expert. Analyze current research quality and determine if deep content enhancement is needed.";
      "";
      "Research Topic: " ].

Definition prompt_part2 : string :=
  PyStr.join PyStr.nl
    [ "";
      "";
      "Current Findings:";
      "" ].

Definition prompt_part3 : string :=
  PyStr.join PyStr.nl
    [ "";
      "";
      "Available Sources:";
      "" ].

Definition prompt_part4 : string :=
  PyStr.join PyStr.nl
    [ "";
      "";
      "Evaluation Criteria:";
      "";
      "1. **Signals of Insufficient Depth**:";
      "   - Lack of specific data, statistics, case studies";
      "   - Vague descriptions, missing technical details";
      "   - Missing key companies/projects/implementations";
      "   - Low-quality sources (non-authoritative)";
      "";
      "2. **When Deep Crawling is Needed**:";
      "   - Topic requires detailed technical explanations";
      "   - Missing key supporting data";
      "   - Authoritative sources with truncated content";
      "   - Need for complete reports/studies";
      "";
      "3. **Source Value Assessment**:";
      "   - Official sites/docs: High value";
      "   - Academic papers/studies: High value  ";
      "   - Wikipedia/Encyclopedias: Medium value";
      "   - News articles: Varies by detail";
      "   - Blogs/Forums: Low value";
      "";
      "Response Format:";
      "";
      "**Decision**: [ENHANCE/NO_ENHANCE]";
      "**Confidence**: [0.1-1.0]";
      "**Enhancement Type**: [selective/comprehensive/none]";
      "**URLs to Process**: [0-3]";
      "**Reasoning**: ";
      "[Explain your assessment, including content gaps and expected improvements]";
      "";
      "**Priority URLs** (if enhancing):";
      ("[Top URLs for deep crawling, in priority order]" +:+ PyStr.dquote);
      "" ].

Definition source_line (src : source) : string :=
  "- " +:+ dict_get (src_title src) "N/A" +:+ ": "
  +:+ dict_get (src_url src) "N/A".

Definition _build_analysis_prompt (research_topic : string)
    (current_findings : list string) (grounding_sources : list source)
    : string :=
  let findings_summary :=
    PyStr.join (PyStr.nl +:+ "---" +:+ PyStr.nl)
               (skipn (length current_findings - 3) current_findings) in
  let sources_list :=
    PyStr.join PyStr.nl (map source_line (firstn 5 grounding_sources)) in
  prompt_part1 +:+ research_topic +:+ prompt_part2 +:+ findings_summary
  +:+ prompt_part3 +:+ sources_list +:+ prompt_part4.

(** *** The regular expression [confidence.*?([0-9]\.[0-9])] *)

(** [[0-9]\.[0-9]] at the head of the text. *)
Definition match_decimal (s : string) : option string :=
  match s with
  | String a (String dot (String b _)) =>
      if PyStr.is_digit a && Ascii.eqb dot "."%char && PyStr.is_digit b
      then Some (String a (String dot (String b EmptyString)))
      else None
  | _ => None
  end.

(** [.*?] followed by the group: the lazy star tries the group at the
    nearest position first and moves on one character at a time; the dot
    matches every character but the newline. *)
Fixpoint lazy_dots_then_decimal (s : string) : option string :=
  match match_decimal s with
  | Some g => Some g
  | None =>
      match s with
      | EmptyString => None
      | String c t =>
          if Ascii.eqb c PyStr.newline then None
          else lazy_dots_then_decimal t
      end
  end.

(** The whole pattern anchored at the head of the text. *)
Definition match_confidence_here (s : string) : option string :=
  if String.prefix "confidence" s
  then lazy_dots_then_decimal (PyStr.drop 10 s)
  else None.

(** [re.search]: the leftmost position at which the pattern matches;
    the result is group 1. *)
Fixpoint re_search_confidence (s : string) : option string :=
  match match_confidence_here s with
  | Some g => Some g
  | None =>
      match s with
      | EmptyString => None
      | String _ t => re_search_confidence t
      end
  end.

(** [float(text)] on the texts group 1 can hold, a digit, a dot and a
    digit; [None] stands for the [ValueError] of any other text. *)
Definition py_float (s : string) : option F64.float :=
  match s with
  | String a (String dot (String b EmptyString)) =>
      if PyStr.is_digit a && Ascii.eqb dot "."%char && PyStr.is_digit b
      then Some (F64.literal
                   (10 * PyStr.digit_value a + PyStr.digit_value b) 10)
      else None
  | _ => None
  end.

(** *** [scored_sources.sort(key=lambda x: x[1], reverse=True)]

    [list.sort] is stable, also with [reverse=True]: the result is in
    descending key order and elements with equal keys keep their
    original order.  It is modelled by a stable insertion sort. *)
Fixpoint insert_desc (x : source * F64.float)
    (l : list (source * F64.float)) : list (source * F64.float) :=
  match l with
  | [] => [x]
  | y :: t =>
      if F64.ltb (snd x) (snd y) then y :: insert_desc x t
      else x :: y :: t
  end.

Fixpoint sort_desc (l : list (source * F64.float))
    : list (source * F64.float) :=
  match l with
  | [] => []
  | x :: t => insert_desc x (sort_desc t)
  end.

Definition make_priority_url (p : source * F64.float) : priority_url :=
  let (src, score) := p in
  {| pu_title := dict_get (src_title src) "";
     pu_url := dict_get (src_url src) "";
     pu_priority_score := score;
     pu_reasoning := "Score: " +:+ F64.format_2f score |}.

(** [_parse_llm_decision] *)
Definition _parse_llm_decision (decision_text : string)
    (grounding_sources : list source) : EnhancementDecision :=
  let decision_text := PyStr.lower decision_text in
  let needs :=
    PyStr.contains "enhance" decision_text
    && negb (PyStr.contains "no_enhance" decision_text) in
  let confidence :=
    match re_search_confidence decision_text with
    | Some g =>
        match py_float g with
        | Some v => v
        | None => F64.f0_5
        end
    | None => F64.f0_5
    end in
  let etype :=
    if PyStr.contains "selective" decision_text then "selective"
    else if PyStr.contains "comprehensive" decision_text
    then "comprehensive"
    else if needs then "selective"
    else "none" in
  let urls :=
    match needs, grounding_sources with
    | true, _ :: _ =>
        let scored_sources :=
          map (fun src => (src, _calculate_url_priority src))
              grounding_sources in
        let scored_sources := sort_desc scored_sources in
        let max_urls :=
          if String.eqb etype "comprehensive" then 3%nat else 2%nat in
        map make_priority_url
            (List.filter (fun p => F64.gtb (snd p) F64.f0_3)
                    (firstn max_urls scored_sources))
    | _, _ => []
    end in
  {| needs_enhancement := needs;
     priority_urls := urls;
     reasoning := decision_text;
     confidence_score := confidence;
     enhancement_type := etype |}.

End DecisionMaker.

(* ================================================================== *)
(** ** Exceptions *)
(* ================================================================== *)

(** A computation that returns a value or raises; an exception is
    represented by its message, [str(e)]. *)
Inductive result (A : Type) : Type :=
| Ok (a : A)
| Raise (msg : string).

Arguments Ok {A} a.
Arguments Raise {A} msg.

#[global] Instance result_ret : MRet result := fun A a => Ok a.

#[global] Instance result_bind : MBind result :=
  fun A B k c =>
    match c with
    | Ok a => k a
    | Raise msg => Raise msg
    end.

(** [l[i]] for a list: a negative index counts from the end, an index out
    of range raises [IndexError]. *)
Definition py_index {A : Type} (l : list A) (i : Z) : result A :=
  let n := Z.of_nat (length l) in
  let j := if i <? 0 then i + n else i in
  if (0 <=? j) && (j <? n) then
    match nth_error l (Z.to_nat j) with
    | Some x => Ok x
    | None => Raise "list index out of range"
    end
  else Raise "list index out of range".

(** [float(n)] as the product [n * 0.3] computes it for an [int]: exact
    rounding to the nearest double, [OverflowError] when that is no finite
    number. *)
Definition float_of_int (n : Z) : result F64.float :=
  match F64.of_Z n with
  | S754_infinity _ => Raise "int too large to convert to float"
  | x => Ok x
  end.

(* ================================================================== *)
(** ** enhanced_graph_nodes.py *)
(* ================================================================== *)

(** An element of [plan]; [None] is a task without the key
    ["description"]. *)
Record task := { description : option string }.

(** An element of [sources_gathered]: a dict or any other value. *)
Inductive gathered :=
| GDict (src : source)
| GOther.

(** A chat message of [state["messages"]]. *)
Record message := { msg_human : bool; msg_content : string }.

(** The shared research state: a dict; [None] is a key that is absent. *)
Record OverallState := {
  st_plan : option (list task);
  st_current_task_pointer : option Z;
  st_user_query : option string;
  st_messages : option (list message);
  st_web_research_result : option (list string);
  st_sources_gathered : option (list gathered);
  st_research_loop_count : option Z;
  st_enhancement_status : option string;
  st_enhanced_sources_count : option Z
}.

(** The per-run configuration handed through to the language model. *)
Record RunnableConfig := { configurable : gmap string string }.

(** What [scrape_url] returns. *)
Record scrape_response := {
  success : bool;
  markdown : option string;
  error : option string
}.

(** The crawl client: [None] is a falsy response object. *)
Record FirecrawlApp := {
  scrape_url : string -> result (option scrape_response)
}.

(** The singleton of [get_content_enhancement_decision_maker]. *)
Record DecisionMakerInstance := {
  firecrawl_app : option FirecrawlApp
}.

(** The verdict of the base reflection node; [rs_rest] holds the keys this
    module never reads. *)
Record ReflectionState := {
  is_sufficient : bool;
  knowledge_gap : string;
  rs_rest : gmap string string
}.

(** Everything outside this module that the nodes call.
    - [getenv]: [os.getenv].
    - [get_research_topic]: the helper of [agent.utils].
    - [get_decision_maker]: [get_content_enhancement_decision_maker()];
      the instance is built on the first call, which may raise.
    - [llm_invoke config prompt]: resolving the configuration, building
      the chat model with the reflection model, temperature 0.3 and two
      retries, [llm.invoke(prompt)] and the text of the response.
    - [now_isoformat k]: [datetime.now().isoformat()] at its [k]-th use.
    - [reflection]: the node of [agent.graph]. *)
Record World := {
  getenv : string -> option string;
  get_research_topic : list message -> result string;
  get_decision_maker : result DecisionMakerInstance;
  llm_invoke : RunnableConfig -> string -> result string;
  now_isoformat : nat -> string;
  reflection : OverallState -> RunnableConfig -> result ReflectionState
}.

(** One element of [enhanced_results]. *)
Record enhanced_result := {
  er_url : string;
  er_title : string;
  er_original_priority : F64.float;
  er_enhanced_content : string;
  er_content_length : Z;
  er_source_type : string;
  er_timestamp : string
}.

(** The dict stored under ["enhancement_decision"]. *)
Record decision_dict := {
  dd_needs_enhancement : bool;
  dd_confidence_score : F64.float;
  dd_enhancement_type : string;
  dd_reasoning : string;
  dd_priority_urls : list priority_url
}.

(** The values of a partial state update. *)
Inductive update_value :=
| VDecision (d : decision_dict)
| VStr (s : string)
| VInt (n : Z)
| VStrList (l : list string)
| VResults (l : list enhanced_result).

(** Truthiness of a string. *)
Definition truthy (s : string) : bool := negb (String.eqb s "").

Module Nodes.

(** [analyze_enhancement_need] *)
Definition analyze_enhancement_need (w : World) (research_topic : string)
    (current_findings : list string) (grounding_sources : list source)
    (config : RunnableConfig) : result EnhancementDecision :=
  let analysis_prompt :=
    DecisionMaker._build_analysis_prompt
      research_topic current_findings grounding_sources in
  decision_text ← llm_invoke w config analysis_prompt;
  Ok (DecisionMaker._parse_llm_decision decision_text grounding_sources).

(** Lines 34-41: the research topic. *)
Definition research_topic_of (w : World) (state : OverallState)
    : result string :=
  let plan := default [] (st_plan state) in
  let current_pointer := default 0 (st_current_task_pointer state) in
  if negb (Nat.eqb (length plan) 0)
     && (current_pointer <? Z.of_nat (length plan))
  then
    t ← py_index plan current_pointer;
    match description t with
    | Some d => Ok d
    | None => Raise "'description'"
    end
  else
    match st_user_query state with
    | Some q =>
        if truthy q then Ok q
        else
          match st_messages state with
          | Some ms => get_research_topic w ms
          | None => Raise "'messages'"
          end
    | None =>
        match st_messages state with
        | Some ms => get_research_topic w ms
        | None => Raise "'messages'"
        end
    end.

(** Lines 47-55: the last ten gathered sources that are dicts. *)
Definition grounding_sources_of (state : OverallState) : list source :=
  let sources_gathered := default [] (st_sources_gathered state) in
  flat_map
    (fun g =>
       match g with
       | GDict src =>
           [ {| src_title := Some (dict_get (src_title src) "");
                src_url := Some (dict_get (src_url src) "");
                src_snippet := Some (dict_get (src_snippet src) "") |} ]
       | GOther => []
       end)
    (skipn (length sources_gathered - 10) sources_gathered).

(** Lines 104-133: the crawl loop.  [k] counts the readings of the clock
    so far.  A URL that is empty is skipped; an exception of one URL and
    a response that is falsy or not successful leave the list as it is. *)
Fixpoint crawl (w : World) (app : FirecrawlApp) (k : nat)
    (urls : list priority_url) : list enhanced_result :=
  match urls with
  | [] => []
  | url_info :: rest =>
      let url := pu_url url_info in
      if negb (truthy url) then crawl w app k rest
      else
        match scrape_url app url with
        | Ok (Some r) =>
            if success r then
              let markdown_content :=
                match markdown r with
                | Some m => if truthy m then m else ""
                | None => ""
                end in
              {| er_url := url;
                 er_title := pu_title url_info;
                 er_original_priority := pu_priority_score url_info;
                 er_enhanced_content := markdown_content;
                 er_content_length :=
                   Z.of_nat (String.length markdown_content);
                 er_source_type := "firecrawl_enhanced";
                 er_timestamp := now_isoformat w k |}
              :: crawl w app (S k) rest
            else crawl w app k rest
        | Ok None => crawl w app k rest
        | Raise _ => crawl w app k rest
        end
  end.

(** Lines 140-150: one formatted block. *)
Definition format_enhanced (r : enhanced_result) : string :=
  PyStr.nl +:+ PyStr.nl
  +:+ "## Deep Content Enhancement - " +:+ er_title r +:+ PyStr.nl
  +:+ PyStr.nl
  +:+ "Source: " +:+ er_url r +:+ PyStr.nl
  +:+ "Content Length: " +:+ PyStr.of_int (er_content_length r)
  +:+ " characters" +:+ PyStr.nl
  +:+ PyStr.nl
  +:+ PyStr.take 3000 (er_enhanced_content r)
  +:+ (if (3000 <? String.length (er_enhanced_content r))%nat
       then "..." else "")
  +:+ PyStr.nl
  +:+ PyStr.nl
  +:+ "---" +:+ PyStr.nl.

Definition decision_to_dict (decision : EnhancementDecision)
    : decision_dict :=
  {| dd_needs_enhancement := needs_enhancement decision;
     dd_confidence_score := confidence_score decision;
     dd_enhancement_type := enhancement_type decision;
     dd_reasoning := reasoning decision;
     dd_priority_urls := priority_urls decision |}.

(** Lines 33-68: everything up to the decision. *)
Definition analysis_decision (w : World) (state : OverallState)
    (config : RunnableConfig)
    : result (DecisionMakerInstance * EnhancementDecision) :=
  research_topic ← research_topic_of w state;
  let current_findings := default [] (st_web_research_result state) in
  let grounding_sources := grounding_sources_of state in
  maker ← get_decision_maker w;
  decision ← analyze_enhancement_need
                w research_topic current_findings grounding_sources config;
  Ok (maker, decision).

(** Lines 77-165: from the decision to the update. *)
Definition analysis_update (w : World) (maker : DecisionMakerInstance)
    (decision : EnhancementDecision) : gmap string update_value :=
  let state_update : gmap string update_value :=
    {[ "enhancement_decision" := VDecision (decision_to_dict decision) ]} in
  if negb (needs_enhancement decision) then
    <[ "enhancement_status" := VStr "skipped" ]> state_update
  else
    match firecrawl_app maker with
    | None => <[ "enhancement_status" := VStr "skipped_no_api" ]> state_update
    | Some app =>
        let enhanced_results := crawl w app 0 (priority_urls decision) in
        match enhanced_results with
        | _ :: _ =>
            let enhanced_contents := map format_enhanced enhanced_results in
            <[ "enhanced_content_results" := VResults enhanced_results ]>
            (<[ "web_research_result" := VStrList enhanced_contents ]>
            (<[ "enhancement_status" := VStr "completed" ]>
            (<[ "enhanced_sources_count" :=
                  VInt (Z.of_nat (length enhanced_results)) ]>
             state_update)))
        | [] => <[ "enhancement_status" := VStr "failed" ]> state_update
        end
    end.

(** The body of the [try] block. *)
Definition analysis_body (w : World) (state : OverallState)
    (config : RunnableConfig) : result (gmap string update_value) :=
  md ← analysis_decision w state config;
  Ok (analysis_update w (fst md) (snd md)).

Definition error_update (e : string) : gmap string update_value :=
  let error_message :=
    "Content enhancement analysis node exception: " +:+ e in
  <[ "enhancement_status" := VStr "error" ]>
  {[ "enhancement_error" := VStr error_message ]}.

(** [content_enhancement_analysis]: the [try] block and its handler, when
    every [print] returns and every exception is an instance of
    [Exception]; [NodeIO.content_enhancement_analysis] is the node without
    these two assumptions. *)
Definition content_enhancement_analysis (w : World) (state : OverallState)
    (config : RunnableConfig) : gmap string update_value :=
  match analysis_body w state config with
  | Ok state_update => state_update
  | Raise e => error_update e
  end.

(** The lines that [should_enhance_content] prints. *)
Definition log_no_key : string :=
  "Skipping content enhancement: FIRECRAWL_API_KEY is not configured".

Definition log_loop_count (research_loop_count : Z) : string :=
  "Skipping content enhancement: Research loop count is insufficient ("
  +:+ PyStr.of_int research_loop_count +:+ ")".

Definition log_already : string :=
  "Skipping content enhancement: Enhancement was already completed".

Definition log_no_content : string :=
  "⚠️ Skipping content enhancement: Missing basic research content".

Definition log_proceed : string :=
  "✅ Enhancement conditions met, proceeding to content enhancement analysis".

(** [should_enhance_content]: the line it prints and the edge it returns. *)
Definition should_enhance_content (w : World) (state : OverallState)
    : string * string :=
  if negb (truthy (default "" (getenv w "FIRECRAWL_API_KEY"))) then
    (log_no_key, "continue_without_enhancement")
  else
    let research_loop_count := default 0 (st_research_loop_count state) in
    if research_loop_count <? 1 then
      (log_loop_count research_loop_count, "continue_without_enhancement")
    else if match st_enhancement_status state with
            | Some s => String.eqb s "completed" || String.eqb s "skipped"
            | None => false
            end
    then (log_already, "continue_without_enhancement")
    else
      let current_findings := default [] (st_web_research_result state) in
      if (length current_findings <? 1)%nat then
        (log_no_content, "continue_without_enhancement")
      else (log_proceed, "analyze_enhancement_need").

Definition supplemented_message : string :=
  "Content has been sufficiently supplemented through deep crawling".

(** [enhanced_reflection] *)
Definition enhanced_reflection (w : World) (state : OverallState)
    (config : RunnableConfig) : result ReflectionState :=
  reflection_result ← reflection w state config;
  let enhancement_status := st_enhancement_status state in
  let enhanced_sources_count :=
    default 0 (st_enhanced_sources_count state) in
  if match enhancement_status with
     | Some s => String.eqb s "completed"
     | None => false
     end && (0 <? enhanced_sources_count)
  then
    if negb (is_sufficient reflection_result) then
      count ← float_of_int enhanced_sources_count;
      let enhancement_boost :=
        F64.min2 (F64.mul count F64.f0_3) F64.f0_8 in
      if F64.geb enhancement_boost F64.f0_6 then
        Ok {| is_sufficient := true;
              knowledge_gap := supplemented_message;
              rs_rest := rs_rest reflection_result |}
      else Ok reflection_result
    else Ok reflection_result
  else Ok reflection_result.

End Nodes.

(* ================================================================== *)
(** ** enhanced_graph_nodes.py: the analysis node with its output *)
(* ================================================================== *)

(** A raised object: whether it is an instance of [Exception], which a
    [KeyboardInterrupt] and a [SystemExit] are not, and its message
    [str(e)]. *)
Record raised := {
  is_exception : bool;
  exc_message : string
}.

(** A computation that returns a value or raises an object. *)
Inductive run (A : Type) : Type :=
| Returns (a : A)
| Raises (e : raised).

Arguments Returns {A} a.
Arguments Raises {A} e.

#[global] Instance run_ret : MRet run := fun A a => Returns a.

#[global] Instance run_bind : MBind run :=
  fun A B k c =>
    match c with
    | Returns a => k a
    | Raises e => Raises e
    end.

(** What the analysis node calls outside this module.
    - [rt_print line]: [print(line)]; writing to the standard output can
      raise, for instance a [UnicodeEncodeError] when the encoding of the
      stream has no code for a character of the line.
    - [rt_get_research_topic], [rt_get_decision_maker], [rt_llm_invoke]:
      as [get_research_topic], [get_decision_maker] and [llm_invoke] of
      [World].
    - [rt_scrape_url app url]: the call [app.scrape_url(url)].
    - [rt_now_isoformat k]: [datetime.now().isoformat()] at its [k]-th
      use. *)
Record Runtime := {
  rt_print : string -> run unit;
  rt_get_research_topic : list message -> run string;
  rt_get_decision_maker : run DecisionMakerInstance;
  rt_llm_invoke : RunnableConfig -> string -> run string;
  rt_scrape_url : FirecrawlApp -> string -> run (option scrape_response);
  rt_now_isoformat : nat -> string
}.

Module NodeIO.

(** An exception of the interpreter itself, an [IndexError] or a
    [KeyError]: an instance of [Exception]. *)
Definition of_result {A : Type} (r : result A) : run A :=
  match r with
  | Ok a => Returns a
  | Raise msg => Raises {| is_exception := true; exc_message := msg |}
  end.

(** [try: body  except Exception as e: handler(str(e))] *)
Definition try_except {A : Type} (body : run A) (handler : string -> run A)
    : run A :=
  match body with
  | Returns a => Returns a
  | Raises e => if is_exception e then handler (exc_message e) else Raises e
  end.

(** [state["messages"]] and the helper of [agent.utils]. *)
Definition topic_of_messages (rt : Runtime) (state : OverallState)
    : run string :=
  match st_messages state with
  | Some ms => rt_get_research_topic rt ms
  | None => of_result (Raise "'messages'")
  end.

(** Lines 34-41: the research topic. *)
Definition research_topic_of (rt : Runtime) (state : OverallState)
    : run string :=
  let plan := default [] (st_plan state) in
  let current_pointer := default 0 (st_current_task_pointer state) in
  if negb (Nat.eqb (length plan) 0)
     && (current_pointer <? Z.of_nat (length plan))
  then
    t ← of_result (py_index plan current_pointer);
    match description t with
    | Some d => Returns d
    | None => of_result (Raise "'description'")
    end
  else
    match st_user_query state with
    | Some q => if truthy q then Returns q else topic_of_messages rt state
    | None => topic_of_messages rt state
    end.

(** Lines 110-129: the body of the inner [try] for one URL that is not
    empty.  It returns the list of results and the number of readings of
    the clock after it, and how it ended: a result is appended before the
    line of its success is printed, so it stays in the list when that
    [print] raises. *)
Definition crawl_one (rt : Runtime) (app : FirecrawlApp)
    (url_info : priority_url) (enhanced_results : list enhanced_result)
    (k : nat) : list enhanced_result * nat * run unit :=
  let url := pu_url url_info in
  match rt_print rt ("  Crawling: " +:+ pu_title url_info) with
  | Raises e => (enhanced_results, k, Raises e)
  | Returns _ =>
      match rt_scrape_url rt app url with
      | Raises e => (enhanced_results, k, Raises e)
      | Returns (Some r) =>
          if success r then
            let markdown_content :=
              match markdown r with
              | Some m => if truthy m then m else ""
              | None => ""
              end in
            (enhanced_results
             ++ [ {| er_url := url;
                     er_title := pu_title url_info;
                     er_original_priority := pu_priority_score url_info;
                     er_enhanced_content := markdown_content;
                     er_content_length :=
                       Z.of_nat (String.length markdown_content);
                     er_source_type := "firecrawl_enhanced";
                     er_timestamp := rt_now_isoformat rt k |} ],
             S k,
             rt_print rt
               ("    ✅ Success: "
                +:+ PyStr.of_int (Z.of_nat (String.length markdown_content))
                +:+ " characters"))
          else
            (enhanced_results, k,
             rt_print rt
               ("    ❌ Failed: "
                +:+ match error r with
                    | Some msg => msg
                    | None => "None"
                    end))
      | Returns None =>
          (enhanced_results, k, rt_print rt "    ❌ Failed: Unknown error")
      end
  end.

(** Lines 104-133: the crawl loop.  An instance of [Exception] raised
    for one URL is printed and the loop goes on; an exception of that
    [print], and a raised object of another class, leave the loop. *)
Fixpoint crawl (rt : Runtime) (app : FirecrawlApp)
    (urls : list priority_url) (enhanced_results : list enhanced_result)
    (k : nat) : run (list enhanced_result) :=
  match urls with
  | [] => Returns enhanced_results
  | url_info :: rest =>
      if negb (truthy (pu_url url_info))
      then crawl rt app rest enhanced_results k
      else
        match crawl_one rt app url_info enhanced_results k with
        | (enhanced_results, k, Returns _) =>
            crawl rt app rest enhanced_results k
        | (enhanced_results, k, Raises e) =>
            if is_exception e then
              _ ← rt_print rt ("    ❌ Exception: " +:+ exc_message e);
              crawl rt app rest enhanced_results k
            else Raises e
        end
  end.

(** Lines 33-165: the body of the outer [try]. *)
Definition analysis_body (rt : Runtime) (state : OverallState)
    (config : RunnableConfig) : run (gmap string update_value) :=
  research_topic ← research_topic_of rt state;
  let current_findings := default [] (st_web_research_result state) in
  let grounding_sources := Nodes.grounding_sources_of state in
  _ ← rt_print rt "🤔 Analyzing content enhancement needs...";
  _ ← rt_print rt ("  Research Topic: " +:+ research_topic);
  _ ← rt_print rt ("  Current Findings Count: "
                   +:+ PyStr.of_int (Z.of_nat (length current_findings)));
  _ ← rt_print rt ("  Available Sources: "
                   +:+ PyStr.of_int (Z.of_nat (length grounding_sources)));
  maker ← rt_get_decision_maker rt;
  decision_text ←
    rt_llm_invoke rt config
      (DecisionMaker._build_analysis_prompt
         research_topic current_findings grounding_sources);
  let decision :=
    DecisionMaker._parse_llm_decision decision_text grounding_sources in
  _ ← rt_print rt "📊 Enhancement Decision Results:";
  _ ← rt_print rt ("  Enhancement Needed: "
                   +:+ (if needs_enhancement decision
                        then "True" else "False"));
  _ ← rt_print rt ("  Confidence: "
                   +:+ F64.format_2f (confidence_score decision));
  _ ← rt_print rt ("  Enhancement Type: " +:+ enhancement_type decision);
  _ ← rt_print rt ("  Priority URLs Count: "
                   +:+ PyStr.of_int
                         (Z.of_nat (length (priority_urls decision))));
  let state_update : gmap string update_value :=
    {[ "enhancement_decision" :=
         VDecision (Nodes.decision_to_dict decision) ]} in
  if negb (needs_enhancement decision) then
    _ ← rt_print rt
          "✅ Current content quality is sufficient, no enhancement needed";
    Returns (<[ "enhancement_status" := VStr "skipped" ]> state_update)
  else
    match firecrawl_app maker with
    | None =>
        _ ← rt_print rt
              "⚠️ Missing FIRECRAWL_API_KEY, skipping content enhancement";
        Returns
          (<[ "enhancement_status" := VStr "skipped_no_api" ]> state_update)
    | Some app =>
        _ ← rt_print rt "🔥 Executing Firecrawl content enhancement...";
        enhanced_results ← crawl rt app (priority_urls decision) [] 0;
        match enhanced_results with
        | _ :: _ =>
            let enhanced_contents :=
              map Nodes.format_enhanced enhanced_results in
            let state_update :=
              <[ "enhanced_content_results" := VResults enhanced_results ]>
              (<[ "web_research_result" := VStrList enhanced_contents ]>
              (<[ "enhancement_status" := VStr "completed" ]>
              (<[ "enhanced_sources_count" :=
                    VInt (Z.of_nat (length enhanced_results)) ]>
               state_update))) in
            _ ← rt_print rt
                  ("✅ Content enhancement completed: "
                   +:+ PyStr.of_int (Z.of_nat (length enhanced_results))
                   +:+ " sources");
            Returns state_update
        | [] =>
            _ ← rt_print rt
                  "❌ Content enhancement failed, no content was successfully crawled";
            Returns (<[ "enhancement_status" := VStr "failed" ]> state_update)
        end
    end.

(** Lines 167-173: the handler, which prints the message before it
    returns. *)
Definition handler (rt : Runtime) (e : string)
    : run (gmap string update_value) :=
  let error_message :=
    "Content enhancement analysis node exception: " +:+ e in
  _ ← rt_print rt ("❌ " +:+ error_message);
  Returns
    (<[ "enhancement_status" := VStr "error" ]>
     {[ "enhancement_error" := VStr error_message ]}).

(** [content_enhancement_analysis] *)
Definition content_enhancement_analysis (rt : Runtime)
    (state : OverallState) (config : RunnableConfig)
    : run (gmap string update_value) :=
  try_except (analysis_body rt state config) (handler rt).

End NodeIO.

(* ================================================================== *)
(** ** content_enhancement_decision.py: quality, crawl method, singleton *)
(* ================================================================== *)

(** One element of the list that [enhance_content_with_firecrawl]
    returns. *)
Record enhanced_content := {
  ec_url : string;
  ec_title : string;
  ec_original_priority : F64.float;
  ec_enhanced_content : string;
  ec_content_length : Z;
  ec_enhancement_quality : string;
  ec_source_type : string
}.

Module Enhancer.

(** [char.isdigit()] for a code point below 256: the ASCII digits and the
    superscript digits U+00B2, U+00B3 and U+00B9. *)
Definition isdigit (c : ascii) : bool :=
  PyStr.is_digit c
  || (PyStr.code c =? 178)%N || (PyStr.code c =? 179)%N
  || (PyStr.code c =? 185)%N.

(** [any(p(char) for char in content)] *)
Fixpoint any_char (p : ascii -> bool) (content : string) : bool :=
  match content with
  | EmptyString => false
  | String c t => p c || any_char p t
  end.

(** [_assess_enhancement_quality] *)
Definition _assess_enhancement_quality (content : string) : string :=
  if negb (truthy content) then "poor"
  else
    let length := Z.of_nat (String.length content) in
    let has_data := any_char isdigit content in
    let has_structure := PyStr.any_in ["#"; "##"; "###"] content in
    if (5000 <? length) && has_data && has_structure then "excellent"
    else if (1000 <? length) && (has_data || has_structure) then "good"
    else if 300 <? length then "fair"
    else "poor".

(** The loop of [enhance_content_with_firecrawl], lines 227-256. *)
Fixpoint enhance_urls (app : FirecrawlApp) (priority_urls : list priority_url)
    : list enhanced_content :=
  match priority_urls with
  | [] => []
  | url_info :: rest =>
      let url := pu_url url_info in
      if negb (truthy url) then enhance_urls app rest
      else
        match scrape_url app url with
        | Ok (Some r) =>
            if success r then
              let markdown_content :=
                match markdown r with
                | Some m => if truthy m then m else ""
                | None => ""
                end in
              {| ec_url := url;
                 ec_title := pu_title url_info;
                 ec_original_priority := pu_priority_score url_info;
                 ec_enhanced_content := markdown_content;
                 ec_content_length :=
                   Z.of_nat (String.length markdown_content);
                 ec_enhancement_quality :=
                   _assess_enhancement_quality markdown_content;
                 ec_source_type := "firecrawl_enhanced" |}
              :: enhance_urls app rest
            else enhance_urls app rest
        | Ok None => enhance_urls app rest
        | Raise _ => enhance_urls app rest
        end
  end.

(** [enhance_content_with_firecrawl]: the body of the coroutine, which
    holds no [await] and so runs from start to end when it is awaited. *)
Definition enhance_content_with_firecrawl (self : DecisionMakerInstance)
    (priority_urls : list priority_url) : list enhanced_content :=
  match firecrawl_app self with
  | None => []
  | Some app => enhance_urls app priority_urls
  end.

(** [ContentEnhancementDecisionMaker.__init__]; [new_app key] is the
    constructor call [FirecrawlApp(api_key=key)]. *)
Definition __init__ (getenv : string -> option string)
    (new_app : string -> result FirecrawlApp)
    : result DecisionMakerInstance :=
  match getenv "FIRECRAWL_API_KEY" with
  | Some key =>
      if truthy key then
        app ← new_app key;
        Ok {| firecrawl_app := Some app |}
      else Ok {| firecrawl_app := None |}
  | None => Ok {| firecrawl_app := None |}
  end.

(** [get_content_enhancement_decision_maker]: [instance] is the attribute
    [_instance] of the function, absent before the first call that
    succeeds; the call returns its result and the attribute afterwards. *)
Definition get_content_enhancement_decision_maker
    (getenv : string -> option string)
    (new_app : string -> result FirecrawlApp)
    (instance : option DecisionMakerInstance)
    : result DecisionMakerInstance * option DecisionMakerInstance :=
  match instance with
  | Some made => (Ok made, Some made)
  | None =>
      match __init__ getenv new_app with
      | Ok made => (Ok made, Some made)
      | Raise e => (Raise e, None)
      end
  end.

End Enhancer.

(* ================================================================== *)
(** ** enhanced_graph_nodes.py: the log of a decision *)
(* ================================================================== *)

Module Log.

(** The lines of the loop over [enumerate(decision.priority_urls, 1)],
    from the number [i] on. *)
Fixpoint url_lines (i : Z) (urls : list priority_url) : list string :=
  match urls with
  | [] => []
  | url_info :: rest =>
      ("    " +:+ PyStr.of_int i +:+ ". " +:+ pu_title url_info
       +:+ " (Score: " +:+ F64.format_2f (pu_priority_score url_info) +:+ ")")
      :: url_lines (i + 1) rest
  end.

(** [log_lines] when [format_enhancement_decision_log] joins it. *)
Definition log_lines (decision : EnhancementDecision) : list string :=
  let log_lines :=
    [ "📊 Content Enhancement Decision Report:";
      "  Decision: "
      +:+ (if needs_enhancement decision then "Enhancement Needed"
           else "No Enhancement Needed");
      "  Confidence: " +:+ F64.format_2f (confidence_score decision);
      "  Enhancement Type: " +:+ enhancement_type decision;
      "  Priority URLs Count: "
      +:+ PyStr.of_int (Z.of_nat (length (priority_urls decision))) ] in
  let log_lines :=
    match priority_urls decision with
    | _ :: _ =>
        log_lines ++ ["  Priority URLs:"]
        ++ url_lines 1 (priority_urls decision)
    | [] => log_lines
    end in
  log_lines
  ++ ["  Reasoning: " +:+ PyStr.take 200 (reasoning decision) +:+ "..."].

(** [format_enhancement_decision_log] *)
Definition format_enhancement_decision_log (decision : EnhancementDecision)
    : string :=
  PyStr.join PyStr.nl (log_lines decision).

End Log.

(* ================================================================== *)
(** ** configuration.py *)
(* ================================================================== *)

Module Config.

(** [cls.model_fields.keys()], in the order of the class. *)
Definition model_fields : list string :=
  [ "query_generator_model"; "reflection_model"; "answer_model";
    "number_of_initial_queries"; "max_research_loops" ].

(** [name.upper()] for a name in ASCII, as the field names are. *)
Definition upper_char (c : ascii) : ascii :=
  let n := PyStr.code c in
  if ((97 <=? n) && (n <=? 122))%N then ascii_of_N (n - 32) else c.

Fixpoint upper (s : string) : string :=
  match s with
  | EmptyString => EmptyString
  | String c t => String (upper_char c) (upper t)
  end.

(** [os.environ.get(name.upper(), configurable.get(name))] *)
Definition raw_value (getenv : string -> option string)
    (configurable : gmap string string) (name : string) : option string :=
  match getenv (upper name) with
  | Some v => Some v
  | None => configurable !! name
  end.

(** The dict [values] of [from_runnable_config]: the raw values of the
    fields without those that are [None].  A [config] that is [None] or
    has no key ["configurable"] gives the empty [configurable]. *)
Definition values (getenv : string -> option string)
    (config : option RunnableConfig) : gmap string string :=
  let configurable :=
    match config with
    | Some c => configurable c
    | None => ∅
    end in
  list_to_map
    (omap (fun name =>
             match raw_value getenv configurable name with
             | Some v => Some (name, v)
             | None => None
             end)
          model_fields).

(** [from_runnable_config]; [cls] is the constructor of the pydantic
    class, which validates the values and fills in the defaults. *)
Definition from_runnable_config {C : Type}
    (cls : gmap string string -> result C)
    (getenv : string -> option string) (config : option RunnableConfig)
    : result C :=
  cls (values getenv config).

End Config.

(* ================================================================== *)
(** ** Definitions used by the statements *)
(* ================================================================== *)

Import DecisionMaker.
Import Nodes.

(** *** Scores *)

(** The doubles that occur as scores are finite and positive; on those the
    comparison is the lexicographic order of exponent and mantissa. *)
Definition pos_finite (x : F64.float) : Prop :=
  match x with
  | S754_finite false _ _ => True
  | _ => False
  end.

(** A rule fires when one of its keys occurs in the lower-cased field. *)
Definition fires (keys : list string) (field : option string) : bool :=
  PyStr.any_in keys (PyStr.lower (dict_get field "")).

(** The score as a function of the four rules, with the additions in the
    order of the source. *)
Definition contribution (fired : bool) (v acc : F64.float) : F64.float :=
  if fired then F64.add acc v else acc.

Definition rule_score (official platform technical company : bool)
    : F64.float :=
  F64.min2
    (F64.add
       (contribution company F64.f0_2
          (contribution technical F64.f0_2
             (contribution platform F64.f0_3
                (contribution official F64.f0_4 F64.f0_0))))
       F64.f0_1)
    F64.f1_0.

(** The decimal total of the specification, as an exact rational. *)
Definition decimal_total (official platform technical company : bool) : Q :=
  Qmin ((1 # 10)
        + (if official then 4 # 10 else 0)
        + (if platform then 3 # 10 else 0)
        + (if technical then 2 # 10 else 0)
        + (if company then 2 # 10 else 0))
       1.

(** *** Ranking *)

Abbreviation scored := (source * F64.float)%type.

Definition keys_pos_finite (l : list scored) : Prop :=
  Forall (fun p => pos_finite (snd p)) l.

(** [p] may stand before [q]: the score of [p] is not the smaller one. *)
Definition not_below (p q : scored) : Prop :=
  F64.ltb (snd p) (snd q) = false.

Definition descending (l : list scored) : Prop :=
  StronglySorted not_below l.

(** The elements whose score equals [v]. *)
Definition same_score (v : F64.float) (p : scored) : bool := SFeqb (snd p) v.

Definition above_threshold (p : scored) : bool := F64.gtb (snd p) F64.f0_3.

(** The pairs of a source and its score, in the order of the input. *)
Definition score_sources (srcs : list source) : list scored :=
  map (fun src => (src, _calculate_url_priority src)) srcs.

(** The cap on the number of priority URLs. *)
Definition max_urls_of (etype : string) : nat :=
  if String.eqb etype "comprehensive" then 3%nat else 2%nat.

(** *** Binary digits *)

(** The number of binary digits of a mantissa. *)
Definition dig (p : positive) : Z := Zpos (digits2_pos p).

(** *** Texts *)

(** [needle] occurs in [s]. *)
Definition occurs (needle s : string) : Prop :=
  exists pre post, s = pre +:+ needle +:+ post.

(** [needle] occurs in [s] when the case of letters is ignored: a piece of
    [s] has [needle] as its lower case. *)
Definition occurs_nocase (needle s : string) : Prop :=
  exists pre mid post,
    s = pre +:+ mid +:+ post /\ PyStr.lower mid = needle.

(** The text of group 1: a digit, a dot, a digit. *)
Definition decimal_text (g : string) : Prop :=
  exists a b, g = String a (String "."%char (String b EmptyString))
              /\ PyStr.is_digit a = true /\ PyStr.is_digit b = true.

(** *** Updates of the analysis node *)

(** Modelled from the spec: the merge of a partial update into the shared
    state, which the orchestration engine does and which is not part of
    the sources; the spec gives it as last writer wins per key, so a key
    of the update replaces the key of the state and every other key
    stays. *)
Definition merge_update (st : OverallState) (u : gmap string update_value)
    : OverallState :=
  {| st_plan := st_plan st;
     st_current_task_pointer := st_current_task_pointer st;
     st_user_query := st_user_query st;
     st_messages := st_messages st;
     st_web_research_result :=
       match u !! "web_research_result" with
       | Some (VStrList l) => Some l
       | _ => st_web_research_result st
       end;
     st_sources_gathered := st_sources_gathered st;
     st_research_loop_count := st_research_loop_count st;
     st_enhancement_status :=
       match u !! "enhancement_status" with
       | Some (VStr s) => Some s
       | _ => st_enhancement_status st
       end;
     st_enhanced_sources_count :=
       match u !! "enhanced_sources_count" with
       | Some (VInt n) => Some n
       | _ => st_enhanced_sources_count st
       end |}.

(** The four ways in which the node ends once it has a decision. *)
Inductive outcome := Skipped | SkippedNoApi | Failed | Completed.

Definition outcome_of (w : World) (maker : DecisionMakerInstance)
    (d : EnhancementDecision) : outcome :=
  if negb (needs_enhancement d) then Skipped
  else
    match firecrawl_app maker with
    | None => SkippedNoApi
    | Some app =>
        match crawl w app 0 (priority_urls d) with
        | [] => Failed
        | _ :: _ => Completed
        end
    end.

Definition status_of (o : outcome) : string :=
  match o with
  | Skipped => "skipped"
  | SkippedNoApi => "skipped_no_api"
  | Failed => "failed"
  | Completed => "completed"
  end.

(** The block of the specification: title, source URL, character count
    and the part of the content that is shown. *)
Definition block (title url : string) (count : Z) (shown : string)
    : string :=
  PyStr.nl +:+ PyStr.nl
  +:+ "## Deep Content Enhancement - " +:+ title +:+ PyStr.nl
  +:+ PyStr.nl
  +:+ "Source: " +:+ url +:+ PyStr.nl
  +:+ "Content Length: " +:+ PyStr.of_int count
  +:+ " characters" +:+ PyStr.nl
  +:+ PyStr.nl
  +:+ shown
  +:+ PyStr.nl +:+ PyStr.nl +:+ "---" +:+ PyStr.nl.

(** What is shown of a content: all of it up to 3000 characters, else its
    first 3000 characters and an ellipsis. *)
Definition shown_content (content : string) : string :=
  if (3000 <? String.length content)%nat
  then PyStr.take 3000 content +:+ "..."
  else content.

(** A result of the crawl loop comes from a priority URL with a URL that
    is not empty, and its length field is the length of its content. *)
Definition crawled_from (urls : list priority_url) (r : enhanced_result)
    : Prop :=
  er_content_length r = Z.of_nat (String.length (er_enhanced_content r))
  /\ er_source_type r = "firecrawl_enhanced"
  /\ exists u, In u urls
               /\ er_url r = pu_url u /\ pu_url u <> ""
               /\ er_title r = pu_title u
               /\ er_original_priority r = pu_priority_score u.

(** *** The verdict of the reflection *)

(** The verdict after the override: sufficient, with the fixed message;
    the other keys stay. *)
Definition overridden (base : ReflectionState) : ReflectionState :=
  {| is_sufficient := true;
     knowledge_gap := supplemented_message;
     rs_rest := rs_rest base |}.

(** *** Inputs of the examples *)

Definition example_sources : list source :=
  [ {| src_title := Some "Weekly news"; src_url := Some "https://example.com/a";
       src_snippet := Some "s1" |};
    {| src_title := Some "Annual Report"; src_url := Some "https://blog.example.com";
       src_snippet := Some "s2" |};
    {| src_title := Some "Survey"; src_url := Some "https://arxiv.org/abs/1";
       src_snippet := Some "s3" |};
    {| src_title := Some "A Study"; src_url := Some "https://www.nasa.gov/x";
       src_snippet := Some "s4" |} ].

(** The answer of a model that gives its confidence in percent. *)
Definition percent_answer : string :=
  "**Decision**: ENHANCE" +:+ PyStr.nl +:+ "**Confidence**: 85.5%".

Definition example_state : OverallState :=
  {| st_plan := None;
     st_current_task_pointer := None;
     st_user_query := Some "solid state batteries";
     st_messages := None;
     st_web_research_result := Some ["Earlier finding."];
     st_sources_gathered := Some (map GDict example_sources);
     st_research_loop_count := Some 1;
     st_enhancement_status := None;
     st_enhanced_sources_count := None |}.

Definition example_config : RunnableConfig := {| configurable := ∅ |}.

Definition example_page (url : string) : result (option scrape_response) :=
  if String.eqb url "https://arxiv.org/abs/1" then
    Ok (Some {| success := true;
                markdown := Some "# Survey of cells";
                error := None |})
  else Raise "timeout".

Definition example_reflection : ReflectionState :=
  {| is_sufficient := false;
     knowledge_gap := "No figures on cycle life";
     rs_rest := {[ "follow_up_queries" := "cycle life of cells" ]} |}.

Definition example_maker : DecisionMakerInstance :=
  {| firecrawl_app := Some {| scrape_url := example_page |} |}.

Definition example_decision : EnhancementDecision :=
  _parse_llm_decision "**Decision**: ENHANCE"
                      (grounding_sources_of example_state).

Definition world_ok : World :=
  {| getenv := fun k =>
       if String.eqb k "FIRECRAWL_API_KEY" then Some "fc-key" else None;
     get_research_topic := fun _ => Ok "topic of the messages";
     get_decision_maker :=
       Ok {| firecrawl_app := Some {| scrape_url := example_page |} |};
     llm_invoke := fun _ _ => Ok "**Decision**: ENHANCE";
     now_isoformat := fun _ => "2025-01-01T00:00:00";
     reflection := fun _ _ => Ok example_reflection |}.

Definition world_llm_down : World :=
  {| getenv := getenv world_ok;
     get_research_topic := get_research_topic world_ok;
     get_decision_maker := get_decision_maker world_ok;
     llm_invoke := fun _ _ => Raise "429 Resource exhausted";
     now_isoformat := now_isoformat world_ok;
     reflection := reflection world_ok |}.

Definition world_no_enhance : World :=
  {| getenv := getenv world_ok;
     get_research_topic := get_research_topic world_ok;
     get_decision_maker := get_decision_maker world_ok;
     llm_invoke := fun _ _ => Ok "**Decision**: NO_ENHANCE";
     now_isoformat := now_isoformat world_ok;
     reflection := reflection world_ok |}.

Definition state_after_enhancement (n : Z) : OverallState :=
  {| st_plan := st_plan example_state;
     st_current_task_pointer := st_current_task_pointer example_state;
     st_user_query := st_user_query example_state;
     st_messages := st_messages example_state;
     st_web_research_result := st_web_research_result example_state;
     st_sources_gathered := st_sources_gathered example_state;
     st_research_loop_count := st_research_loop_count example_state;
     st_enhancement_status := Some "completed";
     st_enhanced_sources_count := Some n |}.

(** *** Definitions for the further properties *)

(** One of the four rules fires on the source. *)
Definition any_rule_fires (src : source) : bool :=
  fires official_domains (src_url src)
  || fires known_platforms (src_url src)
  || fires technical_keywords (src_title src)
  || fires company_names (src_url src).

(** A text without a newline. *)
Fixpoint newline_free (s : string) : Prop :=
  match s with
  | EmptyString => True
  | String c t => c <> PyStr.newline /\ newline_free t
  end.

(** The pattern of the confidence occurs in the text: the word, then
    characters of the same line, then a digit, a dot and a digit. *)
Definition confidence_pattern (s : string) : Prop :=
  exists pre mid g post,
    s = pre +:+ "confidence" +:+ mid +:+ g +:+ post
    /\ newline_free mid /\ decimal_text g.

(** A source that has its three keys. *)
Definition complete_source (src : source) : Prop :=
  is_Some (src_title src) /\ is_Some (src_url src)
  /\ is_Some (src_snippet src).

(** A priority URL that adds nothing to the crawled results: its URL is
    empty, or the scrape raises, or the response is falsy or not
    successful. *)
Definition scrape_fails (app : FirecrawlApp) (u : priority_url) : Prop :=
  pu_url u = ""
  \/ (exists e, scrape_url app (pu_url u) = Raise e)
  \/ scrape_url app (pu_url u) = Ok None
  \/ (exists r, scrape_url app (pu_url u) = Ok (Some r) /\ success r = false).

(** What the two crawl loops have in common in a result. *)
Definition result_core (r : enhanced_result)
    : string * string * F64.float * string * Z * string :=
  (er_url r, er_title r, er_original_priority r, er_enhanced_content r,
   er_content_length r, er_source_type r).

Definition content_core (r : enhanced_content)
    : string * string * F64.float * string * Z * string :=
  (ec_url r, ec_title r, ec_original_priority r, ec_enhanced_content r,
   ec_content_length r, ec_source_type r).

(** The state with another plan and another pointer. *)
Definition with_plan (state : OverallState) (plan : option (list task))
    (pointer : option Z) : OverallState :=
  {| st_plan := plan;
     st_current_task_pointer := pointer;
     st_user_query := st_user_query state;
     st_messages := st_messages state;
     st_web_research_result := st_web_research_result state;
     st_sources_gathered := st_sources_gathered state;
     st_research_loop_count := st_research_loop_count state;
     st_enhancement_status := st_enhancement_status state;
     st_enhanced_sources_count := st_enhanced_sources_count state |}.

(** The topic of a task: its description, or the [KeyError] of a task
    without one. *)
Definition topic_of_task (t : task) : result string :=
  match description t with
  | Some d => Ok d
  | None => Raise "'description'"
  end.

(** The state as the next nodes see it once the status and the count of a
    run are stored in it. *)
Definition with_enhancement (state : OverallState) (status : string)
    (count : option Z) : OverallState :=
  {| st_plan := st_plan state;
     st_current_task_pointer := st_current_task_pointer state;
     st_user_query := st_user_query state;
     st_messages := st_messages state;
     st_web_research_result := st_web_research_result state;
     st_sources_gathered := st_sources_gathered state;
     st_research_loop_count := st_research_loop_count state;
     st_enhancement_status := Some status;
     st_enhanced_sources_count := count |}.

(** Two priority URLs for the examples: the page of the first can be
    scraped, the scrape of the second raises. *)
Definition example_url_ok : priority_url :=
  {| pu_title := "Survey";
     pu_url := "https://arxiv.org/abs/1";
     pu_priority_score := F64.f0_8;
     pu_reasoning := "Score: 0.80" |}.

Definition example_url_down : priority_url :=
  {| pu_title := "A Study";
     pu_url := "https://www.nasa.gov/x";
     pu_priority_score := F64.literal 7 10;
     pu_reasoning := "Score: 0.70" |}.

(** An environment with the crawl credential and one without it. *)
Definition env_with_key (name : string) : option string :=
  if String.eqb name "FIRECRAWL_API_KEY" then Some "fc-key" else None.

Definition env_without_key (name : string) : option string := None.

Definition example_new_app (key : string) : result FirecrawlApp :=
  Ok {| scrape_url := example_page |}.

(** A source with its three keys filled in, the empty text for a key
    that is absent. *)
Definition with_all_keys (src : source) : source :=
  {| src_title := Some (dict_get (src_title src) "");
     src_url := Some (dict_get (src_url src) "");
     src_snippet := Some (dict_get (src_snippet src) "") |}.

(** A plan of two tasks for the examples. *)
Definition example_plan : list task :=
  [ {| description := Some "cell chemistry" |};
    {| description := Some "cycle life" |} ].

(** The [configurable] that [from_runnable_config] reads. *)
Definition configurable_of (config : option RunnableConfig)
    : gmap string string :=
  match config with
  | Some c => configurable c
  | None => ∅
  end.

(** An environment that names the reflection model, and a configuration
    that names another one. *)
Definition env_with_model (name : string) : option string :=
  if String.eqb name "REFLECTION_MODEL" then Some "gemini-2.5-pro" else None.

Definition config_with_model : RunnableConfig :=
  {| configurable := {[ "reflection_model" := "gemini-2.0-flash" ]} |}.

(** *** Tokens *)

(** Modelled from the specification, which speaks of "enhance" as a
    token: the tokens of a text are its maximal runs of letters, digits
    and underscores. *)
Definition is_word_char (c : ascii) : bool :=
  let n := PyStr.code c in
  (((48 <=? n) && (n <=? 57)) || ((65 <=? n) && (n <=? 90))
   || ((97 <=? n) && (n <=? 122)) || (n =? 95))%N.

Fixpoint tokens_from (current : string) (s : string) : list string :=
  match s with
  | EmptyString => if truthy current then [current] else []
  | String c t =>
      if is_word_char c
      then tokens_from (current +:+ String c EmptyString) t
      else (if truthy current then [current] else []) ++ tokens_from "" t
  end.

Definition tokens (s : string) : list string := tokens_from "" s.

(** *** The analysis node and its output *)

(** The calls of a [World] as a [Runtime] that prints with [out]: every
    exception of the world is an instance of [Exception]. *)
Definition runtime_of (w : World) (out : string -> run unit) : Runtime :=
  {| rt_print := out;
     rt_get_research_topic :=
       fun ms => NodeIO.of_result (get_research_topic w ms);
     rt_get_decision_maker := NodeIO.of_result (get_decision_maker w);
     rt_llm_invoke :=
       fun config prompt => NodeIO.of_result (llm_invoke w config prompt);
     rt_scrape_url := fun app url => NodeIO.of_result (scrape_url app url);
     rt_now_isoformat := now_isoformat w |}.

(** A line of ASCII characters only. *)
Fixpoint ascii_only (line : string) : bool :=
  match line with
  | EmptyString => true
  | String c t => (PyStr.code c <? 128)%N && ascii_only t
  end.

(** A standard output that always takes the line. *)
Definition utf8_console (line : string) : run unit := Returns tt.

(** A standard output with the encoding ASCII, as under the C locale or
    with [PYTHONIOENCODING=ascii]: a line with a character outside ASCII
    raises a [UnicodeEncodeError], whose message here leaves out the
    character and its position. *)
Definition ascii_console (line : string) : run unit :=
  if ascii_only line then Returns tt
  else Raises {| is_exception := true;
                 exc_message := "'ascii' codec can't encode character" |}.

(** A world in which the call of the language model is interrupted from
    the keyboard. *)
Definition runtime_interrupted : Runtime :=
  {| rt_print := utf8_console;
     rt_get_research_topic :=
       rt_get_research_topic (runtime_of world_ok utf8_console);
     rt_get_decision_maker :=
       rt_get_decision_maker (runtime_of world_ok utf8_console);
     rt_llm_invoke :=
       fun _ _ => Raises {| is_exception := false;
                            exc_message := "KeyboardInterrupt" |};
     rt_scrape_url := rt_scrape_url (runtime_of world_ok utf8_console);
     rt_now_isoformat := rt_now_isoformat (runtime_of world_ok utf8_console) |}.

(* ================================================================== *)
(** ** Facts about binary64 comparison *)
(* ================================================================== *)

Lemma ltb_pos_finite m1 e1 m2 e2 :
  F64.ltb (S754_finite false m1 e1) (S754_finite false m2 e2) = true
  <-> e1 < e2 \/ (e1 = e2 /\ (m1 < m2)%positive).
Proof.
  unfold F64.ltb, SFltb, SFcompare.
  destruct (Z.compare_spec e1 e2) as [He|He|He].
  - change (Pos.compare_cont Eq m1 m2) with (Pos.compare m1 m2).
    destruct (Pos.compare_spec m1 m2) as [Hm|Hm|Hm]; split;
      intros H; try discriminate; try reflexivity; try lia.
  - split; intros; [lia | reflexivity].
  - split; intros H; [discriminate | lia].
Qed.

Lemma ltb_pos_finite_false m1 e1 m2 e2 :
  F64.ltb (S754_finite false m1 e1) (S754_finite false m2 e2) = false
  <-> e2 < e1 \/ (e1 = e2 /\ (m2 <= m1)%positive).
Proof.
  rewrite <- not_true_iff_false, ltb_pos_finite. lia.
Qed.

Lemma ltb_asym x y :
  pos_finite x -> pos_finite y ->
  F64.ltb x y = true -> F64.ltb y x = false.
Proof.
  destruct x as [| | |[] m1 e1], y as [| | |[] m2 e2]; simpl; try tauto.
  intros _ _. rewrite ltb_pos_finite, ltb_pos_finite_false. lia.
Qed.

Lemma ltb_negtrans x y z :
  pos_finite x -> pos_finite y -> pos_finite z ->
  F64.ltb x y = false -> F64.ltb y z = false -> F64.ltb x z = false.
Proof.
  destruct x as [| | |[] m1 e1], y as [| | |[] m2 e2],
           z as [| | |[] m3 e3]; simpl; try tauto.
  intros _ _ _. rewrite !ltb_pos_finite_false. lia.
Qed.

Lemma ltb_irrefl x : pos_finite x -> F64.ltb x x = false.
Proof.
  destruct x as [| | |[] m e]; simpl; try tauto.
  intros _. rewrite ltb_pos_finite_false. lia.
Qed.

(** [x == y] on such doubles is equality of the representations. *)
Lemma eqb_pos_finite x y :
  pos_finite x -> pos_finite y -> SFeqb x y = true <-> x = y.
Proof.
  destruct x as [| | |[] m1 e1], y as [| | |[] m2 e2]; simpl; try tauto.
  intros _ _. unfold SFeqb, SFcompare.
  destruct (Z.compare_spec e1 e2) as [He|He|He].
  - change (Pos.compare_cont Eq m1 m2) with (Pos.compare m1 m2).
    destruct (Pos.compare_spec m1 m2) as [Hm|Hm|Hm]; split; intros H;
      try discriminate; try congruence;
      injection H; intros; subst; lia.
  - split; intros H; [discriminate | injection H; intros; lia].
  - split; intros H; [discriminate | injection H; intros; lia].
Qed.

(* ================================================================== *)
(** ** The URL priority scorer *)
(* ================================================================== *)

Lemma calculate_url_priority_rules (src : source) :
  _calculate_url_priority src
  = rule_score (fires official_domains (src_url src))
               (fires known_platforms (src_url src))
               (fires technical_keywords (src_title src))
               (fires company_names (src_url src)).
Proof.
  unfold _calculate_url_priority, rule_score, contribution, fires.
  reflexivity.
Qed.

Lemma rule_score_pos_finite a b c d : pos_finite (rule_score a b c d).
Proof. destruct a, b, c, d; vm_compute; exact I. Qed.

Lemma score_pos_finite (src : source) :
  pos_finite (_calculate_url_priority src).
Proof. rewrite calculate_url_priority_rules. apply rule_score_pos_finite. Qed.

Lemma rule_score_range a b c d :
  F64.leb F64.f0_0 (rule_score a b c d) = true
  /\ F64.leb (rule_score a b c d) F64.f1_0 = true.
Proof. destruct a, b, c, d; vm_compute; split; reflexivity. Qed.

Lemma rule_score_near_decimal a b c d :
  (Qabs (F64.to_Q (rule_score a b c d) - decimal_total a b c d)
   <= 1 # (2 ^ 53))%Q.
Proof.
  apply Qle_bool_iff.
  destruct a, b, c, d; vm_compute; reflexivity.
Qed.

(** Each rule counts once, however many of its keys occur. *)
Example score_counts_a_rule_once :
  _calculate_url_priority
    {| src_title := Some "Notes";
       src_url := Some "https://www.GOV.edu.org/";
       src_snippet := None |}
  = F64.f0_5.
Proof. vm_compute. reflexivity. Qed.

(** The sum is a sum of doubles: a known platform on an official domain
    scores 0.7999999999999999, the double just below 0.8, and a technical
    title alone scores 0.30000000000000004, just above 0.3. *)
Example score_is_a_binary64_sum :
  _calculate_url_priority
    {| src_title := Some "Cells";
       src_url := Some "https://en.wikipedia.org/wiki/Cell";
       src_snippet := None |}
  = S754_finite false 7205759403792793 (-53)
  /\ F64.f0_8 = S754_finite false 7205759403792794 (-53)
  /\ _calculate_url_priority
       {| src_title := Some "Annual Report";
          src_url := Some "https://blog.example.com";
          src_snippet := None |}
     = S754_finite false 5404319552844596 (-54)
  /\ F64.f0_3 = S754_finite false 5404319552844595 (-54).
Proof. vm_compute. repeat split; reflexivity. Qed.

(* ================================================================== *)
(** ** The descending stable sort of the scored sources *)
(* ================================================================== *)

Section SortFacts.

Lemma insert_desc_perm x l : Permutation (insert_desc x l) (x :: l).
Proof.
  induction l as [|y t IH]; simpl.
  - apply Permutation_refl.
  - destruct (F64.ltb (snd x) (snd y)).
    + apply Permutation_trans with (y :: x :: t).
      * apply perm_skip, IH.
      * apply perm_swap.
    + apply Permutation_refl.
Qed.

Lemma sort_desc_perm l : Permutation (sort_desc l) l.
Proof.
  induction l as [|x t IH]; simpl.
  - apply perm_nil.
  - apply Permutation_trans with (x :: sort_desc t).
    + apply insert_desc_perm.
    + apply perm_skip, IH.
Qed.

Lemma keys_pos_finite_perm l l' :
  Permutation l l' -> keys_pos_finite l -> keys_pos_finite l'.
Proof. intros Hp. unfold keys_pos_finite. apply Permutation_Forall, Hp. Qed.

Lemma insert_desc_sorted x l :
  pos_finite (snd x) -> keys_pos_finite l ->
  descending l -> descending (insert_desc x l).
Proof.
  intros Hx Hl Hs. induction Hs as [|y t Hs IH Hy]; simpl.
  - constructor; constructor.
  - inversion Hl as [|? ? Hpy Hpt]; subst.
    destruct (F64.ltb (snd x) (snd y)) eqn:Hxy.
    + constructor; [apply IH, Hpt |].
      apply (Permutation_Forall (Permutation_sym (insert_desc_perm x t))).
      constructor; [| exact Hy].
      apply ltb_asym; assumption.
    + constructor; [constructor; assumption |].
      constructor; [exact Hxy |].
      rewrite Forall_forall in Hy, Hpt |- *.
      intros z Hz. unfold not_below.
      apply ltb_negtrans with (y := snd y); auto.
      apply Hy, Hz.
Qed.

Lemma sort_desc_sorted l : keys_pos_finite l -> descending (sort_desc l).
Proof.
  induction l as [|x t IH]; intros Hl; simpl.
  - constructor.
  - inversion Hl; subst.
    apply insert_desc_sorted; auto.
    apply (keys_pos_finite_perm t); [| assumption].
    apply Permutation_sym, sort_desc_perm.
Qed.

Lemma same_score_lt v x y :
  pos_finite (snd x) -> pos_finite (snd y) ->
  same_score v x = true -> F64.ltb (snd x) (snd y) = true ->
  same_score v y = false.
Proof.
  unfold same_score. intros Hx Hy Hxv Hlt.
  destruct (SFeqb (snd y) v) eqn:Hyv; [| reflexivity].
  assert (Hv : pos_finite v).
  { revert Hx Hxv. unfold SFeqb, SFcompare.
    destruct (snd x) as [| | |[] ? ?], v as [[]|[]| |[] ? ?];
      simpl; intros; try tauto; discriminate. }
  apply eqb_pos_finite in Hxv, Hyv; auto.
  rewrite Hxv, <- Hyv, ltb_irrefl in Hlt; [discriminate | assumption].
Qed.

Lemma insert_desc_stable v x l :
  pos_finite (snd x) -> keys_pos_finite l ->
  List.filter (same_score v) (insert_desc x l)
  = List.filter (same_score v) (x :: l).
Proof.
  intros Hx Hl. induction l as [|y t IH]; [reflexivity |].
  inversion Hl as [|? ? Hy Ht]; subst. simpl.
  destruct (F64.ltb (snd x) (snd y)) eqn:Hxy; [| reflexivity].
  simpl. rewrite (IH Ht). simpl.
  destruct (same_score v x) eqn:Hvx; [| reflexivity].
  rewrite (same_score_lt v x y); auto.
Qed.

Lemma sort_desc_stable v l :
  keys_pos_finite l ->
  List.filter (same_score v) (sort_desc l) = List.filter (same_score v) l.
Proof.
  induction l as [|x t IH]; intros Hl; [reflexivity |].
  inversion Hl; subst. simpl sort_desc.
  rewrite insert_desc_stable; auto.
  - simpl. rewrite IH; auto.
  - apply (keys_pos_finite_perm t); [| assumption].
    apply Permutation_sym, sort_desc_perm.
Qed.

(** A score above the threshold stays above it for every element that
    may stand earlier. *)
Lemma above_threshold_upward x z :
  pos_finite (snd x) -> pos_finite (snd z) ->
  not_below x z -> above_threshold z = true -> above_threshold x = true.
Proof.
  unfold not_below, above_threshold, F64.gtb. intros Hx Hz Hxz Hz3.
  fold (F64.ltb F64.f0_3 (snd z)) in Hz3.
  fold (F64.ltb F64.f0_3 (snd x)).
  destruct (F64.ltb F64.f0_3 (snd x)) eqn:H3x; [reflexivity |].
  assert (H : F64.ltb F64.f0_3 (snd z) = false).
  { apply ltb_negtrans with (y := snd x); auto. exact I. }
  congruence.
Qed.

Lemma descending_none_above x t :
  pos_finite (snd x) -> keys_pos_finite t ->
  Forall (not_below x) t -> above_threshold x = false ->
  List.filter above_threshold t = [].
Proof.
  intros Hx Ht Hall Hlow. induction t as [|z t IH]; [reflexivity |].
  inversion Ht; inversion Hall; subst. simpl.
  destruct (above_threshold z) eqn:Hz.
  - rewrite (above_threshold_upward x z) in Hlow; auto. discriminate.
  - apply IH; assumption.
Qed.

Lemma In_firstn_In (A : Type) (k : nat) (l : list A) (z : A) :
  In z (firstn k l) -> In z l.
Proof.
  revert k. induction l as [|a t IH]; intros [|k]; simpl; try tauto.
  intros [H|H]; [left; exact H | right; exact (IH k H)].
Qed.

(** On a descending list, cutting to the first [k] elements and keeping the
    scores above the threshold can be done in either order. *)
Lemma filter_firstn_descending k l :
  keys_pos_finite l -> descending l ->
  List.filter above_threshold (firstn k l)
  = firstn k (List.filter above_threshold l).
Proof.
  intros Hl Hs. revert k.
  induction Hs as [|x t Hs IH Hx]; intros k.
  - destruct k; reflexivity.
  - inversion Hl as [|? ? Hpx Hpt]; subst.
    destruct k as [|k]; [reflexivity |]. simpl.
    destruct (above_threshold x) eqn:Hax.
    + simpl. f_equal. apply IH, Hpt.
    + rewrite (descending_none_above x t); auto.
      assert (Hnone : List.filter above_threshold (firstn k t) = []).
      { apply (descending_none_above x); auto.
        - unfold keys_pos_finite in *. rewrite List.Forall_forall in *.
          intros z Hz. apply Hpt, (In_firstn_In _ _ _ _ Hz).
        - rewrite List.Forall_forall in *.
          intros z Hz. apply Hx, (In_firstn_In _ _ _ _ Hz). }
      rewrite Hnone. destruct k; reflexivity.
Qed.

End SortFacts.

Section FilterFacts.

Context {A : Type}.

Lemma filter_permutation (f : A -> bool) (l l' : list A) :
  Permutation l l' -> Permutation (List.filter f l) (List.filter f l').
Proof.
  induction 1 as [|x l l' _ IH|x y l|l l' l'' _ IH1 _ IH2]; simpl.
  - apply perm_nil.
  - destruct (f x); [apply perm_skip |]; exact IH.
  - destruct (f x), (f y);
      try apply perm_swap; apply Permutation_refl.
  - apply Permutation_trans with (List.filter f l'); assumption.
Qed.

Lemma filter_comm (f g : A -> bool) (l : list A) :
  List.filter f (List.filter g l) = List.filter g (List.filter f l).
Proof.
  induction l as [|x t IH]; [reflexivity |]. simpl.
  destruct (f x) eqn:Hf, (g x) eqn:Hg; simpl;
    rewrite ?Hf, ?Hg, IH; reflexivity.
Qed.

Lemma filter_strongly_sorted (R : A -> A -> Prop) (f : A -> bool)
    (l : list A) :
  StronglySorted R l -> StronglySorted R (List.filter f l).
Proof.
  induction 1 as [|x t Hs IH Hx]; simpl; [constructor |].
  destruct (f x); [| exact IH].
  constructor; [exact IH |].
  rewrite List.Forall_forall in *.
  intros z Hz. apply Hx. apply filter_In in Hz. tauto.
Qed.

End FilterFacts.

(* ================================================================== *)
(** ** Parsing the decision text *)
(* ================================================================== *)

Lemma score_sources_pos_finite srcs : keys_pos_finite (score_sources srcs).
Proof.
  unfold keys_pos_finite, score_sources.
  apply List.Forall_forall. intros p Hp.
  apply in_map_iff in Hp. destruct Hp as [s [<- _]].
  apply score_pos_finite.
Qed.

Lemma parse_priority_urls_unfold (text : string) (srcs : list source) :
  let d := _parse_llm_decision text srcs in
  priority_urls d
  = if needs_enhancement d then
      match srcs with
      | [] => []
      | _ :: _ =>
          map make_priority_url
              (List.filter above_threshold
                 (firstn (max_urls_of (enhancement_type d))
                         (sort_desc (score_sources srcs))))
      end
    else [].
Proof.
  unfold _parse_llm_decision.
  cbn [needs_enhancement priority_urls enhancement_type].
  destruct (PyStr.contains "enhance" (PyStr.lower text)
            && negb (PyStr.contains "no_enhance" (PyStr.lower text)));
    destruct srcs; reflexivity.
Qed.

(** C2.  When the decision needs enhancement and there is a source, the
    priority URLs are built from a list [ranked] of scored sources that
    holds exactly the sources whose score is above 0.3, in descending
    order of score, sources of equal score in the order of the input;
    the list is cut to 3 entries for the type "comprehensive" and to 2
    otherwise, and each entry has the title and url of its source, the
    score, and "Score: " followed by the score with two decimals. *)
Theorem parse_llm_decision_priority_urls
    (decision_text : string) (grounding_sources : list source) :
  let d := _parse_llm_decision decision_text grounding_sources in
  needs_enhancement d = true ->
  grounding_sources <> [] ->
  exists ranked : list scored,
    Permutation ranked
      (List.filter (fun p => F64.gtb (snd p) F64.f0_3)
                   (score_sources grounding_sources))
    /\ descending ranked
    /\ (forall v,
          List.filter (same_score v) ranked
          = List.filter (same_score v)
              (List.filter (fun p => F64.gtb (snd p) F64.f0_3)
                           (score_sources grounding_sources)))
    /\ priority_urls d
       = map (fun p =>
                {| pu_title := dict_get (src_title (fst p)) "";
                   pu_url := dict_get (src_url (fst p)) "";
                   pu_priority_score := snd p;
                   pu_reasoning := "Score: " +:+ F64.format_2f (snd p) |})
             (firstn (if String.eqb (enhancement_type d) "comprehensive"
                      then 3%nat else 2%nat)
                     ranked).
Proof.
  intros d Hneeds Hsrc.
  pose proof (score_sources_pos_finite grounding_sources) as Hpf.
  pose proof (sort_desc_perm (score_sources grounding_sources)) as Hperm.
  assert (Hpf' : keys_pos_finite (sort_desc (score_sources grounding_sources))).
  { apply (keys_pos_finite_perm (score_sources grounding_sources)); auto.
    apply Permutation_sym, Hperm. }
  exists (List.filter above_threshold
            (sort_desc (score_sources grounding_sources))).
  split; [| split; [| split]].
  - apply (filter_permutation above_threshold), Hperm.
  - apply filter_strongly_sorted, sort_desc_sorted, Hpf.
  - intros v.
    rewrite (filter_comm (same_score v) above_threshold).
    rewrite sort_desc_stable by exact Hpf.
    apply filter_comm.
  - pose proof (parse_priority_urls_unfold decision_text grounding_sources)
      as Hu.
    cbv zeta in Hu. fold d in Hu. rewrite Hneeds in Hu.
    destruct grounding_sources as [|s0 rest]; [congruence |].
    rewrite Hu.
    rewrite filter_firstn_descending
      by (auto; apply sort_desc_sorted, Hpf).
    unfold max_urls_of.
    apply map_ext. intros [src sc]. reflexivity.
Qed.

Lemma parse_llm_decision_priority_urls_witness :
  needs_enhancement
    (_parse_llm_decision "**Decision**: ENHANCE" example_sources) = true
  /\ example_sources <> []
  /\ exists ranked : list scored,
       Permutation ranked
         (List.filter (fun p => F64.gtb (snd p) F64.f0_3)
                      (score_sources example_sources))
       /\ descending ranked
       /\ (forall v,
             List.filter (same_score v) ranked
             = List.filter (same_score v)
                 (List.filter (fun p => F64.gtb (snd p) F64.f0_3)
                              (score_sources example_sources)))
       /\ priority_urls
            (_parse_llm_decision "**Decision**: ENHANCE" example_sources)
          = map (fun p =>
                   {| pu_title := dict_get (src_title (fst p)) "";
                      pu_url := dict_get (src_url (fst p)) "";
                      pu_priority_score := snd p;
                      pu_reasoning := "Score: " +:+ F64.format_2f (snd p) |})
                (firstn
                   (if String.eqb
                         (enhancement_type
                            (_parse_llm_decision "**Decision**: ENHANCE"
                                                 example_sources))
                         "comprehensive"
                    then 3%nat else 2%nat)
                   ranked).
Proof.
  split; [vm_compute; reflexivity |].
  split; [discriminate |].
  apply (parse_llm_decision_priority_urls
           "**Decision**: ENHANCE" example_sources).
  - vm_compute; reflexivity.
  - discriminate.
Defined.

Example priority_urls_of_example :
  map (fun u => (pu_title u, pu_reasoning u))
      (priority_urls
         (_parse_llm_decision "**Decision**: ENHANCE" example_sources))
  = [("Survey", "Score: 0.80"); ("A Study", "Score: 0.70")].
Proof. vm_compute. reflexivity. Qed.

(* ================================================================== *)
(** ** Rounding of positive numbers in binary64 *)
(* ================================================================== *)

Lemma dig_pos p : 1 <= dig p.
Proof. unfold dig. lia. Qed.

Lemma dig_bounds p : 2 ^ (dig p - 1) <= Zpos p < 2 ^ dig p.
Proof.
  unfold dig. induction p as [p IH|p IH|]; simpl digits2_pos.
  - rewrite Pos2Z.inj_succ.
    replace (Z.succ (Zpos (digits2_pos p)) - 1) with (Z.succ (Zpos (digits2_pos p) - 1)) by lia.
    rewrite !Z.pow_succ_r by lia. lia.
  - rewrite Pos2Z.inj_succ.
    replace (Z.succ (Zpos (digits2_pos p)) - 1) with (Z.succ (Zpos (digits2_pos p) - 1)) by lia.
    rewrite !Z.pow_succ_r by lia. lia.
  - simpl. lia.
Qed.

Lemma dig_ge p k : 0 <= k -> 2 ^ k <= Zpos p -> k + 1 <= dig p.
Proof.
  intros Hk H. destruct (Z_lt_le_dec (dig p) (k + 1)) as [Hlt|]; [| assumption].
  pose proof (dig_bounds p) as [_ Hu]. pose proof (dig_pos p).
  assert (2 ^ dig p <= 2 ^ k) by (apply Z.pow_le_mono_r; lia). lia.
Qed.

Lemma dig_le p k : 0 <= k -> Zpos p < 2 ^ k -> dig p <= k.
Proof.
  intros Hk H. destruct (Z_lt_le_dec k (dig p)) as [Hlt|]; [| assumption].
  pose proof (dig_bounds p) as [Hl _].
  assert (2 ^ k <= 2 ^ (dig p - 1)) by (apply Z.pow_le_mono_r; lia). lia.
Qed.

Lemma dig_mono p q : (p <= q)%positive -> dig p <= dig q.
Proof.
  intros H. pose proof (dig_bounds p) as [Hl _]. pose proof (dig_pos p).
  assert (dig p - 1 + 1 <= dig q) by (apply dig_ge; lia). lia.
Qed.

Lemma shr_1_m r : 0 <= shr_m r -> shr_m (shr_1 r) = shr_m r / 2.
Proof.
  destruct r as [m rb sb]. simpl. intros Hm.
  rewrite <- Z.div2_div.
  destruct m as [|[p|p|]|p]; simpl; try reflexivity; lia.
Qed.

Lemma iter_shr_1_m k : forall r, 0 <= shr_m r ->
  shr_m (SpecFloat.iter_pos shr_1 k r) = shr_m r / 2 ^ Zpos k.
Proof.
  assert (Hnn : forall r, 0 <= shr_m r -> 0 <= shr_m (shr_1 r)).
  { intros r Hr. rewrite shr_1_m by assumption. apply Z.div_pos; lia. }
  induction k as [k IH|k IH|]; intros r Hr; simpl SpecFloat.iter_pos.
  - rewrite IH.
    + rewrite IH by auto. rewrite shr_1_m by assumption.
      rewrite !Z.div_div by (try apply Z.pow_pos_nonneg; lia).
      f_equal.
      assert (E : Zpos k~1 = 1 + Zpos k + Zpos k) by lia.
      rewrite E, !Z.pow_add_r by lia. rewrite Z.pow_1_r. lia.
    + rewrite IH by auto. apply Z.div_pos; [auto | apply Z.pow_pos_nonneg; lia].
  - rewrite IH.
    + rewrite IH by auto.
      rewrite !Z.div_div by (try apply Z.pow_pos_nonneg; lia).
      f_equal.
      assert (E : Zpos k~0 = Zpos k + Zpos k) by lia.
      rewrite E, !Z.pow_add_r by lia. lia.
    + rewrite IH by auto. apply Z.div_pos; [auto | apply Z.pow_pos_nonneg; lia].
  - rewrite shr_1_m by assumption. reflexivity.
Qed.

Lemma fexp_normal x : -1021 <= x -> fexp F64.prec F64.emax x = x - 53.
Proof. intros H. unfold fexp, emin, F64.prec, F64.emax. lia. Qed.

(** The first component of [shr_fexp]: the mantissa loses the digits
    beyond 53, the exponent grows by as much. *)
Lemma shr_fexp_pos p e l :
  -1021 <= dig p + e ->
  let k := Z.max 0 (dig p - 53) in
  shr_m (fst (shr_fexp F64.prec F64.emax (Zpos p) e l)) = Zpos p / 2 ^ k
  /\ snd (shr_fexp F64.prec F64.emax (Zpos p) e l) = e + k.
Proof.
  intros Hn k. unfold shr_fexp, shr. simpl Zdigits2. fold (dig p).
  rewrite fexp_normal by assumption.
  assert (Hm : shr_m (shr_record_of_loc (Zpos p) l) = Zpos p)
    by (destruct l as [|[]]; reflexivity).
  destruct (dig p + e - 53 - e) as [|q|q] eqn:Hq; simpl fst; simpl snd.
  - replace k with 0 by lia. rewrite Hm, Z.pow_0_r, Z.div_1_r. lia.
  - replace k with (Zpos q) by lia.
    rewrite iter_shr_1_m by (rewrite Hm; lia). rewrite Hm. lia.
  - replace k with 0 by lia. rewrite Hm, Z.pow_0_r, Z.div_1_r. lia.
Qed.

(** Dropping the digits beyond 53 leaves a positive mantissa of at most 53
    digits, and exactly 53 when digits were dropped. *)
Lemma drop_digits p :
  let k := Z.max 0 (dig p - 53) in
  exists q, Zpos p / 2 ^ k = Zpos q
            /\ dig q + k = dig p.
Proof.
  intros k. pose proof (dig_bounds p) as [Hl Hu]. pose proof (dig_pos p).
  destruct (Z_le_gt_dec (dig p) 53) as [Hd|Hd].
  - exists p. replace k with 0 by lia. rewrite Z.pow_0_r, Z.div_1_r. lia.
  - assert (Hk : k = dig p - 53) by lia.
    assert (H2k : 0 < 2 ^ k) by (apply Z.pow_pos_nonneg; lia).
    assert (Hlo : 2 ^ 52 <= Zpos p / 2 ^ k).
    { apply Z.div_le_lower_bound; [lia |].
      rewrite Z.mul_comm, <- Z.pow_add_r by lia.
      replace (52 + k) with (dig p - 1) by lia. exact Hl. }
    assert (Hhi : Zpos p / 2 ^ k < 2 ^ 53).
    { apply Z.div_lt_upper_bound; [lia |].
      rewrite <- Z.pow_add_r by lia.
      replace (k + 53) with (dig p) by lia. exact Hu. }
    destruct (Zpos p / 2 ^ k) as [|q|q] eqn:Hq; try lia.
    exists q. split; [reflexivity |].
    assert (dig q <= 53) by (apply dig_le; lia).
    assert (52 + 1 <= dig q) by (apply dig_ge; lia). lia.
Qed.

Lemma round_nearest_even_bounds m l :
  m <= round_nearest_even m l <= m + 1.
Proof.
  unfold round_nearest_even. destruct l as [|[]]; try lia.
  destruct (Z.even m); lia.
Qed.

(** Rounding a positive mantissa with an exponent in the normal range:
    the result is a positive finite double, or the positive infinity when
    the exponent leaves the range; the order of magnitude, digits plus
    exponent, does not shrink. *)
Lemma binary_round_aux_pos p e l :
  -1021 <= dig p + e ->
  exists m' e',
    dig p + e - 53 <= e'
    /\ e' <= Z.max e (dig p + e - 53) + 1
    /\ dig p + e <= dig m' + e'
    /\ binary_round_aux F64.prec F64.emax false (Zpos p) e l
       = if e' <=? F64.emax - F64.prec then S754_finite false m' e'
         else S754_infinity false.
Proof.
  intros Hn. unfold binary_round_aux.
  pose proof (shr_fexp_pos p e l Hn) as [Hm1 He1].
  destruct (shr_fexp F64.prec F64.emax (Zpos p) e l) as [mrs1 e1].
  simpl fst in Hm1; simpl snd in He1.
  destruct (drop_digits p) as [q0 [Hq0 Hd0]]. cbv zeta in Hm1, He1.
  rewrite Hq0 in Hm1.
  pose proof (round_nearest_even_bounds (shr_m mrs1) (loc_of_shr_record mrs1))
    as Hr.
  destruct (round_nearest_even (shr_m mrs1) (loc_of_shr_record mrs1))
    as [|q1|q1] eqn:Hq1; try lia.
  assert (Hq01 : (q0 <= q1)%positive) by lia.
  pose proof (dig_mono q0 q1 Hq01) as Hd01.
  assert (Hn1 : -1021 <= dig q1 + e1) by lia.
  pose proof (shr_fexp_pos q1 e1 loc_Exact Hn1) as [Hm2 He2].
  destruct (shr_fexp F64.prec F64.emax (Zpos q1) e1 loc_Exact) as [mrs2 e2].
  simpl fst in Hm2; simpl snd in He2. cbv zeta in Hm2, He2.
  destruct (drop_digits q1) as [q2 [Hq2 Hd2]].
  rewrite Hq2 in Hm2. rewrite Hm2.
  assert (Hd1 : dig q1 <= 54).
  { apply dig_le; [lia |].
    pose proof (dig_bounds q0) as [_ Hu0].
    assert (dig q0 <= 53) by lia.
    assert (2 ^ dig q0 <= 2 ^ 53) by (apply Z.pow_le_mono_r; lia).
    change (2 ^ 54) with (2 * 2 ^ 53). lia. }
  exists q2, e2. repeat split; try lia.
Qed.

Lemma dig_xO_iter p d : dig (Pos.iter xO p d) = dig p + Zpos d.
Proof.
  apply (Pos.iter_ind _ xO p (fun d q => dig q = dig p + Zpos d)).
  - unfold dig. simpl. lia.
  - intros d' q Hq. unfold dig in *. simpl digits2_pos. lia.
Qed.

(** Aligning a mantissa to a smaller exponent keeps digits plus exponent. *)
Lemma shl_align_dig p e e' :
  dig (fst (shl_align p e e')) + snd (shl_align p e e') = dig p + e
  /\ snd (shl_align p e e') = Z.min e e'.
Proof.
  unfold shl_align. destruct (e' - e) as [|d|d] eqn:Hd; simpl; try lia.
  rewrite dig_xO_iter. lia.
Qed.

(** An integer between 1 and 2^1023 converts to a finite positive double
    of at least as many digits before the binary point. *)
Lemma of_Z_pos_finite p :
  Zpos p < 2 ^ 1023 ->
  exists m e, F64.of_Z (Zpos p) = S754_finite false m e
              /\ dig p <= dig m + e.
Proof.
  intros Hp. unfold F64.of_Z, binary_normalize, binary_round.
  pose proof (dig_pos p) as Hd1.
  assert (Hd : dig p <= 1023) by (apply dig_le; lia).
  fold (dig p).
  pose proof (shl_align_dig p 0 (fexp F64.prec F64.emax (dig p + 0)))
    as [Hsum Hez].
  destruct (shl_align p 0 (fexp F64.prec F64.emax (dig p + 0)))
    as [mz ez].
  simpl fst in Hsum; simpl snd in Hsum, Hez.
  rewrite fexp_normal in Hez by lia.
  destruct (binary_round_aux_pos mz ez loc_Exact) as [m' [e' (Hlo & Hhi & Hmag & Heq)]];
    [lia |].
  exists m', e'. rewrite Heq.
  assert (He : e' <= F64.emax - F64.prec) by (unfold F64.emax, F64.prec; lia).
  apply Z.leb_le in He. rewrite He. split; [reflexivity | lia].
Qed.

Lemma dig_mul_f0_3 mx :
  dig mx + 52 <= dig (mx * 5404319552844595).
Proof.
  pose proof (dig_bounds mx) as [Hl _]. pose proof (dig_pos mx) as Hd.
  assert (H : dig mx - 1 + 52 + 1 <= dig (mx * 5404319552844595)).
  { apply dig_ge; [lia |].
    rewrite Z.pow_add_r by lia. rewrite Pos2Z.inj_mul.
    apply Z.mul_le_mono_nonneg; try lia;
      apply Z.pow_nonneg; lia. }
  lia.
Qed.

(** The product with 0.3 of a double that is at least 4 exceeds 0.8, so
    the boost, capped at 0.8, reaches 0.6. *)
Lemma boost_of_large mx ex :
  3 <= dig mx + ex ->
  F64.geb (F64.min2 (F64.mul (S754_finite false mx ex) F64.f0_3) F64.f0_8)
          F64.f0_6 = true.
Proof.
  intros Hmag.
  change F64.f0_3 with (S754_finite false 5404319552844595 (-54)).
  unfold F64.mul, SFmul. simpl xorb.
  pose proof (dig_mul_f0_3 mx) as Hdig.
  destruct (binary_round_aux_pos (mx * 5404319552844595) (ex + -54) loc_Exact)
    as [m' [e' (Hlo & _ & _ & Heq)]]; [lia |].
  rewrite Heq. unfold F64.min2.
  assert (Hlt : F64.ltb F64.f0_8
                  (if e' <=? F64.emax - F64.prec then S754_finite false m' e'
                   else S754_infinity false) = true).
  { change F64.f0_8 with (S754_finite false 7205759403792794 (-53)).
    destruct (e' <=? F64.emax - F64.prec); [| reflexivity].
    apply ltb_pos_finite. lia. }
  rewrite Hlt. vm_compute. reflexivity.
Qed.

(** The check of [enhanced_reflection] on the boost, for every count
    between 1 and 2^1023: the count converts without overflow, and
    [min(count * 0.3, 0.8) >= 0.6] holds exactly from 2 on. *)
Lemma boost_check (n : Z) :
  0 < n < 2 ^ 1023 ->
  exists x, float_of_int n = Ok x
            /\ F64.geb (F64.min2 (F64.mul x F64.f0_3) F64.f0_8) F64.f0_6
               = (2 <=? n).
Proof.
  intros [Hpos Hlt]. destruct n as [|p|p]; try lia.
  destruct (Z_lt_le_dec (Zpos p) 4) as [Hsmall|Hbig].
  - assert (Hc : p = 1%positive \/ p = 2%positive \/ p = 3%positive) by lia.
    destruct Hc as [-> | [-> | ->]];
      eexists; (split; [vm_compute; reflexivity | vm_compute; reflexivity]).
  - destruct (of_Z_pos_finite p Hlt) as [m [e [Heq Hmag]]].
    exists (S754_finite false m e). unfold float_of_int. rewrite Heq.
    split; [reflexivity |].
    assert (Hd : 2 + 1 <= dig p) by (apply dig_ge; simpl; lia).
    rewrite boost_of_large by lia.
    symmetry. apply Z.leb_le. lia.
Qed.

(* ================================================================== *)
(** ** Substrings and lower case *)
(* ================================================================== *)

Section StringFacts.

#[local] Arguments String.append : simpl nomatch.

Lemma append_assoc (a b c : string) : (a +:+ b) +:+ c = a +:+ b +:+ c.
Proof. induction a as [|x a IH]; simpl; [reflexivity | f_equal; exact IH]. Qed.

Lemma prefix_occurs_at_head (needle s : string) :
  String.prefix needle s = true <-> exists post, s = needle +:+ post.
Proof.
  revert s. induction needle as [|c n IH]; intros s.
  - split; [intros _; exists s; reflexivity | destruct s; reflexivity].
  - destruct s as [|c' s']; simpl.
    + split; [discriminate | intros [post H]; discriminate].
    + destruct (Ascii.ascii_dec c c') as [->|Hne].
      * rewrite IH. split; intros [post H]; exists post.
        -- now rewrite H.
        -- now injection H.
      * split; [discriminate |].
        intros [post H]. injection H as H1 H2. congruence.
Qed.

Lemma contains_occurs (needle s : string) :
  PyStr.contains needle s = true <-> occurs needle s.
Proof.
  unfold occurs. induction s as [|c s IH].
  - change (PyStr.contains needle "")
      with (String.prefix needle "" || false).
    rewrite orb_false_r, prefix_occurs_at_head. split.
    + intros [post H]. exists EmptyString, post. exact H.
    + intros [[|c pre] [post H]]; [exists post; exact H | discriminate].
  - change (PyStr.contains needle (String c s))
      with (String.prefix needle (String c s) || PyStr.contains needle s).
    rewrite orb_true_iff, prefix_occurs_at_head, IH. split.
    + intros [[post H] | [pre [post H]]].
      * exists EmptyString, post. exact H.
      * exists (String c pre), post. simpl. now rewrite H.
    + intros [[|c' pre] [post H]].
      * left. exists post. exact H.
      * right. exists pre, post. simpl in H. now injection H.
Qed.

Lemma lower_append (a b : string) :
  PyStr.lower (a +:+ b) = PyStr.lower a +:+ PyStr.lower b.
Proof. induction a as [|c a IH]; simpl; [reflexivity | f_equal; exact IH]. Qed.

Lemma lower_split (s a b : string) :
  PyStr.lower s = a +:+ b ->
  exists s1 s2, s = s1 +:+ s2 /\ PyStr.lower s1 = a /\ PyStr.lower s2 = b.
Proof.
  revert s. induction a as [|c a IH]; intros s H; simpl in H.
  - exists EmptyString, s. repeat split. exact H.
  - destruct s as [|c' s']; [discriminate |]. simpl in H.
    injection H as Hc Hs. destruct (IH s' Hs) as [s1 [s2 [-> [H1 H2]]]].
    exists (String c' s1), s2. simpl. rewrite Hc, H1. repeat split. exact H2.
Qed.

Lemma occurs_lower_nocase (needle s : string) :
  occurs needle (PyStr.lower s) <-> occurs_nocase needle s.
Proof.
  unfold occurs, occurs_nocase. split.
  - intros [pre [post H]].
    destruct (lower_split _ _ _ H) as [s1 [s23 [-> [H1 H23]]]].
    destruct (lower_split _ _ _ H23) as [s2 [s3 [-> [H2 H3]]]].
    exists s1, s2, s3. split; [reflexivity | exact H2].
  - intros [pre [mid [post [-> Hm]]]].
    exists (PyStr.lower pre), (PyStr.lower post).
    now rewrite !lower_append, Hm.
Qed.

Lemma contains_lower_nocase (needle s : string) :
  PyStr.contains needle (PyStr.lower s) = true <-> occurs_nocase needle s.
Proof. rewrite contains_occurs. apply occurs_lower_nocase. Qed.

End StringFacts.

(* ================================================================== *)
(** ** The score and the keys of its rules *)
(* ================================================================== *)

Section KeyFacts.

Lemma any_in_occurs (keys : list string) (s : string) :
  PyStr.any_in keys s = true <-> Exists (fun k => occurs k s) keys.
Proof.
  unfold PyStr.any_in. induction keys as [|k keys IH]; cbn [existsb].
  - split; [discriminate | intros H; inversion H].
  - rewrite orb_true_iff, contains_occurs, IH. split.
    + intros [H|H]; [left; exact H | right; exact H].
    + intros H. inversion H; subst; [left | right]; assumption.
Qed.

End KeyFacts.

(** C1.  For every source the score of [_calculate_url_priority] is the
    capped sum of the base 0.1 and of one contribution per rule that
    fires: 0.4 when the lower-cased url holds ".gov", ".edu" or ".org";
    0.3 when it holds "wikipedia", "arxiv", "ieee" or "acm"; 0.2 when the
    lower-cased title holds "report", "study", "research", "analysis" or
    "technical"; 0.2 when the lower-cased url holds "google",
    "microsoft", "amazon", "tesla" or "nvidia".  A rule counts once,
    however many of its keys occur.  The sum is taken in binary64, in the
    order of the source; its exact value is within 2^-53 of the decimal
    total capped at 1.  The score lies between 0 and 1 and depends on the
    url and the title only. *)
Theorem calculate_url_priority_spec (src : source) :
  let url := PyStr.lower (dict_get (src_url src) "") in
  let title := PyStr.lower (dict_get (src_title src) "") in
  let official := PyStr.any_in [".gov"; ".edu"; ".org"] url in
  let platform := PyStr.any_in ["wikipedia"; "arxiv"; "ieee"; "acm"] url in
  let technical :=
    PyStr.any_in ["report"; "study"; "research"; "analysis"; "technical"]
                 title in
  let company :=
    PyStr.any_in ["google"; "microsoft"; "amazon"; "tesla"; "nvidia"] url in
  let score := _calculate_url_priority src in
  (official = true
   <-> occurs ".gov" url \/ occurs ".edu" url \/ occurs ".org" url)
  /\ (platform = true
      <-> occurs "wikipedia" url \/ occurs "arxiv" url
          \/ occurs "ieee" url \/ occurs "acm" url)
  /\ (technical = true
      <-> occurs "report" title \/ occurs "study" title
          \/ occurs "research" title \/ occurs "analysis" title
          \/ occurs "technical" title)
  /\ (company = true
      <-> occurs "google" url \/ occurs "microsoft" url
          \/ occurs "amazon" url \/ occurs "tesla" url
          \/ occurs "nvidia" url)
  /\ score = rule_score official platform technical company
  /\ (Qabs (F64.to_Q score
            - decimal_total official platform technical company)
      <= 1 # (2 ^ 53))%Q
  /\ F64.leb F64.f0_0 score = true
  /\ F64.leb score F64.f1_0 = true
  /\ (0 <= F64.to_Q score <= 1)%Q
  /\ forall snippet,
       _calculate_url_priority
         {| src_title := src_title src; src_url := src_url src;
            src_snippet := snippet |} = score.
Proof.
  intros url title official platform technical company score.
  assert (Hs : score = rule_score official platform technical company)
    by apply calculate_url_priority_rules.
  split.
  { unfold official. rewrite any_in_occurs. split.
    - intros H. repeat (apply Exists_cons in H; destruct H as [H|H]; [tauto |]).
      inversion H.
    - intros [H | [H | H]];
        repeat first [apply Exists_cons_hd; exact H | apply Exists_cons_tl]. }
  split.
  { unfold platform. rewrite any_in_occurs. split.
    - intros H. repeat (apply Exists_cons in H; destruct H as [H|H]; [tauto |]).
      inversion H.
    - intros [H | [H | [H | H]]];
        repeat first [apply Exists_cons_hd; exact H | apply Exists_cons_tl]. }
  split.
  { unfold technical. rewrite any_in_occurs. split.
    - intros H. repeat (apply Exists_cons in H; destruct H as [H|H]; [tauto |]).
      inversion H.
    - intros [H | [H | [H | [H | H]]]];
        repeat first [apply Exists_cons_hd; exact H | apply Exists_cons_tl]. }
  split.
  { unfold company. rewrite any_in_occurs. split.
    - intros H. repeat (apply Exists_cons in H; destruct H as [H|H]; [tauto |]).
      inversion H.
    - intros [H | [H | [H | [H | H]]]];
        repeat first [apply Exists_cons_hd; exact H | apply Exists_cons_tl]. }
  split; [exact Hs |].
  split; [rewrite Hs; apply rule_score_near_decimal |].
  split; [rewrite Hs; apply rule_score_range |].
  split; [rewrite Hs; apply rule_score_range |].
  split; [| intros snippet; reflexivity].
  rewrite Hs.
  split; apply Qle_bool_iff;
    destruct official, platform, technical, company; vm_compute; reflexivity.
Qed.

(** A company name in the url alone adds 0.2 to the base: the score is
    the double of 0.2 + 0.1. *)
Example score_of_a_company_url :
  _calculate_url_priority
    {| src_title := Some "Careers";
       src_url := Some "https://www.NVIDIA.com/jobs";
       src_snippet := None |}
  = F64.add F64.f0_2 F64.f0_1.
Proof. vm_compute. reflexivity. Qed.

(** C7, amended.  [needs_enhancement] is true exactly when the text,
    letters taken without case, holds the run of characters "enhance"
    anywhere, inside a longer word too, and does not hold "no_enhance".
    So a text with "Decision: ENHANCE" and without "no_enhance" gives
    true, and a text with "NO_ENHANCE" gives false. *)
Theorem parse_llm_decision_needs_enhancement
    (decision_text : string) (grounding_sources : list source) :
  let d := _parse_llm_decision decision_text grounding_sources in
  (needs_enhancement d = true
   <-> occurs_nocase "enhance" decision_text
       /\ ~ occurs_nocase "no_enhance" decision_text)
  /\ (occurs "Decision: ENHANCE" decision_text ->
      ~ occurs_nocase "no_enhance" decision_text ->
      needs_enhancement d = true)
  /\ (occurs "NO_ENHANCE" decision_text -> needs_enhancement d = false).
Proof.
  intros d.
  assert (Hiff : needs_enhancement d = true
                 <-> occurs_nocase "enhance" decision_text
                     /\ ~ occurs_nocase "no_enhance" decision_text).
  { unfold d, _parse_llm_decision. cbn [needs_enhancement].
    rewrite andb_true_iff, negb_true_iff, <- not_true_iff_false.
    rewrite !contains_lower_nocase. reflexivity. }
  split; [exact Hiff |]. split.
  - intros [pre [post ->]] Hno. apply Hiff. split; [| exact Hno].
    exists (pre +:+ "Decision: "), "ENHANCE", post.
    split; [| reflexivity].
    rewrite append_assoc. reflexivity.
  - intros [pre [post ->]].
    apply not_true_is_false. intros Hd.
    apply Hiff in Hd. destruct Hd as [_ Hno]. apply Hno.
    exists pre, "NO_ENHANCE", post. split; reflexivity.
Qed.

Lemma parse_llm_decision_needs_enhancement_witness :
  needs_enhancement
    (_parse_llm_decision "Decision: ENHANCE (confidence 0.8)" []) = true
  /\ needs_enhancement
       (_parse_llm_decision "**Decision**: NO_ENHANCE" []) = false.
Proof.
  split.
  - apply (parse_llm_decision_needs_enhancement
             "Decision: ENHANCE (confidence 0.8)" []).
    + exists "", " (confidence 0.8)". reflexivity.
    + intros Hno. apply contains_lower_nocase in Hno.
      vm_compute in Hno. discriminate.
  - apply (parse_llm_decision_needs_enhancement
             "**Decision**: NO_ENHANCE" []).
    exists "**Decision**: ", "". reflexivity.
Defined.

(** C7, as the claim states it, fails: the answer
    "**Enhancement Type**: none" has the tokens "enhancement", "type" and
    "none", so "enhance" is no token of it and "no_enhance" does not
    occur, and yet [needs_enhancement] is true, because "enhance" is
    looked for as a run of characters and the word "enhancement" holds
    it. *)
Lemma needs_enhancement_inside_word :
  needs_enhancement
    (_parse_llm_decision "**Enhancement Type**: none" []) = true
  /\ tokens (PyStr.lower "**Enhancement Type**: none")
     = ["enhancement"; "type"; "none"]
  /\ ~ In "enhance" (tokens (PyStr.lower "**Enhancement Type**: none"))
  /\ PyStr.contains "no_enhance" (PyStr.lower "**Enhancement Type**: none")
     = false.
Proof.
  split; [vm_compute; reflexivity |].
  split; [vm_compute; reflexivity |].
  split; [| vm_compute; reflexivity].
  vm_compute. intros [H | [H | [H | []]]]; discriminate H.
Qed.

(* ================================================================== *)
(** ** The confidence score *)
(* ================================================================== *)

Section ConfidenceFacts.

Lemma match_decimal_text s g : match_decimal s = Some g -> decimal_text g.
Proof.
  unfold match_decimal, decimal_text.
  destruct s as [|a [|dot [|b rest]]]; try discriminate.
  destruct (PyStr.is_digit a) eqn:Ha; [| discriminate].
  destruct (Ascii.eqb dot ".") eqn:Hd; [| discriminate].
  destruct (PyStr.is_digit b) eqn:Hb; [| discriminate].
  simpl. intros [= <-]. apply Ascii.eqb_eq in Hd. subst dot.
  exists a, b. auto.
Qed.

Lemma lazy_dots_decimal_text s g :
  lazy_dots_then_decimal s = Some g -> decimal_text g.
Proof.
  induction s as [|c s IH]; cbn [lazy_dots_then_decimal].
  - discriminate.
  - destruct (match_decimal (String c s)) eqn:Hm.
    + intros [= <-]. eapply match_decimal_text, Hm.
    + destruct (Ascii.eqb c PyStr.newline); [discriminate | exact IH].
Qed.

Lemma re_search_decimal_text s g :
  re_search_confidence s = Some g -> decimal_text g.
Proof.
  induction s as [|c s IH]; cbn [re_search_confidence].
  - unfold match_confidence_here. simpl. discriminate.
  - destruct (match_confidence_here (String c s)) eqn:Hm; [| exact IH].
    intros [= <-]. unfold match_confidence_here in Hm.
    destruct (String.prefix "confidence" (String c s)); [| discriminate].
    eapply lazy_dots_decimal_text, Hm.
Qed.

(** [float] never fails on the text of group 1, and its value is the
    double nearest to the decimal. *)
Lemma py_float_decimal_text g :
  decimal_text g ->
  exists a b, (0 <= a <= 9) /\ (0 <= b <= 9)
              /\ py_float g = Some (F64.literal (10 * a + b) 10).
Proof.
  intros [a [b [-> [Ha Hb]]]].
  exists (PyStr.digit_value a), (PyStr.digit_value b).
  unfold py_float. rewrite Ha, Hb. simpl.
  unfold PyStr.is_digit in Ha, Hb. unfold PyStr.digit_value.
  apply andb_true_iff in Ha, Hb.
  destruct Ha as [Ha1 Ha2], Hb as [Hb1 Hb2].
  apply N.leb_le in Ha1, Ha2, Hb1, Hb2.
  repeat split; lia.
Qed.

(** Every text gets a confidence: 0.5, or the double nearest to the
    decimal [a.b] that the pattern found. *)
Lemma parse_confidence_values (decision_text : string) (srcs : list source) :
  let d := _parse_llm_decision decision_text srcs in
  (re_search_confidence (PyStr.lower decision_text) = None
   /\ confidence_score d = F64.f0_5)
  \/ (exists a b, (0 <= a <= 9) /\ (0 <= b <= 9)
                  /\ confidence_score d = F64.literal (10 * a + b) 10).
Proof.
  unfold _parse_llm_decision. cbn [confidence_score].
  destruct (re_search_confidence (PyStr.lower decision_text)) as [g|] eqn:Hs.
  - right. apply re_search_decimal_text in Hs.
    destruct (py_float_decimal_text g Hs) as [a [b [Ha [Hb ->]]]].
    exists a, b. auto.
  - left. auto.
Qed.

End ConfidenceFacts.

(** C6 (the code departs from the documented range).  On the answer
    "**Confidence**: 85.5%" the pattern finds "5.5": the confidence score
    is 5.5, which is not in the interval from 0 to 1 that the field
    documents. *)
Theorem confidence_score_out_of_range :
  confidence_score (_parse_llm_decision percent_answer [])
  = F64.literal 55 10
  /\ F64.leb (confidence_score (_parse_llm_decision percent_answer []))
             F64.f1_0 = false
  /\ F64.to_Q (confidence_score (_parse_llm_decision percent_answer []))
     == 11 # 2.
Proof. vm_compute. repeat split; reflexivity. Qed.

(** Without a match the confidence is 0.5; a newline between the word and
    the decimal prevents the match. *)
Example confidence_default :
  confidence_score (_parse_llm_decision "no number here" []) = F64.f0_5
  /\ confidence_score
       (_parse_llm_decision ("Confidence:" +:+ PyStr.nl +:+ "0.9") [])
     = F64.f0_5
  /\ confidence_score (_parse_llm_decision "CONFIDENCE: 0.9" [])
     = F64.literal 9 10.
Proof. vm_compute. repeat split; reflexivity. Qed.

(* ================================================================== *)
(** ** The analysis node *)
(* ================================================================== *)

Section NodeFacts.

Variables (w : World) (state : OverallState) (config : RunnableConfig).

Lemma analysis_body_decision :
  analysis_body w state config
  = match analysis_decision w state config with
    | Ok (maker, d) => Ok (analysis_update w maker d)
    | Raise e => Raise e
    end.
Proof.
  unfold analysis_body.
  destruct (analysis_decision w state config) as [[maker d]|e]; reflexivity.
Qed.

Lemma node_decision :
  content_enhancement_analysis w state config
  = match analysis_decision w state config with
    | Ok (maker, d) => analysis_update w maker d
    | Raise e => error_update e
    end.
Proof.
  unfold content_enhancement_analysis. rewrite analysis_body_decision.
  destruct (analysis_decision w state config) as [[maker d]|e]; reflexivity.
Qed.

Lemma error_update_lookup (e : string) :
  error_update e !! "enhancement_status" = Some (VStr "error")
  /\ error_update e !! "enhancement_error"
     = Some (VStr ("Content enhancement analysis node exception: " +:+ e))
  /\ error_update e !! "enhancement_decision" = None
  /\ error_update e !! "web_research_result" = None
  /\ error_update e !! "enhanced_content_results" = None
  /\ error_update e !! "enhanced_sources_count" = None.
Proof. unfold error_update. repeat split; by simplify_map_eq. Qed.

(** The update of a run that has a decision, key by key. *)
Lemma analysis_update_lookup (maker : DecisionMakerInstance)
    (d : EnhancementDecision) :
  let u := analysis_update w maker d in
  let o := outcome_of w maker d in
  u !! "enhancement_decision" = Some (VDecision (decision_to_dict d))
  /\ u !! "enhancement_status" = Some (VStr (status_of o))
  /\ u !! "enhancement_error" = None
  /\ match o with
     | Completed =>
         exists app,
           firecrawl_app maker = Some app
           /\ let rs := crawl w app 0 (priority_urls d) in
              u !! "web_research_result"
              = Some (VStrList (map format_enhanced rs))
              /\ u !! "enhanced_content_results" = Some (VResults rs)
              /\ u !! "enhanced_sources_count"
                 = Some (VInt (Z.of_nat (length rs)))
     | _ =>
         u !! "web_research_result" = None
         /\ u !! "enhanced_content_results" = None
         /\ u !! "enhanced_sources_count" = None
     end.
Proof.
  unfold analysis_update, outcome_of.
  destruct (needs_enhancement d); cbn [negb].
  2: { repeat split; by simplify_map_eq. }
  destruct (firecrawl_app maker) as [app|].
  2: { repeat split; by simplify_map_eq. }
  destruct (crawl w app 0 (priority_urls d)) as [|r rs] eqn:Hc.
  { repeat split; by simplify_map_eq. }
  cbv zeta. split; [by simplify_map_eq |].
  split; [by simplify_map_eq |]. split; [by simplify_map_eq |].
  exists app. split; [reflexivity |]. rewrite Hc.
  repeat split; by simplify_map_eq.
Qed.

End NodeFacts.

(** In the model without the output, the node returns an update in every
    case: when a step of the body raises, be it the research topic, the
    construction of the decision maker or the call of the language model,
    the update is exactly the status "error" with the message of the
    exception, and otherwise it is the update of the body. *)
Lemma error_update_when_body_raises
    (w : World) (state : OverallState) (config : RunnableConfig) :
  let u := content_enhancement_analysis w state config in
  let prompt_of topic :=
    _build_analysis_prompt topic
      (default [] (st_web_research_result state))
      (grounding_sources_of state) in
  (forall e, analysis_body w state config = Raise e ->
     u = {[ "enhancement_status" := VStr "error";
            "enhancement_error" :=
              VStr ("Content enhancement analysis node exception: " +:+ e) ]})
  /\ (forall u', analysis_body w state config = Ok u' -> u = u')
  /\ (forall e, research_topic_of w state = Raise e ->
        analysis_body w state config = Raise e)
  /\ (forall topic e,
        research_topic_of w state = Ok topic ->
        get_decision_maker w = Raise e ->
        analysis_body w state config = Raise e)
  /\ (forall topic maker e,
        research_topic_of w state = Ok topic ->
        get_decision_maker w = Ok maker ->
        llm_invoke w config (prompt_of topic) = Raise e ->
        analysis_body w state config = Raise e).
Proof.
  intros u prompt_of. unfold u, prompt_of, content_enhancement_analysis.
  split; [intros e ->; reflexivity |].
  split; [intros u' ->; reflexivity |].
  split; [| split].
  - unfold analysis_body, analysis_decision. intros e ->. reflexivity.
  - unfold analysis_body, analysis_decision. intros topic e -> ->.
    reflexivity.
  - unfold analysis_body, analysis_decision, analyze_enhancement_need.
    intros topic maker e -> ->. cbn. intros ->. reflexivity.
Qed.

(* ================================================================== *)
(** ** The analysis node with its output *)
(* ================================================================== *)

Section OutputFacts.

Variables (w : World) (out : string -> run unit).

Hypothesis out_returns : forall line, out line = Returns tt.

Lemma research_topic_of_runtime (state : OverallState) :
  NodeIO.research_topic_of (runtime_of w out) state
  = NodeIO.of_result (research_topic_of w state).
Proof.
  unfold NodeIO.research_topic_of, research_topic_of, NodeIO.topic_of_messages.
  destruct (negb (Nat.eqb (length (default [] (st_plan state))) 0)
            && (default 0 (st_current_task_pointer state)
                <? Z.of_nat (length (default [] (st_plan state))))).
  - destruct (py_index (default [] (st_plan state))
                (default 0 (st_current_task_pointer state))) as [t|e];
      [| reflexivity].
    cbn. destruct (description t); reflexivity.
  - destruct (st_user_query state) as [q|].
    + destruct (truthy q); [reflexivity |].
      destruct (st_messages state); reflexivity.
    + destruct (st_messages state); reflexivity.
Qed.

Lemma crawl_of_runtime (app : FirecrawlApp) (urls : list priority_url)
    (enhanced_results : list enhanced_result) (k : nat) :
  NodeIO.crawl (runtime_of w out) app urls enhanced_results k
  = Returns (enhanced_results ++ crawl w app k urls).
Proof.
  revert enhanced_results k.
  induction urls as [|u rest IH]; intros acc k.
  - cbn [NodeIO.crawl crawl]. rewrite app_nil_r. reflexivity.
  - cbn [NodeIO.crawl crawl].
    destruct (truthy (pu_url u)); cbn [negb]; [| apply IH].
    unfold NodeIO.crawl_one.
    cbn [rt_print rt_scrape_url rt_now_isoformat runtime_of].
    rewrite out_returns.
    destruct (scrape_url app (pu_url u)) as [[resp|]|e];
      cbn [NodeIO.of_result].
    + destruct (success resp).
      * rewrite out_returns, IH, <- app_assoc. reflexivity.
      * rewrite out_returns. apply IH.
    + rewrite out_returns. apply IH.
    + cbn [is_exception exc_message]. rewrite out_returns. cbn. apply IH.
Qed.

(** When every [print] returns and the exceptions are those of a
    [World], the node with its output returns what the node of [Nodes]
    returns. *)
Lemma node_of_runtime (state : OverallState) (config : RunnableConfig) :
  NodeIO.content_enhancement_analysis (runtime_of w out) state config
  = Returns (content_enhancement_analysis w state config).
Proof.
  unfold NodeIO.content_enhancement_analysis, NodeIO.try_except,
    NodeIO.analysis_body, NodeIO.handler.
  unfold content_enhancement_analysis, analysis_body, analysis_decision,
    analyze_enhancement_need, error_update.
  rewrite research_topic_of_runtime.
  cbn [rt_print rt_get_decision_maker rt_llm_invoke runtime_of].
  rewrite ?out_returns.
  destruct (research_topic_of w state) as [topic|e];
    cbv beta iota zeta delta [mbind run_bind result_bind NodeIO.of_result
                              is_exception exc_message fst snd]; [| rewrite ?out_returns; reflexivity].
  destruct (get_decision_maker w) as [maker|e];
    cbv beta iota zeta delta [mbind run_bind result_bind NodeIO.of_result
                              is_exception exc_message fst snd]; [| rewrite ?out_returns; reflexivity].
  destruct (llm_invoke w config _) as [text|e];
    cbv beta iota zeta delta [mbind run_bind result_bind NodeIO.of_result
                              is_exception exc_message fst snd]; [| rewrite ?out_returns; reflexivity].
  unfold analysis_update.
  set (d := _parse_llm_decision text (grounding_sources_of state)).
  destruct (needs_enhancement d); cbn [negb];
    [| rewrite ?out_returns; reflexivity].
  destruct (firecrawl_app maker) as [app|];
    [| rewrite ?out_returns; reflexivity].
  rewrite crawl_of_runtime.
  cbv beta iota zeta delta [mbind run_bind]. cbn [List.app].
  destruct (crawl w app 0 (priority_urls d)) as [|r rs];
    rewrite ?out_returns; reflexivity.
Qed.

End OutputFacts.

Section HandlerFacts.

Lemma ascii_only_cross (rest : string) :
  ascii_only ("❌ " +:+ rest) = false.
Proof. reflexivity. Qed.

(** An object that is no instance of [Exception] passes the handler. *)
Lemma other_object_passes_handler
    (rt : Runtime) (state : OverallState) (config : RunnableConfig)
    (e : raised) :
  NodeIO.analysis_body rt state config = Raises e ->
  is_exception e = false ->
  NodeIO.content_enhancement_analysis rt state config = Raises e.
Proof.
  intros Hbody Hclass.
  unfold NodeIO.content_enhancement_analysis, NodeIO.try_except.
  rewrite Hbody, Hclass. reflexivity.
Qed.

End HandlerFacts.

(** With a standard output that takes every line, the node of the
    examples returns its update; an interrupt from the keyboard during
    the call of the language model leaves the node as it is raised. *)
Example node_with_output_examples :
  NodeIO.content_enhancement_analysis
    (runtime_of world_llm_down utf8_console) example_state example_config
  = Returns
      {[ "enhancement_status" := VStr "error";
         "enhancement_error" :=
           VStr ("Content enhancement analysis node exception: "
                 +:+ "429 Resource exhausted") ]}
  /\ NodeIO.content_enhancement_analysis
       runtime_interrupted example_state example_config
     = Raises {| is_exception := false; exc_message := "KeyboardInterrupt" |}.
Proof. split; vm_compute; reflexivity. Qed.

(** C4 (the code departs from the requirement that the node never
    raises).  The handler of the node prints a line that begins with a
    character outside ASCII before it returns.  On a standard output
    that cannot encode such a character the node raises on every call:
    the first line of the body cannot be printed either, so the body
    never returns, and what it raises either is no instance of
    [Exception] and passes the handler, or reaches the handler, whose
    own [print] raises out of the node. *)
Theorem content_enhancement_analysis_raises_on_ascii_output
    (rt : Runtime) (state : OverallState) (config : RunnableConfig) :
  (forall line, ascii_only line = false ->
     exists e, rt_print rt line = Raises e) ->
  exists e,
    NodeIO.content_enhancement_analysis rt state config = Raises e
    /\ ((is_exception e = false
         /\ NodeIO.analysis_body rt state config = Raises e)
        \/ exists x,
             NodeIO.analysis_body rt state config = Raises x
             /\ is_exception x = true
             /\ rt_print rt
                  ("❌ Content enhancement analysis node exception: "
                   +:+ exc_message x) = Raises e).
Proof.
  intros Hout.
  unfold NodeIO.content_enhancement_analysis, NodeIO.try_except.
  destruct (NodeIO.analysis_body rt state config) as [u|x] eqn:Hbody.
  - exfalso. unfold NodeIO.analysis_body in Hbody.
    destruct (NodeIO.research_topic_of rt state) as [topic|e0];
      [| discriminate Hbody].
    cbn in Hbody.
    destruct (Hout "🤔 Analyzing content enhancement needs..." eq_refl)
      as [e He].
    rewrite He in Hbody. discriminate Hbody.
  - destruct (is_exception x) eqn:Hclass.
    + unfold NodeIO.handler.
      destruct (Hout ("❌ Content enhancement analysis node exception: "
                      +:+ exc_message x) (ascii_only_cross _)) as [e He].
      exists e. change ("❌ " +:+ ("Content enhancement analysis node exception: " +:+ exc_message x))
        with ("❌ Content enhancement analysis node exception: "
              +:+ exc_message x).
      rewrite He. split; [reflexivity |].
      right. exists x. auto.
    + exists x. split; [reflexivity |]. left. auto.
Qed.

Lemma content_enhancement_analysis_raises_on_ascii_output_witness :
  exists e,
    NodeIO.content_enhancement_analysis
      (runtime_of world_ok ascii_console) example_state example_config
    = Raises e
    /\ ((is_exception e = false
         /\ NodeIO.analysis_body
              (runtime_of world_ok ascii_console) example_state example_config
            = Raises e)
        \/ exists x,
             NodeIO.analysis_body
               (runtime_of world_ok ascii_console) example_state
               example_config = Raises x
             /\ is_exception x = true
             /\ rt_print (runtime_of world_ok ascii_console)
                  ("❌ Content enhancement analysis node exception: "
                   +:+ exc_message x) = Raises e).
Proof.
  apply (content_enhancement_analysis_raises_on_ascii_output
           (runtime_of world_ok ascii_console) example_state example_config).
  intros line Hline. cbn [rt_print runtime_of]. unfold ascii_console.
  rewrite Hline. eexists. reflexivity.
Defined.

(** On the standard output with the encoding ASCII the node of the
    examples raises the [UnicodeEncodeError] of the handler's [print],
    although every call of the world succeeds. *)
Example node_raises_on_ascii_console :
  NodeIO.content_enhancement_analysis
    (runtime_of world_ok ascii_console) example_state example_config
  = Raises {| is_exception := true;
              exc_message := "'ascii' codec can't encode character" |}.
Proof. vm_compute. reflexivity. Qed.

(** C8, as the claim states it, fails: when the language model is down the
    update holds the status "error" and no decision. *)
Lemma error_update_has_no_decision :
  content_enhancement_analysis world_llm_down example_state example_config
    !! "enhancement_status" = Some (VStr "error")
  /\ content_enhancement_analysis world_llm_down example_state example_config
       !! "enhancement_decision" = None.
Proof. vm_compute. split; reflexivity. Qed.

(** C8, amended.  The status of the update is one of "skipped",
    "skipped_no_api", "failed", "completed" and "error".  Unless it is
    "error" the run has a decision and the update holds its five fields
    under "enhancement_decision"; with the status "error" the update has
    no such key. *)
Theorem enhancement_decision_recorded
    (w : World) (state : OverallState) (config : RunnableConfig) :
  let u := content_enhancement_analysis w state config in
  (exists s, u !! "enhancement_status" = Some (VStr s)
             /\ In s ["skipped"; "skipped_no_api"; "failed"; "completed";
                      "error"])
  /\ (u !! "enhancement_status" <> Some (VStr "error") ->
      exists maker d,
        analysis_decision w state config = Ok (maker, d)
        /\ u !! "enhancement_decision"
           = Some (VDecision
                     {| dd_needs_enhancement := needs_enhancement d;
                        dd_confidence_score := confidence_score d;
                        dd_enhancement_type := enhancement_type d;
                        dd_reasoning := reasoning d;
                        dd_priority_urls := priority_urls d |}))
  /\ (u !! "enhancement_status" = Some (VStr "error") ->
      u !! "enhancement_decision" = None
      /\ exists e, analysis_body w state config = Raise e).
Proof.
  intros u. unfold u. rewrite node_decision, analysis_body_decision.
  destruct (analysis_decision w state config) as [[maker d]|e].
  - destruct (analysis_update_lookup w maker d) as (Hd & Hs & _).
    cbv zeta in Hd, Hs. rewrite Hs. split; [| split].
    + eexists; split; [reflexivity |].
      destruct (outcome_of w maker d); simpl; tauto.
    + intros _. exists maker, d. split; [reflexivity | exact Hd].
    + intros [= H]. destruct (outcome_of w maker d); discriminate.
  - destruct (error_update_lookup e) as (Hs & _ & Hd & _).
    rewrite Hs. split; [| split].
    + eexists; split; [reflexivity |]. simpl; tauto.
    + intros H. congruence.
    + intros _. split; [exact Hd | exists e; reflexivity].
Qed.

Lemma enhancement_decision_recorded_witness :
  content_enhancement_analysis world_ok example_state example_config
    !! "enhancement_status" <> Some (VStr "error")
  /\ exists maker d,
       analysis_decision world_ok example_state example_config
       = Ok (maker, d)
       /\ content_enhancement_analysis world_ok example_state example_config
            !! "enhancement_decision"
          = Some (VDecision
                    {| dd_needs_enhancement := needs_enhancement d;
                       dd_confidence_score := confidence_score d;
                       dd_enhancement_type := enhancement_type d;
                       dd_reasoning := reasoning d;
                       dd_priority_urls := priority_urls d |}).
Proof.
  assert (H : content_enhancement_analysis world_ok example_state
                example_config !! "enhancement_status"
              <> Some (VStr "error"))
    by (vm_compute; discriminate).
  split; [exact H |].
  apply (enhancement_decision_recorded world_ok example_state example_config).
  exact H.
Defined.

Section TakeFacts.

Lemma take_short (n : nat) (s : string) :
  (String.length s <= n)%nat -> PyStr.take n s = s.
Proof.
  revert n. induction s as [|c s IH]; intros [|n] H; simpl in *;
    try reflexivity; try lia.
  f_equal. apply IH. lia.
Qed.

Lemma take_long (n : nat) (s : string) :
  (n <= String.length s)%nat -> String.length (PyStr.take n s) = n.
Proof.
  revert n. induction s as [|c s IH]; intros [|n] H; simpl in *;
    try reflexivity; try lia.
  f_equal. apply IH. lia.
Qed.

Lemma take_drop (n : nat) (s : string) :
  s = PyStr.take n s +:+ PyStr.drop n s.
Proof.
  revert n. induction s as [|c s IH]; intros [|n]; try reflexivity.
  change (String c s = String c (PyStr.take n s +:+ PyStr.drop n s)).
  f_equal. apply IH.
Qed.

End TakeFacts.

Section CrawlFacts.

Variables (w : World) (app : FirecrawlApp).

Lemma crawl_results (k : nat) (urls : list priority_url) :
  Forall (crawled_from urls) (crawl w app k urls)
  /\ (length (crawl w app k urls) <= length urls)%nat.
Proof.
  revert k. induction urls as [|u rest IH]; intros k; simpl.
  - split; [constructor | lia].
  - assert (Hweak : forall k', Forall (crawled_from (u :: rest))
                                  (crawl w app k' rest)).
    { intros k'. destruct (IH k') as [HF _].
      eapply Forall_impl; [exact HF |].
      intros r (Hlen & Hty & u' & Hin & Hr). split; [exact Hlen |].
      split; [exact Hty |]. exists u'. split; [right; exact Hin | exact Hr]. }
    assert (Hle : forall k', (length (crawl w app k' rest)
                              <= S (length rest))%nat).
    { intros k'. destruct (IH k') as [_ HL]. lia. }
    destruct (truthy (pu_url u)) eqn:Hurl; cbn [negb]; [| auto].
    destruct (scrape_url app (pu_url u)) as [[resp|]|e]; auto.
    destruct (success resp); auto.
    split.
    + constructor; [| apply Hweak].
      split; [reflexivity |]. split; [reflexivity |].
      exists u. split; [left; reflexivity |].
      repeat split. unfold truthy in Hurl.
      intros Heq. rewrite Heq in Hurl. discriminate.
    + simpl. destruct (IH (S k)) as [_ HL]. lia.
Qed.

Lemma format_enhanced_block (r : enhanced_result) :
  format_enhanced r
  = block (er_title r) (er_url r) (er_content_length r)
          (shown_content (er_enhanced_content r)).
Proof.
  unfold format_enhanced, block, shown_content.
  destruct (3000 <? String.length (er_enhanced_content r))%nat eqn:Hlong.
  - rewrite !append_assoc. reflexivity.
  - apply Nat.ltb_ge in Hlong.
    rewrite (take_short 3000 (er_enhanced_content r)) by exact Hlong.
    reflexivity.
Qed.

End CrawlFacts.

(** C9.  When the crawl loop gathers at least one result, the update
    holds under "web_research_result" exactly the list of the blocks of
    these results, whatever the earlier findings were, together with the
    status "completed", the results themselves and their number; merged
    into the state, the blocks take the place of the findings.  Each
    block shows the title, the URL and the number of characters of its
    result, and the content: all of it up to 3000 characters, otherwise
    its first 3000 characters followed by "...". *)
Theorem completed_update_replaces_findings
    (w : World) (state : OverallState) (config : RunnableConfig)
    (maker : DecisionMakerInstance) (d : EnhancementDecision)
    (app : FirecrawlApp) :
  analysis_decision w state config = Ok (maker, d) ->
  needs_enhancement d = true ->
  firecrawl_app maker = Some app ->
  crawl w app 0 (priority_urls d) <> [] ->
  let rs := crawl w app 0 (priority_urls d) in
  let u := content_enhancement_analysis w state config in
  u !! "web_research_result" = Some (VStrList (map format_enhanced rs))
  /\ u !! "enhancement_status" = Some (VStr "completed")
  /\ u !! "enhanced_content_results" = Some (VResults rs)
  /\ u !! "enhanced_sources_count" = Some (VInt (Z.of_nat (length rs)))
  /\ st_web_research_result (merge_update state u)
     = Some (map format_enhanced rs)
  /\ Forall
       (fun r =>
          let content := er_enhanced_content r in
          format_enhanced r
          = block (er_title r) (er_url r)
                  (Z.of_nat (String.length content))
                  (shown_content content)
          /\ ((String.length content <= 3000)%nat ->
              shown_content content = content)
          /\ ((3000 < String.length content)%nat ->
              shown_content content = PyStr.take 3000 content +:+ "..."
              /\ String.length (PyStr.take 3000 content) = 3000%nat
              /\ content
                 = PyStr.take 3000 content +:+ PyStr.drop 3000 content))
       rs.
Proof.
  intros Hdec Hneeds Happ Hsome. cbv zeta.
  rewrite node_decision, Hdec.
  pose proof (analysis_update_lookup w maker d) as Hu. cbv zeta in Hu.
  assert (Ho : outcome_of w maker d = Completed).
  { unfold outcome_of. rewrite Hneeds, Happ. cbn [negb].
    destruct (crawl w app 0 (priority_urls d)); [congruence | reflexivity]. }
  rewrite Ho in Hu. destruct Hu as (_ & Hs & _ & app' & Happ' & Hw & Hr & Hn).
  rewrite Happ in Happ'. injection Happ' as <-.
  split; [exact Hw |]. split; [exact Hs |]. split; [exact Hr |].
  split; [exact Hn |].
  split; [unfold merge_update; cbn [st_web_research_result];
          rewrite Hw; reflexivity |].
  destruct (crawl_results w app 0 (priority_urls d)) as [Hfrom _].
  eapply Forall_impl; [exact Hfrom |].
  intros r (Hlen & _). cbv zeta. split; [| split].
  - rewrite <- Hlen. apply format_enhanced_block.
  - intros Hshort. unfold shown_content.
    apply Nat.ltb_ge in Hshort. rewrite Hshort. reflexivity.
  - intros Hlong. unfold shown_content.
    pose proof Hlong as Hb. apply Nat.ltb_lt in Hb. rewrite Hb.
    split; [reflexivity |]. split; [apply take_long; lia | apply take_drop].
Qed.

Lemma completed_update_replaces_findings_witness :
  content_enhancement_analysis world_ok example_state example_config
    !! "web_research_result"
  = Some (VStrList
            (map format_enhanced
                 (crawl world_ok {| scrape_url := example_page |} 0
                        (priority_urls example_decision))))
  /\ content_enhancement_analysis world_ok example_state example_config
       !! "enhancement_status" = Some (VStr "completed")
  /\ content_enhancement_analysis world_ok example_state example_config
       !! "enhanced_sources_count" = Some (VInt 1).
Proof.
  destruct (completed_update_replaces_findings
              world_ok example_state example_config
              example_maker example_decision
              {| scrape_url := example_page |})
    as (Hw & Hs & _ & Hn & _ & _).
  - vm_compute; reflexivity.
  - vm_compute; reflexivity.
  - reflexivity.
  - vm_compute; discriminate.
  - split; [exact Hw |]. split; [exact Hs | exact Hn].
Defined.

Example completed_update_example :
  content_enhancement_analysis world_ok example_state example_config
    !! "web_research_result"
  = Some (VStrList
            [ block "Survey" "https://arxiv.org/abs/1" 17
                    "# Survey of cells" ]).
Proof. vm_compute. reflexivity. Qed.

(** C10.  When the status of the update is not "completed", the update
    has none of the keys "web_research_result",
    "enhanced_content_results" and "enhanced_sources_count"; merged into
    the state it leaves the findings of the state as they were. *)
Theorem other_status_leaves_findings
    (w : World) (state : OverallState) (config : RunnableConfig) :
  let u := content_enhancement_analysis w state config in
  u !! "enhancement_status" <> Some (VStr "completed") ->
  u !! "web_research_result" = None
  /\ u !! "enhanced_content_results" = None
  /\ u !! "enhanced_sources_count" = None
  /\ st_web_research_result (merge_update state u)
     = st_web_research_result state
  /\ st_enhanced_sources_count (merge_update state u)
     = st_enhanced_sources_count state.
Proof.
  intros u Hnot.
  assert (H : u !! "web_research_result" = None
              /\ u !! "enhanced_content_results" = None
              /\ u !! "enhanced_sources_count" = None).
  { unfold u in *. rewrite node_decision in *.
    destruct (analysis_decision w state config) as [[maker d]|e].
    - pose proof (analysis_update_lookup w maker d) as Hu. cbv zeta in Hu.
      destruct Hu as (_ & Hs & _ & Hkeys).
      destruct (outcome_of w maker d); try exact Hkeys.
      exfalso. apply Hnot. exact Hs.
    - destruct (error_update_lookup e) as (_ & _ & _ & H1 & H2 & H3). auto. }
  destruct H as (H1 & H2 & H3).
  unfold merge_update. cbn [st_web_research_result st_enhanced_sources_count].
  rewrite H1, H3. auto.
Qed.

Lemma other_status_leaves_findings_witness :
  content_enhancement_analysis world_no_enhance example_state example_config
    !! "enhancement_status" = Some (VStr "skipped")
  /\ content_enhancement_analysis world_no_enhance example_state
       example_config !! "web_research_result" = None
  /\ st_web_research_result
       (merge_update example_state
          (content_enhancement_analysis world_no_enhance example_state
             example_config))
     = Some ["Earlier finding."].
Proof.
  split; [vm_compute; reflexivity |].
  destruct (other_status_leaves_findings
              world_no_enhance example_state example_config)
    as (Hw & _ & _ & Hm & _).
  - vm_compute; discriminate.
  - split; [exact Hw | exact Hm].
Defined.

(* ================================================================== *)
(** ** The gate *)
(* ================================================================== *)

(** C5.  [should_enhance_content] returns "analyze_enhancement_need"
    exactly when the crawl credential is set and not empty, at least one
    research loop is done, the status is neither "completed" nor
    "skipped", and there is a finding; otherwise it returns
    "continue_without_enhancement".  The checks are made in this order:
    the line that is printed is the line of the first check that
    fails. *)
Theorem should_enhance_content_gate (w : World) (state : OverallState) :
  let configured :=
    exists key, getenv w "FIRECRAWL_API_KEY" = Some key /\ key <> "" in
  let loops := default 0 (st_research_loop_count state) in
  let already :=
    st_enhancement_status state = Some "completed"
    \/ st_enhancement_status state = Some "skipped" in
  let findings := default [] (st_web_research_result state) in
  let printed := fst (should_enhance_content w state) in
  let edge := snd (should_enhance_content w state) in
  (edge = "analyze_enhancement_need"
   <-> configured /\ 1 <= loops /\ ~ already /\ findings <> [])
  /\ (edge = "analyze_enhancement_need"
      \/ edge = "continue_without_enhancement")
  /\ (~ configured -> printed = log_no_key)
  /\ (configured -> loops < 1 -> printed = log_loop_count loops)
  /\ (configured -> 1 <= loops -> already -> printed = log_already)
  /\ (configured -> 1 <= loops -> ~ already -> findings = [] ->
      printed = log_no_content)
  /\ (configured -> 1 <= loops -> ~ already -> findings <> [] ->
      printed = log_proceed).
Proof.
  intros configured loops already findings printed edge.
  unfold printed, edge, should_enhance_content.
  assert (Hcfg : truthy (default "" (getenv w "FIRECRAWL_API_KEY")) = true
                 <-> configured).
  { unfold configured, truthy.
    destruct (getenv w "FIRECRAWL_API_KEY") as [key|]; simpl.
    - rewrite negb_true_iff. split.
      + intros Hk. exists key. split; [reflexivity |].
        intros ->. discriminate.
      + intros [key' [[= <-] Hne]]. apply String.eqb_neq, Hne.
    - split; [discriminate | intros [key [H _]]; discriminate]. }
  assert (Hal : match st_enhancement_status state with
                | Some s => String.eqb s "completed" || String.eqb s "skipped"
                | None => false
                end = true <-> already).
  { unfold already. destruct (st_enhancement_status state) as [s|].
    - rewrite orb_true_iff, !String.eqb_eq.
      split; intros [H|H]; [left | right | left | right]; congruence.
    - split; [discriminate | intros [H|H]; discriminate]. }
  assert (Hfi : (length findings <? 1)%nat = true <-> findings = []).
  { rewrite Nat.ltb_lt. destruct findings; simpl; split;
      intros; try reflexivity; try discriminate; lia. }
  fold loops findings.
  destruct (truthy (default "" (getenv w "FIRECRAWL_API_KEY"))) eqn:Hc;
    cbn [negb].
  2: { assert (Hn : ~ configured)
         by (intros H; apply Hcfg in H; discriminate).
       cbn [fst snd]. repeat split; try tauto; try discriminate;
         try (right; reflexivity). }
  assert (Hy : configured) by (apply Hcfg; reflexivity).
  destruct (loops <? 1) eqn:Hl.
  { apply Z.ltb_lt in Hl. cbn [fst snd].
    repeat split; try tauto; try discriminate; try lia;
      try (right; reflexivity). }
  apply Z.ltb_ge in Hl.
  destruct (match st_enhancement_status state with
            | Some s => String.eqb s "completed" || String.eqb s "skipped"
            | None => false
            end) eqn:Ha.
  { assert (Hy2 : already) by (apply Hal; reflexivity).
    cbn [fst snd]. repeat split; try tauto; try discriminate; try lia;
      try (right; reflexivity). }
  assert (Hn2 : ~ already) by (intros H; apply Hal in H; discriminate).
  destruct (length findings <? 1)%nat eqn:Hf.
  { assert (He : findings = []) by (apply Hfi; reflexivity).
    cbn [fst snd]. repeat split; try tauto; try discriminate; try lia;
      try (right; reflexivity). }
  assert (Hne : findings <> [])
    by (intros H; apply Hfi in H; discriminate).
  cbn [fst snd]. repeat split; try tauto; try lia;
    try (left; reflexivity).
Qed.

Lemma should_enhance_content_gate_witness :
  snd (should_enhance_content world_ok example_state)
  = "analyze_enhancement_need"
  /\ fst (should_enhance_content world_ok example_state) = log_proceed.
Proof.
  pose proof (should_enhance_content_gate world_ok example_state) as H.
  cbv zeta in H. destruct H as (Hiff & _ & _ & _ & _ & _ & Hlog).
  assert (Hc : exists key,
             getenv world_ok "FIRECRAWL_API_KEY" = Some key /\ key <> "")
    by (exists "fc-key"; split; [reflexivity | discriminate]).
  assert (Hl : 1 <= default 0 (st_research_loop_count example_state))
    by (simpl; lia).
  assert (Ha : ~ (st_enhancement_status example_state = Some "completed"
                  \/ st_enhancement_status example_state = Some "skipped"))
    by (simpl; intros [H|H]; discriminate).
  assert (Hf : default [] (st_web_research_result example_state) <> [])
    by (simpl; discriminate).
  split.
  - apply Hiff. auto.
  - apply Hlog; assumption.
Defined.

(* ================================================================== *)
(** ** The reflection adapter *)
(* ================================================================== *)

(** C3.  For a count of enhanced sources below 2^1023 (beyond it the
    conversion of the count to a float overflows), [enhanced_reflection]
    overrides the verdict of the base reflection, making it sufficient
    with the message "Content has been sufficiently supplemented through
    deep crawling" and keeping every other key, exactly when the
    status is "completed", the count is positive, the base verdict is
    insufficient and the boost [min(count * 0.3, 0.8)] reaches 0.6, which
    in binary64 holds exactly for a count of 2 or more; in every other
    case it returns the base verdict as it is. *)
Theorem enhanced_reflection_override
    (w : World) (state : OverallState) (config : RunnableConfig)
    (base : ReflectionState) :
  reflection w state config = Ok base ->
  default 0 (st_enhanced_sources_count state) < 2 ^ 1023 ->
  let count := default 0 (st_enhanced_sources_count state) in
  let condition :=
    st_enhancement_status state = Some "completed"
    /\ 0 < count
    /\ is_sufficient base = false
    /\ 2 <= count in
  (condition ->
   enhanced_reflection w state config
   = Ok {| is_sufficient := true;
           knowledge_gap :=
             "Content has been sufficiently supplemented through deep crawling";
           rs_rest := rs_rest base |})
  /\ (~ condition -> enhanced_reflection w state config = Ok base)
  /\ (0 < count ->
      exists x, float_of_int count = Ok x
                /\ (F64.geb (F64.min2 (F64.mul x F64.f0_3) F64.f0_8)
                            F64.f0_6 = true
                    <-> 2 <= count)).
Proof.
  intros Hbase Hbound count condition.
  assert (Hboost : 0 < count ->
            exists x, float_of_int count = Ok x
                      /\ F64.geb (F64.min2 (F64.mul x F64.f0_3) F64.f0_8)
                                 F64.f0_6 = (2 <=? count)).
  { intros Hpos. apply boost_check. fold count in Hbound. lia. }
  assert (Hst : match st_enhancement_status state with
                | Some s => String.eqb s "completed"
                | None => false
                end = true
                <-> st_enhancement_status state = Some "completed").
  { destruct (st_enhancement_status state) as [s|].
    - rewrite String.eqb_eq. split; congruence.
    - split; discriminate. }
  unfold enhanced_reflection. rewrite Hbase. cbn. fold count.
  split; [| split].
  - intros (Hs & Hpos & Hins & Htwo).
    apply Hst in Hs. rewrite Hs.
    assert (Hp : (0 <? count) = true) by (apply Z.ltb_lt; exact Hpos).
    rewrite Hp, Hins. cbn.
    destruct (Hboost Hpos) as [x [-> Hx]]. cbn.
    rewrite Hx. assert (Ht : (2 <=? count) = true) by (apply Z.leb_le; lia).
    rewrite Ht. reflexivity.
  - intros Hnot.
    destruct (match st_enhancement_status state with
              | Some s => String.eqb s "completed"
              | None => false
              end) eqn:Hs; [| reflexivity].
    destruct (0 <? count) eqn:Hp; [| reflexivity]. cbn.
    destruct (is_sufficient base) eqn:Hins; [reflexivity |]. cbn.
    apply Z.ltb_lt in Hp.
    destruct (Hboost Hp) as [x [-> Hx]]. cbn. rewrite Hx.
    destruct (2 <=? count) eqn:Ht; [| reflexivity].
    exfalso. apply Hnot. apply Z.leb_le in Ht.
    split; [apply Hst; reflexivity |]. auto.
  - intros Hpos. destruct (Hboost Hpos) as [x [Hx Hb]].
    exists x. split; [exact Hx |]. rewrite Hb. apply Z.leb_le.
Qed.

Lemma enhanced_reflection_override_witness :
  enhanced_reflection world_ok (state_after_enhancement 3) example_config
  = Ok {| is_sufficient := true;
          knowledge_gap :=
            "Content has been sufficiently supplemented through deep crawling";
          rs_rest := rs_rest example_reflection |}
  /\ enhanced_reflection world_ok (state_after_enhancement 1) example_config
     = Ok example_reflection.
Proof.
  split.
  - apply (enhanced_reflection_override
             world_ok (state_after_enhancement 3) example_config
             example_reflection).
    + reflexivity.
    + vm_compute; reflexivity.
    + simpl. repeat split; lia.
  - apply (enhanced_reflection_override
             world_ok (state_after_enhancement 1) example_config
             example_reflection).
    + reflexivity.
    + vm_compute; reflexivity.
    + simpl. intros (_ & _ & _ & H). lia.
Defined.

(** A failure of the base reflection goes on to the caller. *)
Lemma enhanced_reflection_propagates
    (w : World) (state : OverallState) (config : RunnableConfig)
    (e : string) :
  reflection w state config = Raise e ->
  enhanced_reflection w state config = Raise e.
Proof. intros H. unfold enhanced_reflection. rewrite H. reflexivity. Qed.

(* ================================================================== *)
(** ** Further properties of the scorer and the parser *)
(* ================================================================== *)

Lemma gtb_threshold_any_rule (src : source) :
  F64.gtb (_calculate_url_priority src) F64.f0_3 = any_rule_fires src.
Proof.
  rewrite calculate_url_priority_rules. unfold any_rule_fires.
  destruct (fires official_domains (src_url src)),
           (fires known_platforms (src_url src)),
           (fires technical_keywords (src_title src)),
           (fires company_names (src_url src));
    vm_compute; reflexivity.
Qed.

(** X1.  A source scores above the threshold 0.3 exactly when at least
    one of the four rules fires on it; with no rule its score is the base
    0.1.  One rule of weight 0.2 is enough, because in binary64 the sum
    0.2 + 0.1 is just above 0.3. *)
Theorem score_above_threshold_iff_rule (src : source) :
  F64.gtb (_calculate_url_priority src) F64.f0_3 = any_rule_fires src
  /\ (any_rule_fires src = true
      \/ _calculate_url_priority src = F64.f0_1).
Proof.
  rewrite calculate_url_priority_rules. unfold any_rule_fires.
  destruct (fires official_domains (src_url src)),
           (fires known_platforms (src_url src)),
           (fires technical_keywords (src_title src)),
           (fires company_names (src_url src));
    vm_compute; split; first [reflexivity | left; reflexivity
                             | right; reflexivity].
Qed.

(** X2.  The score is monotone in the rules: when every rule that fires
    on one source also fires on another, the score of the other is not
    smaller, the cap at 1.0 and the rounding of the sums included. *)
Theorem score_monotone_in_rules (s1 s2 : source) :
  (fires official_domains (src_url s1) = true ->
   fires official_domains (src_url s2) = true) ->
  (fires known_platforms (src_url s1) = true ->
   fires known_platforms (src_url s2) = true) ->
  (fires technical_keywords (src_title s1) = true ->
   fires technical_keywords (src_title s2) = true) ->
  (fires company_names (src_url s1) = true ->
   fires company_names (src_url s2) = true) ->
  F64.leb (_calculate_url_priority s1) (_calculate_url_priority s2) = true.
Proof.
  rewrite !calculate_url_priority_rules.
  destruct (fires official_domains (src_url s1)),
           (fires known_platforms (src_url s1)),
           (fires technical_keywords (src_title s1)),
           (fires company_names (src_url s1));
    destruct (fires official_domains (src_url s2)),
             (fires known_platforms (src_url s2)),
             (fires technical_keywords (src_title s2)),
             (fires company_names (src_url s2));
    intros H1 H2 H3 H4;
    try (specialize (H1 eq_refl); discriminate);
    try (specialize (H2 eq_refl); discriminate);
    try (specialize (H3 eq_refl); discriminate);
    try (specialize (H4 eq_refl); discriminate);
    vm_compute; reflexivity.
Qed.

Lemma score_monotone_in_rules_witness :
  F64.leb
    (_calculate_url_priority
       {| src_title := Some "Notes"; src_url := Some "https://arxiv.org/a";
          src_snippet := None |})
    (_calculate_url_priority
       {| src_title := Some "A study"; src_url := Some "https://arxiv.org/b";
          src_snippet := None |}) = true.
Proof.
  apply score_monotone_in_rules; vm_compute; intros H;
    first [reflexivity | discriminate].
Defined.

Section LowerFacts.

Lemma lower_char_idempotent (c : ascii) :
  PyStr.lower_char (PyStr.lower_char c) = PyStr.lower_char c.
Proof.
  destruct c as [[] [] [] [] [] [] [] []]; vm_compute; reflexivity.
Qed.

Lemma lower_idempotent (s : string) :
  PyStr.lower (PyStr.lower s) = PyStr.lower s.
Proof.
  induction s as [|c s IH]; simpl; [reflexivity |].
  rewrite lower_char_idempotent, IH. reflexivity.
Qed.

End LowerFacts.

(** X3.  The [reasoning] of a decision is the lower-cased text, and it
    is enough to get the decision again: parsing it with the same sources
    gives the decision itself, because lower-casing a lower-cased text
    changes nothing.  In particular the parser does not depend on the
    case of the letters of the text: two texts with the same lower case
    give the same decision. *)
Theorem parse_reasoning_round_trip
    (decision_text : string) (grounding_sources : list source) :
  let d := _parse_llm_decision decision_text grounding_sources in
  reasoning d = PyStr.lower decision_text
  /\ _parse_llm_decision (reasoning d) grounding_sources = d
  /\ forall other,
       PyStr.lower other = PyStr.lower decision_text ->
       _parse_llm_decision other grounding_sources = d.
Proof.
  assert (H : _parse_llm_decision (PyStr.lower decision_text)
                grounding_sources
              = _parse_llm_decision decision_text grounding_sources).
  { unfold _parse_llm_decision. rewrite lower_idempotent. reflexivity. }
  cbv zeta. split; [reflexivity |]. split; [exact H |].
  intros other Hother. unfold _parse_llm_decision. rewrite Hother.
  reflexivity.
Qed.

(** X4.  The enhancement type is one of "selective", "comprehensive" and
    "none".  The word "selective" in the text wins over "comprehensive";
    without both words the type is "selective" for a decision that needs
    enhancement and "none" otherwise.  A decision of type "none" needs
    no enhancement and has no priority URL. *)
Theorem enhancement_type_cases
    (decision_text : string) (grounding_sources : list source) :
  let d := _parse_llm_decision decision_text grounding_sources in
  let selective := occurs_nocase "selective" decision_text in
  let comprehensive := occurs_nocase "comprehensive" decision_text in
  (enhancement_type d = "selective"
   <-> selective \/ (~ comprehensive /\ needs_enhancement d = true))
  /\ (enhancement_type d = "comprehensive"
      <-> ~ selective /\ comprehensive)
  /\ (enhancement_type d = "none"
      <-> ~ selective /\ ~ comprehensive /\ needs_enhancement d = false)
  /\ (enhancement_type d = "none" ->
      needs_enhancement d = false /\ priority_urls d = []).
Proof.
  intros d selective comprehensive.
  pose proof (contains_lower_nocase "selective" decision_text) as Hs.
  pose proof (contains_lower_nocase "comprehensive" decision_text) as Hc.
  fold selective in Hs. fold comprehensive in Hc.
  pose proof (parse_priority_urls_unfold decision_text grounding_sources)
    as Hu. cbv zeta in Hu. fold d in Hu.
  assert (Ht : enhancement_type d
               = if PyStr.contains "selective" (PyStr.lower decision_text)
                 then "selective"
                 else if PyStr.contains "comprehensive"
                           (PyStr.lower decision_text)
                 then "comprehensive"
                 else if needs_enhancement d then "selective" else "none")
    by reflexivity.
  rewrite Ht. clear Ht.
  destruct (PyStr.contains "selective" (PyStr.lower decision_text)) eqn:Es.
  { assert (selective) by (apply Hs; reflexivity).
    repeat split; intros; try tauto; try discriminate. }
  assert (Hns : ~ selective) by (intros H; apply Hs in H; discriminate).
  destruct (PyStr.contains "comprehensive" (PyStr.lower decision_text))
    eqn:Ec.
  { assert (comprehensive) by (apply Hc; reflexivity).
    repeat split; intros; try tauto; try discriminate. }
  assert (Hnc : ~ comprehensive) by (intros H; apply Hc in H; discriminate).
  destruct (needs_enhancement d) eqn:En.
  - repeat split; intros; try tauto; try discriminate.
    destruct H as (_ & _ & H). discriminate.
  - rewrite Hu.
    repeat split; intros; try tauto; try discriminate.
Qed.

Lemma enhancement_type_cases_witness :
  enhancement_type
    (_parse_llm_decision "ENHANCE, comprehensive rather than Selective" [])
  = "selective"
  /\ (needs_enhancement
        (_parse_llm_decision "the content is complete" []) = false
      /\ priority_urls
           (_parse_llm_decision "the content is complete" []) = []).
Proof.
  split.
  - apply (enhancement_type_cases
             "ENHANCE, comprehensive rather than Selective" []).
    left. exists "ENHANCE, comprehensive rather than ", "Selective", "".
    split; reflexivity.
  - apply (enhancement_type_cases "the content is complete" []).
    vm_compute; reflexivity.
Defined.

Section SortedListFacts.

Context {A B : Type}.

Lemma firstn_strongly_sorted (R : A -> A -> Prop) (k : nat) (l : list A) :
  StronglySorted R l -> StronglySorted R (firstn k l).
Proof.
  intros Hs. revert k. induction Hs as [|x t Hs IH Hx]; intros [|k]; simpl;
    try constructor.
  - apply IH.
  - rewrite List.Forall_forall in *. intros z Hz.
    apply Hx. exact (In_firstn_In _ _ _ _ Hz).
Qed.

Lemma map_strongly_sorted (R : A -> A -> Prop) (R' : B -> B -> Prop)
    (f : A -> B) (l : list A) :
  (forall x y, R x y -> R' (f x) (f y)) ->
  StronglySorted R l -> StronglySorted R' (map f l).
Proof.
  intros Hf Hs. induction Hs as [|x t Hs IH Hx]; simpl; constructor.
  - exact IH.
  - rewrite List.Forall_forall in *. intros z Hz.
    apply in_map_iff in Hz. destruct Hz as [y [<- Hy]]. apply Hf, Hx, Hy.
Qed.

End SortedListFacts.

(** X5.  For every text and every list of sources, the priority URLs are
    at most 2, or at most 3 for the type "comprehensive", and never more
    than there are sources; they stand in descending order of score;
    each one has a score above 0.3 and at most 1.0, takes title, url and
    score from one of the sources and carries the text "Score: " with
    the score in two decimals; and there is none unless the decision
    needs enhancement and a source exists. *)
Theorem priority_urls_invariants
    (decision_text : string) (grounding_sources : list source) :
  let d := _parse_llm_decision decision_text grounding_sources in
  (length (priority_urls d)
   <= (if String.eqb (enhancement_type d) "comprehensive" then 3 else 2))%nat
  /\ (length (priority_urls d) <= 3)%nat
  /\ (length (priority_urls d) <= length grounding_sources)%nat
  /\ StronglySorted
       (fun u v =>
          F64.ltb (pu_priority_score u) (pu_priority_score v) = false)
       (priority_urls d)
  /\ Forall
       (fun u =>
          F64.gtb (pu_priority_score u) F64.f0_3 = true
          /\ F64.leb (pu_priority_score u) F64.f1_0 = true
          /\ pu_reasoning u
             = "Score: " +:+ F64.format_2f (pu_priority_score u)
          /\ exists src,
               In src grounding_sources
               /\ any_rule_fires src = true
               /\ pu_title u = dict_get (src_title src) ""
               /\ pu_url u = dict_get (src_url src) ""
               /\ pu_priority_score u = _calculate_url_priority src)
       (priority_urls d)
  /\ ((needs_enhancement d = true /\ grounding_sources <> [])
      \/ priority_urls d = []).
Proof.
  intros d.
  pose proof (parse_priority_urls_unfold decision_text grounding_sources)
    as Hu. cbv zeta in Hu. fold d in Hu.
  assert (Hempty : priority_urls d = [] ->
            (length (priority_urls d)
             <= (if String.eqb (enhancement_type d) "comprehensive"
                 then 3 else 2))%nat
            /\ (length (priority_urls d) <= 3)%nat
            /\ (length (priority_urls d) <= length grounding_sources)%nat
            /\ StronglySorted
                 (fun u v =>
                    F64.ltb (pu_priority_score u) (pu_priority_score v)
                    = false)
                 (priority_urls d)
            /\ Forall
                 (fun u =>
                    F64.gtb (pu_priority_score u) F64.f0_3 = true
                    /\ F64.leb (pu_priority_score u) F64.f1_0 = true
                    /\ pu_reasoning u
                       = "Score: " +:+ F64.format_2f (pu_priority_score u)
                    /\ exists src,
                         In src grounding_sources
                         /\ any_rule_fires src = true
                         /\ pu_title u = dict_get (src_title src) ""
                         /\ pu_url u = dict_get (src_url src) ""
                         /\ pu_priority_score u = _calculate_url_priority src)
                 (priority_urls d)).
  { intros ->. simpl.
    repeat split; try lia; try constructor;
      destruct (String.eqb (enhancement_type d) "comprehensive"); lia. }
  destruct (needs_enhancement d) eqn:Hneeds.
  2: { destruct (Hempty Hu) as (H1 & H2 & H3 & H4 & H5). tauto. }
  destruct grounding_sources as [|s0 rest] eqn:Hsrcs.
  { destruct (Hempty Hu) as (H1 & H2 & H3 & H4 & H5). tauto. }
  rewrite <- Hsrcs in *. clear Hempty.
  set (k := max_urls_of (enhancement_type d)) in *.
  set (sorted := sort_desc (score_sources grounding_sources)) in *.
  assert (Hperm : Permutation sorted (score_sources grounding_sources))
    by apply sort_desc_perm.
  assert (Hdesc : descending sorted)
    by apply sort_desc_sorted, score_sources_pos_finite.
  assert (Hlen : (length (priority_urls d) <= k)%nat).
  { rewrite Hu, length_map.
    eapply Nat.le_trans; [apply filter_length_le |].
    apply firstn_le_length. }
  assert (Hk : k = if String.eqb (enhancement_type d) "comprehensive"
                   then 3%nat else 2%nat) by reflexivity.
  split; [rewrite <- Hk; exact Hlen |].
  split; [destruct (String.eqb (enhancement_type d) "comprehensive"); lia |].
  split.
  { rewrite Hu, length_map.
    eapply Nat.le_trans; [apply filter_length_le |].
    rewrite length_firstn.
    apply Permutation_length in Hperm.
    unfold score_sources in Hperm. rewrite length_map in Hperm. lia. }
  split.
  { rewrite Hu.
    apply (map_strongly_sorted not_below); [intros [s1 v1] [s2 v2] H; exact H |].
    apply filter_strongly_sorted, firstn_strongly_sorted, Hdesc. }
  split.
  { rewrite Hu. apply List.Forall_forall. intros u Hin.
    apply in_map_iff in Hin. destruct Hin as [[src sc] [<- Hin]].
    apply filter_In in Hin. destruct Hin as [Hin Habove].
    apply In_firstn_In in Hin.
    apply (Permutation_in _ Hperm) in Hin.
    unfold score_sources in Hin. apply in_map_iff in Hin.
    destruct Hin as [src' [[= <- <-] Hsrc]].
    cbn [make_priority_url pu_priority_score pu_reasoning pu_title pu_url].
    unfold above_threshold in Habove. cbn [snd] in Habove.
    split; [exact Habove |].
    split; [rewrite calculate_url_priority_rules; apply rule_score_range |].
    split; [reflexivity |].
    exists src'. split; [exact Hsrc |].
    split; [| auto].
    rewrite <- (gtb_threshold_any_rule src'). exact Habove. }
  left. split; [reflexivity | rewrite Hsrcs; discriminate].
Qed.

Section ConfidencePatternFacts.

#[local] Arguments String.append : simpl nomatch.

Lemma match_decimal_prefix s g :
  match_decimal s = Some g -> exists post, s = g +:+ post.
Proof.
  unfold match_decimal.
  destruct s as [|a [|dot [|b rest]]]; try discriminate.
  destruct (PyStr.is_digit a && Ascii.eqb dot "." && PyStr.is_digit b);
    [| discriminate].
  intros [= <-]. exists rest. reflexivity.
Qed.

Lemma match_decimal_complete g post :
  decimal_text g -> match_decimal (g +:+ post) = Some g.
Proof.
  intros [a [b [-> [Ha Hb]]]]. simpl. rewrite Ha, Hb. reflexivity.
Qed.

Lemma lazy_dots_sound rest g :
  lazy_dots_then_decimal rest = Some g ->
  exists mid post,
    rest = mid +:+ g +:+ post /\ newline_free mid /\ decimal_text g.
Proof.
  induction rest as [|c rest IH]; cbn [lazy_dots_then_decimal].
  - discriminate.
  - destruct (match_decimal (String c rest)) as [g'|] eqn:Hm.
    + intros [= <-]. destruct (match_decimal_prefix _ _ Hm) as [post Hp].
      exists "", post. split; [exact Hp |]. split; [exact I |].
      eapply match_decimal_text, Hm.
    + destruct (Ascii.eqb c PyStr.newline) eqn:Hc; [discriminate |].
      intros H. destruct (IH H) as [mid [post [-> [Hmid Hg]]]].
      exists (String c mid), post. split; [reflexivity |].
      split; [| exact Hg]. split; [| exact Hmid].
      apply Ascii.eqb_neq, Hc.
Qed.

Lemma lazy_dots_complete mid g post :
  newline_free mid -> decimal_text g ->
  is_Some (lazy_dots_then_decimal (mid +:+ g +:+ post)).
Proof.
  intros Hmid Hg. induction mid as [|c mid IH].
  - change ("" +:+ g +:+ post) with (g +:+ post).
    destruct Hg as [a [b [-> [Ha Hb]]]]. simpl. rewrite Ha, Hb. simpl. eauto.
  - destruct Hmid as [Hc Hmid].
    change (String c mid +:+ g +:+ post)
      with (String c (mid +:+ g +:+ post)).
    cbn [lazy_dots_then_decimal].
    destruct (match_decimal (String c (mid +:+ g +:+ post))); [eauto |].
    apply Ascii.eqb_neq in Hc. rewrite Hc. apply IH, Hmid.
Qed.

Lemma re_search_sound s g :
  re_search_confidence s = Some g -> confidence_pattern s /\ decimal_text g.
Proof.
  induction s as [|c s IH]; cbn [re_search_confidence].
  - unfold match_confidence_here. simpl. discriminate.
  - destruct (match_confidence_here (String c s)) as [g'|] eqn:Hm.
    + intros [= <-]. unfold match_confidence_here in Hm.
      destruct (String.prefix "confidence" (String c s)) eqn:Hp;
        [| discriminate].
      apply prefix_occurs_at_head in Hp. destruct Hp as [rest Hrest].
      rewrite Hrest in Hm.
      change (PyStr.drop 10 ("confidence" +:+ rest)) with rest in Hm.
      destruct (lazy_dots_sound _ _ Hm) as [mid [post [-> [Hmid Hg]]]].
      split; [| exact Hg].
      exists "", mid, g', post. rewrite Hrest. auto.
    + intros H. destruct (IH H) as [[pre [mid [g' [post [-> Hrest]]]]] Hg].
      split; [| exact Hg].
      exists (String c pre), mid, g', post. split; [reflexivity | exact Hrest].
Qed.

Lemma re_search_complete s :
  confidence_pattern s -> is_Some (re_search_confidence s).
Proof.
  intros [pre [mid [g [post [-> [Hmid Hg]]]]]].
  induction pre as [|c pre IH].
  - change ("" +:+ "confidence" +:+ mid +:+ g +:+ post)
      with (String "c" ("onfidence" +:+ mid +:+ g +:+ post)).
    cbn [re_search_confidence].
    assert (Hh : is_Some (match_confidence_here
                            (String "c" ("onfidence" +:+ mid +:+ g +:+ post)))).
    { unfold match_confidence_here.
      change (String "c" ("onfidence" +:+ mid +:+ g +:+ post))
        with ("confidence" +:+ mid +:+ g +:+ post).
      assert (Hp : String.prefix "confidence"
                     ("confidence" +:+ mid +:+ g +:+ post) = true)
        by (apply prefix_occurs_at_head; eauto).
      rewrite Hp.
      change (PyStr.drop 10 ("confidence" +:+ mid +:+ g +:+ post))
        with (mid +:+ g +:+ post).
      apply lazy_dots_complete; assumption. }
    destruct Hh as [g' ->]. eauto.
  - change (String c pre +:+ "confidence" +:+ mid +:+ g +:+ post)
      with (String c (pre +:+ "confidence" +:+ mid +:+ g +:+ post)).
    cbn [re_search_confidence].
    destruct (match_confidence_here
                (String c (pre +:+ "confidence" +:+ mid +:+ g +:+ post)));
      [eauto | exact IH].
Qed.

End ConfidencePatternFacts.

(** X6.  The confidence score is the default 0.5 whenever the
    lower-cased text has no occurrence of "confidence" followed on the
    same line by a digit, a dot and a digit; the search finds a decimal
    exactly when there is such an occurrence, so a newline between the
    word and the number leaves the default. *)
Theorem confidence_default_iff_no_pattern
    (decision_text : string) (grounding_sources : list source) :
  let d := _parse_llm_decision decision_text grounding_sources in
  (re_search_confidence (PyStr.lower decision_text) = None
   <-> ~ confidence_pattern (PyStr.lower decision_text))
  /\ (confidence_pattern (PyStr.lower decision_text)
      \/ confidence_score d = F64.f0_5).
Proof.
  intros d.
  assert (Hiff : re_search_confidence (PyStr.lower decision_text) = None
                 <-> ~ confidence_pattern (PyStr.lower decision_text)).
  { split.
    - intros Hn Hp. apply re_search_complete in Hp.
      rewrite Hn in Hp. destruct Hp as [g Hg]. discriminate.
    - intros Hn.
      destruct (re_search_confidence (PyStr.lower decision_text)) as [g|]
        eqn:Hs; [| reflexivity].
      exfalso. apply Hn. eapply re_search_sound, Hs. }
  split; [exact Hiff |].
  destruct (re_search_confidence (PyStr.lower decision_text)) as [g|] eqn:Hs.
  - left. eapply re_search_sound, Hs.
  - right. unfold d, _parse_llm_decision. cbn [confidence_score].
    rewrite Hs. reflexivity.
Qed.

(** X7.  The confidence score is always a number between 0.0 and 9.9,
    the doubles nearest to these decimals included, and so below 10:
    either the default 0.5 or the double nearest to the decimal that the
    search found. *)
Theorem confidence_score_between_0_and_9_9
    (decision_text : string) (grounding_sources : list source) :
  let c := confidence_score
             (_parse_llm_decision decision_text grounding_sources) in
  F64.leb F64.f0_0 c = true
  /\ F64.leb c (F64.literal 99 10) = true
  /\ (0 <= F64.to_Q c <= 10)%Q.
Proof.
  cbv zeta.
  destruct (parse_confidence_values decision_text grounding_sources)
    as [[_ ->] | [a [b [Ha [Hb ->]]]]].
  - vm_compute. repeat split; first [reflexivity | discriminate].
  - assert (Hda : a = 0 \/ a = 1 \/ a = 2 \/ a = 3 \/ a = 4 \/ a = 5
                  \/ a = 6 \/ a = 7 \/ a = 8 \/ a = 9) by lia.
    assert (Hdb : b = 0 \/ b = 1 \/ b = 2 \/ b = 3 \/ b = 4 \/ b = 5
                  \/ b = 6 \/ b = 7 \/ b = 8 \/ b = 9) by lia.
    clear Ha Hb.
    repeat (destruct Hda as [-> | Hda]); try subst a;
      repeat (destruct Hdb as [-> | Hdb]); try subst b;
      vm_compute; repeat split; first [reflexivity | discriminate].
Qed.

(** X8.  The prompt is built from the last three findings and the first
    five sources only: earlier findings and later sources do not reach
    the language model. *)
Theorem prompt_uses_last_three_and_first_five
    (research_topic : string) (current_findings : list string)
    (grounding_sources : list source) :
  _build_analysis_prompt research_topic current_findings grounding_sources
  = _build_analysis_prompt research_topic
      (skipn (length current_findings - 3) current_findings)
      (firstn 5 grounding_sources)
  /\ (length (skipn (length current_findings - 3) current_findings) <= 3)%nat
  /\ (length (firstn 5 grounding_sources) <= 5)%nat.
Proof.
  assert (Hlen : (length (skipn (length current_findings - 3)
                            current_findings) <= 3)%nat)
    by (rewrite length_skipn; lia).
  split; [| split; [exact Hlen | apply firstn_le_length]].
  unfold _build_analysis_prompt.
  rewrite firstn_firstn. change (Nat.min 5 5) with 5%nat.
  replace (length (skipn (length current_findings - 3) current_findings) - 3)%nat
    with 0%nat by lia.
  reflexivity.
Qed.

(* ================================================================== *)
(** ** Further properties: quality and the crawl method *)
(* ================================================================== *)

Section QualityFacts.

Lemma occurs_double_hash s : occurs "##" s -> occurs "#" s.
Proof.
  intros [pre [post ->]]. exists pre, ("#" +:+ post). reflexivity.
Qed.

Lemma occurs_triple_hash s : occurs "###" s -> occurs "#" s.
Proof.
  intros [pre [post ->]]. exists pre, ("##" +:+ post). reflexivity.
Qed.

(** The three heading markers come to the single character. *)
Lemma heading_markers (content : string) :
  PyStr.any_in ["#"; "##"; "###"] content = PyStr.contains "#" content.
Proof.
  unfold PyStr.any_in. cbn [existsb].
  destruct (PyStr.contains "#" content) eqn:H1; [reflexivity |].
  destruct (PyStr.contains "##" content) eqn:H2.
  { apply contains_occurs, occurs_double_hash, contains_occurs in H2.
    congruence. }
  destruct (PyStr.contains "###" content) eqn:H3; [| reflexivity].
  apply contains_occurs, occurs_triple_hash, contains_occurs in H3.
  congruence.
Qed.

Lemma truthy_length (s : string) :
  truthy s = false <-> String.length s = 0%nat.
Proof.
  destruct s; vm_compute; split; intros H;
    first [reflexivity | discriminate].
Qed.

End QualityFacts.

(** X9.  The quality label depends on the length of the content, on
    whether it holds a digit and on whether it holds the character "#"
    (the longer markers add nothing): "poor" exactly up to 300
    characters; "excellent" exactly above 5000 characters with a digit
    and a "#"; "good" exactly above 1000 characters with a digit or a
    "#" when it is not excellent; "fair" in the remaining cases, among
    them every longer content without digit and "#". *)
Theorem assess_enhancement_quality_cases (content : string) :
  let q := Enhancer._assess_enhancement_quality content in
  let len := Z.of_nat (String.length content) in
  let has_data := Enhancer.any_char Enhancer.isdigit content in
  let has_heading := PyStr.contains "#" content in
  (q = "poor" <-> len <= 300)
  /\ (q = "excellent"
      <-> 5000 < len /\ has_data = true /\ has_heading = true)
  /\ (q = "good"
      <-> 1000 < len /\ (has_data = true \/ has_heading = true)
          /\ ~ (5000 < len /\ has_data = true /\ has_heading = true))
  /\ (q = "fair"
      <-> 300 < len
          /\ (len <= 1000 \/ (has_data = false /\ has_heading = false))).
Proof.
  intros q len has_data has_heading.
  unfold q, Enhancer._assess_enhancement_quality.
  rewrite heading_markers. fold len has_data has_heading.
  destruct (truthy content) eqn:Ht; cbn [negb].
  2: { apply truthy_length in Ht.
       assert (len = 0) by (unfold len; lia).
       repeat split; intros; try discriminate; try lia. }
  destruct (Z.ltb_spec 5000 len), (Z.ltb_spec 1000 len),
           (Z.ltb_spec 300 len), has_data, has_heading;
    cbn [andb orb];
    repeat split; intros; try discriminate; try lia; try tauto;
    try (exfalso; intuition (try lia; try discriminate)).
Qed.

Section EnhanceFacts.

Variable app : FirecrawlApp.

Lemma enhance_urls_cons_fails (u : priority_url) (rest : list priority_url) :
  scrape_fails app u ->
  Enhancer.enhance_urls app (u :: rest) = Enhancer.enhance_urls app rest.
Proof.
  intros Hf. cbn [Enhancer.enhance_urls].
  destruct (truthy (pu_url u)) eqn:Hu; cbn [negb]; [| reflexivity].
  destruct Hf as [He | [[e He] | [He | [r [He Hr]]]]].
  - rewrite He in Hu. discriminate.
  - rewrite He. reflexivity.
  - rewrite He. reflexivity.
  - rewrite He, Hr. reflexivity.
Qed.

Lemma enhance_urls_app (l1 l2 : list priority_url) :
  Enhancer.enhance_urls app (l1 ++ l2)
  = Enhancer.enhance_urls app l1 ++ Enhancer.enhance_urls app l2.
Proof.
  induction l1 as [|u l1 IH]; [reflexivity |].
  change ((u :: l1) ++ l2) with (u :: (l1 ++ l2)).
  cbn [Enhancer.enhance_urls].
  destruct (truthy (pu_url u)); cbn [negb]; [| exact IH].
  destruct (scrape_url app (pu_url u)) as [[r|]|e]; try exact IH.
  destruct (success r); [| exact IH].
  rewrite IH. reflexivity.
Qed.

Lemma crawl_cons_fails (w : World) (k : nat) (u : priority_url)
    (rest : list priority_url) :
  scrape_fails app u -> crawl w app k (u :: rest) = crawl w app k rest.
Proof.
  intros Hf. cbn [crawl].
  destruct (truthy (pu_url u)) eqn:Hu; cbn [negb]; [| reflexivity].
  destruct Hf as [He | [[e He] | [He | [r [He Hr]]]]].
  - rewrite He in Hu. discriminate.
  - rewrite He. reflexivity.
  - rewrite He. reflexivity.
  - rewrite He, Hr. reflexivity.
Qed.

Lemma crawl_app (w : World) (k : nat) (l1 l2 : list priority_url) :
  crawl w app k (l1 ++ l2)
  = crawl w app k l1
    ++ crawl w app (k + length (crawl w app k l1)) l2.
Proof.
  revert k. induction l1 as [|u l1 IH]; intros k.
  - simpl. rewrite Nat.add_0_r. reflexivity.
  - change ((u :: l1) ++ l2) with (u :: (l1 ++ l2)).
    cbn [crawl].
    destruct (truthy (pu_url u)); cbn [negb]; [| apply IH].
    destruct (scrape_url app (pu_url u)) as [[r|]|e]; try apply IH.
    destruct (success r); [| apply IH].
    rewrite IH. cbn [length List.app].
    replace (k + S (length (crawl w app (S k) l1)))%nat
      with (S k + length (crawl w app (S k) l1))%nat by lia.
    reflexivity.
Qed.

End EnhanceFacts.

(** X10.  [enhance_content_with_firecrawl] works URL by URL: the result
    for two lists in a row is the result for the first followed by the
    result for the second, and a URL that is empty, whose scrape raises
    or whose response is not successful changes nothing for the URLs
    before and after it. *)
Theorem enhance_content_isolates_failures
    (self : DecisionMakerInstance) (l1 l2 : list priority_url) :
  Enhancer.enhance_content_with_firecrawl self (l1 ++ l2)
  = Enhancer.enhance_content_with_firecrawl self l1
    ++ Enhancer.enhance_content_with_firecrawl self l2
  /\ forall app u,
       firecrawl_app self = Some app -> scrape_fails app u ->
       Enhancer.enhance_content_with_firecrawl self (l1 ++ u :: l2)
       = Enhancer.enhance_content_with_firecrawl self l1
         ++ Enhancer.enhance_content_with_firecrawl self l2.
Proof.
  unfold Enhancer.enhance_content_with_firecrawl.
  destruct (firecrawl_app self) as [app|].
  - split; [apply enhance_urls_app |].
    intros app' u [= <-] Hf.
    rewrite enhance_urls_app, enhance_urls_cons_fails by exact Hf.
    reflexivity.
  - split; [reflexivity | intros app u H; discriminate].
Qed.

Lemma enhance_content_isolates_failures_witness :
  Enhancer.enhance_content_with_firecrawl example_maker
    ([example_url_ok] ++ example_url_down :: [example_url_ok])
  = Enhancer.enhance_content_with_firecrawl example_maker [example_url_ok]
    ++ Enhancer.enhance_content_with_firecrawl example_maker [example_url_ok].
Proof.
  apply (proj2 (enhance_content_isolates_failures
                  example_maker [example_url_ok] [example_url_ok])
               {| scrape_url := example_page |} example_url_down).
  - reflexivity.
  - right. left. exists "timeout". reflexivity.
Defined.

Section EnhanceResultFacts.

Variable app : FirecrawlApp.

Lemma markdown_or_empty (resp : scrape_response) :
  match markdown resp with
  | Some m => if truthy m then m else ""
  | None => ""
  end = default "" (markdown resp).
Proof.
  destruct (markdown resp) as [m|]; [| reflexivity]. simpl.
  destruct m; reflexivity.
Qed.

(** What a result of the loop says about the URL it comes from. *)
Lemma enhance_urls_results (urls : list priority_url) :
  (length (Enhancer.enhance_urls app urls) <= length urls)%nat
  /\ sublist (map ec_url (Enhancer.enhance_urls app urls))
             (map pu_url urls)
  /\ Forall
       (fun r =>
          ec_content_length r
          = Z.of_nat (String.length (ec_enhanced_content r))
          /\ ec_enhancement_quality r
             = Enhancer._assess_enhancement_quality (ec_enhanced_content r)
          /\ ec_source_type r = "firecrawl_enhanced"
          /\ ec_url r <> ""
          /\ exists u resp,
               In u urls
               /\ ec_url r = pu_url u /\ ec_title r = pu_title u
               /\ ec_original_priority r = pu_priority_score u
               /\ scrape_url app (pu_url u) = Ok (Some resp)
               /\ success resp = true
               /\ ec_enhanced_content r = default "" (markdown resp))
       (Enhancer.enhance_urls app urls).
Proof.
  induction urls as [|u rest (IHlen & IHsub & IHall)].
  - simpl. split; [lia |]. split; constructor.
  - assert (Hweak :
      Forall
        (fun r =>
           ec_content_length r
           = Z.of_nat (String.length (ec_enhanced_content r))
           /\ ec_enhancement_quality r
              = Enhancer._assess_enhancement_quality (ec_enhanced_content r)
           /\ ec_source_type r = "firecrawl_enhanced"
           /\ ec_url r <> ""
           /\ exists u' resp,
                In u' (u :: rest)
                /\ ec_url r = pu_url u' /\ ec_title r = pu_title u'
                /\ ec_original_priority r = pu_priority_score u'
                /\ scrape_url app (pu_url u') = Ok (Some resp)
                /\ success resp = true
                /\ ec_enhanced_content r = default "" (markdown resp))
        (Enhancer.enhance_urls app rest)).
    { eapply List.Forall_impl; [| exact IHall].
      intros r (H1 & H2 & H3 & H4 & u' & resp & Hin & Hrest).
      repeat (split; [assumption |]).
      exists u', resp. split; [right; exact Hin | exact Hrest]. }
    assert (Hskip :
      (length (Enhancer.enhance_urls app rest) <= length (u :: rest))%nat
      /\ sublist (map ec_url (Enhancer.enhance_urls app rest))
                 (map pu_url (u :: rest))).
    { split; [simpl; lia |]. simpl. apply sublist_cons, IHsub. }
    cbn [Enhancer.enhance_urls].
    destruct (truthy (pu_url u)) eqn:Hu; cbn [negb]; [| tauto].
    destruct (scrape_url app (pu_url u)) as [[resp|]|e] eqn:Hscrape;
      try tauto.
    destruct (success resp) eqn:Hok; [| tauto].
    split; [simpl; lia |].
    split; [simpl; apply sublist_skip, IHsub |].
    constructor; [| exact Hweak].
    cbn [ec_content_length ec_enhanced_content ec_enhancement_quality
         ec_source_type ec_url ec_title ec_original_priority].
    split; [reflexivity |]. split; [reflexivity |]. split; [reflexivity |].
    split.
    { intros He. rewrite He in Hu. discriminate. }
    exists u, resp. split; [left; reflexivity |].
    repeat (split; [reflexivity |]).
    split; [exact Hscrape |]. split; [exact Hok |].
    apply markdown_or_empty.
Qed.

Lemma crawl_core_enhance (w : World) (k : nat) (urls : list priority_url) :
  map result_core (crawl w app k urls)
  = map content_core (Enhancer.enhance_urls app urls).
Proof.
  revert k. induction urls as [|u rest IH]; intros k; [reflexivity |].
  cbn [crawl Enhancer.enhance_urls].
  destruct (truthy (pu_url u)); cbn [negb]; [| apply IH].
  destruct (scrape_url app (pu_url u)) as [[resp|]|e]; try apply IH.
  destruct (success resp); [| apply IH].
  cbn [map]. rewrite IH. reflexivity.
Qed.

Lemma crawl_timestamps (w : World) (k : nat) (urls : list priority_url) :
  map er_timestamp (crawl w app k urls)
  = map (now_isoformat w) (seq k (length (crawl w app k urls))).
Proof.
  revert k. induction urls as [|u rest IH]; intros k; [reflexivity |].
  cbn [crawl].
  destruct (truthy (pu_url u)); cbn [negb]; [| apply IH].
  destruct (scrape_url app (pu_url u)) as [[resp|]|e]; try apply IH.
  destruct (success resp); [| apply IH].
  cbn [map length seq er_timestamp]. rewrite IH. reflexivity.
Qed.

End EnhanceResultFacts.

(** X11.  Each element that [enhance_content_with_firecrawl] returns
    comes from a priority URL with a URL that is not empty and a
    successful scrape: it has the url, title and score of that entry, the
    markdown of the response (the empty text when there is none), the
    length of this text and the quality label of this text.  The results
    keep the order of the priority URLs and are not more than these;
    without a crawl client there is no result. *)
Theorem enhance_content_results
    (self : DecisionMakerInstance) (priority_urls : list priority_url) :
  let results :=
    Enhancer.enhance_content_with_firecrawl self priority_urls in
  (length results <= length priority_urls)%nat
  /\ sublist (map ec_url results) (map pu_url priority_urls)
  /\ (is_Some (firecrawl_app self) \/ results = [])
  /\ Forall
       (fun r =>
          ec_content_length r
          = Z.of_nat (String.length (ec_enhanced_content r))
          /\ ec_enhancement_quality r
             = Enhancer._assess_enhancement_quality (ec_enhanced_content r)
          /\ ec_source_type r = "firecrawl_enhanced"
          /\ ec_url r <> ""
          /\ exists app u resp,
               firecrawl_app self = Some app
               /\ In u priority_urls
               /\ ec_url r = pu_url u /\ ec_title r = pu_title u
               /\ ec_original_priority r = pu_priority_score u
               /\ scrape_url app (pu_url u) = Ok (Some resp)
               /\ success resp = true
               /\ ec_enhanced_content r = default "" (markdown resp))
       results.
Proof.
  unfold Enhancer.enhance_content_with_firecrawl.
  destruct (firecrawl_app self) as [app|]; cbv zeta.
  - destruct (enhance_urls_results app priority_urls) as (Hlen & Hsub & Hall).
    split; [exact Hlen |]. split; [exact Hsub |]. split; [left; eauto |].
    eapply List.Forall_impl; [| exact Hall].
    intros r (H1 & H2 & H3 & H4 & u & resp & Hrest).
    repeat (split; [assumption |]).
    exists app, u, resp. split; [reflexivity | exact Hrest].
  - split; [simpl; lia |]. split; [apply sublist_nil_l |].
    split; [right; reflexivity | constructor].
Qed.

(** X12.  The loop of the analysis node and
    [enhance_content_with_firecrawl] gather the same results for the same
    client and the same priority URLs: url, title, score, content, length
    and source type agree element by element; the results of the node add
    the time stamp, those of the method the quality label. *)
Theorem node_crawl_agrees_with_enhance_content
    (w : World) (app : FirecrawlApp) (k : nat)
    (priority_urls : list priority_url) :
  map result_core (crawl w app k priority_urls)
  = map content_core
        (Enhancer.enhance_content_with_firecrawl
           {| firecrawl_app := Some app |} priority_urls)
  /\ length (crawl w app k priority_urls)
     = length (Enhancer.enhance_content_with_firecrawl
                 {| firecrawl_app := Some app |} priority_urls).
Proof.
  unfold Enhancer.enhance_content_with_firecrawl. cbn [firecrawl_app].
  pose proof (crawl_core_enhance app w k priority_urls) as H.
  split; [exact H |].
  apply (f_equal (@length _)) in H. rewrite !length_map in H. exact H.
Qed.

(** X13.  The crawl loop of the analysis node works URL by URL: the
    result for two lists in a row is the result for the first followed
    by the result for the second, with the clock read on from where the
    first stopped; the time stamps of the results are consecutive
    readings of the clock; and a URL that is empty, whose scrape raises
    or whose response is not successful changes nothing for the others. *)
Theorem crawl_isolates_failures
    (w : World) (app : FirecrawlApp) (k : nat)
    (l1 l2 : list priority_url) :
  crawl w app k (l1 ++ l2)
  = crawl w app k l1 ++ crawl w app (k + length (crawl w app k l1)) l2
  /\ map er_timestamp (crawl w app k l1)
     = map (now_isoformat w) (seq k (length (crawl w app k l1)))
  /\ forall u, scrape_fails app u ->
       crawl w app k (l1 ++ u :: l2) = crawl w app k (l1 ++ l2).
Proof.
  split; [apply crawl_app |]. split; [apply crawl_timestamps |].
  intros u Hf. rewrite !crawl_app, crawl_cons_fails by exact Hf.
  reflexivity.
Qed.

Lemma crawl_isolates_failures_witness :
  crawl world_ok {| scrape_url := example_page |} 0
        ([example_url_ok] ++ example_url_down :: [example_url_ok])
  = crawl world_ok {| scrape_url := example_page |} 0
          ([example_url_ok] ++ [example_url_ok]).
Proof.
  apply (crawl_isolates_failures
           world_ok {| scrape_url := example_page |} 0
           [example_url_ok] [example_url_ok]).
  right. left. exists "timeout". reflexivity.
Defined.

(** X14.  The decision maker is created once: after a call of
    [get_content_enhancement_decision_maker] that succeeds, every later
    call returns the same instance, whatever the environment then holds,
    so a credential that is set later is not seen.  The instance has a
    crawl client exactly when the credential was set and not empty at
    the first call.  A call whose construction raises leaves no instance
    behind, and the next call tries again. *)
Theorem decision_maker_is_created_once
    (getenv getenv' : string -> option string)
    (new_app new_app' : string -> result FirecrawlApp) :
  (forall made instance,
     Enhancer.get_content_enhancement_decision_maker getenv new_app None
     = (Ok made, instance) ->
     instance = Some made
     /\ Enhancer.get_content_enhancement_decision_maker
          getenv' new_app' instance = (Ok made, instance)
     /\ (is_Some (firecrawl_app made)
         <-> exists key,
               getenv "FIRECRAWL_API_KEY" = Some key /\ key <> ""))
  /\ (forall e instance,
        Enhancer.get_content_enhancement_decision_maker getenv new_app None
        = (Raise e, instance) ->
        instance = None
        /\ exists key, getenv "FIRECRAWL_API_KEY" = Some key
                       /\ new_app key = Raise e).
Proof.
  unfold Enhancer.get_content_enhancement_decision_maker, Enhancer.__init__.
  split.
  - intros made instance.
    destruct (getenv "FIRECRAWL_API_KEY") as [key|] eqn:Hk.
    + destruct (truthy key) eqn:Ht.
      * destruct (new_app key) as [app|e]; cbn; [| discriminate].
        intros [= <- <-]. split; [reflexivity |]. split; [reflexivity |].
        cbn. split; [| eauto]. intros _. exists key. split; [reflexivity |].
        intros ->. discriminate.
      * intros [= <- <-]. split; [reflexivity |]. split; [reflexivity |].
        cbn. split; [intros [x Hx]; discriminate |].
        intros [key' [[= <-] Hne]]. destruct key; [congruence | discriminate].
    + intros [= <- <-]. split; [reflexivity |]. split; [reflexivity |].
      cbn. split; [intros [x Hx]; discriminate |].
      intros [key [H _]]. discriminate.
  - intros e instance.
    destruct (getenv "FIRECRAWL_API_KEY") as [key|] eqn:Hk; [| discriminate].
    destruct (truthy key); [| discriminate].
    destruct (new_app key) as [app|e'] eqn:Hn; cbn; [discriminate |].
    intros [= <- <-]. split; [reflexivity |]. exists key. auto.
Qed.

Lemma decision_maker_is_created_once_witness :
  Some {| firecrawl_app := None |} = Some {| firecrawl_app := None |}
  /\ Enhancer.get_content_enhancement_decision_maker
       env_with_key example_new_app (Some {| firecrawl_app := None |})
     = (Ok {| firecrawl_app := None |}, Some {| firecrawl_app := None |})
  /\ (is_Some (firecrawl_app {| firecrawl_app := None |})
      <-> exists key,
            env_without_key "FIRECRAWL_API_KEY" = Some key /\ key <> "").
Proof.
  apply (proj1 (decision_maker_is_created_once
                  env_without_key env_with_key
                  example_new_app example_new_app)
               {| firecrawl_app := None |}
               (Some {| firecrawl_app := None |})).
  reflexivity.
Defined.

(* ================================================================== *)
(** ** Further properties of the analysis node *)
(* ================================================================== *)

Section TopicFacts.

Lemma research_topic_with_plan
    (w : World) (state : OverallState) (plan : list task) (pointer : Z) :
  research_topic_of w (with_plan state (Some plan) (Some pointer))
  = if negb (Nat.eqb (length plan) 0)
       && (pointer <? Z.of_nat (length plan))
    then t ← py_index plan pointer; topic_of_task t
    else research_topic_of w (with_plan state None None).
Proof. reflexivity. Qed.

Lemma py_index_in_range {A : Type} (l : list A) (i : Z) :
  0 <= i < Z.of_nat (length l) ->
  exists x, nth_error l (Z.to_nat i) = Some x /\ py_index l i = Ok x.
Proof.
  intros Hi. unfold py_index.
  replace (i <? 0) with false by (symmetry; apply Z.ltb_ge; lia).
  replace (0 <=? i) with true by (symmetry; apply Z.leb_le; lia).
  replace (i <? Z.of_nat (length l)) with true
    by (symmetry; apply Z.ltb_lt; lia).
  cbn [andb].
  destruct (nth_error l (Z.to_nat i)) as [x|] eqn:Hx; [eauto |].
  apply nth_error_None in Hx. lia.
Qed.

Lemma py_index_negative {A : Type} (l : list A) (i : Z) :
  - Z.of_nat (length l) <= i < 0 ->
  exists x, nth_error l (Z.to_nat (Z.of_nat (length l) + i)) = Some x
            /\ py_index l i = Ok x.
Proof.
  intros Hi. unfold py_index.
  replace (i <? 0) with true by (symmetry; apply Z.ltb_lt; lia).
  replace (0 <=? i + Z.of_nat (length l)) with true
    by (symmetry; apply Z.leb_le; lia).
  replace (i + Z.of_nat (length l) <? Z.of_nat (length l)) with true
    by (symmetry; apply Z.ltb_lt; lia).
  cbn [andb]. rewrite (Z.add_comm (Z.of_nat (length l)) i).
  destruct (nth_error l (Z.to_nat (i + Z.of_nat (length l)))) as [x|] eqn:Hx;
    [eauto |].
  apply nth_error_None in Hx. lia.
Qed.

Lemma py_index_out_of_range {A : Type} (l : list A) (i : Z) :
  i < - Z.of_nat (length l) \/ Z.of_nat (length l) <= i ->
  py_index l i = Raise "list index out of range".
Proof.
  intros Hi. unfold py_index.
  destruct (i <? 0) eqn:Hneg.
  - apply Z.ltb_lt in Hneg.
    destruct (0 <=? i + Z.of_nat (length l)) eqn:H0; [| reflexivity].
    apply Z.leb_le in H0. lia.
  - apply Z.ltb_ge in Hneg.
    replace (i <? Z.of_nat (length l)) with false
      by (symmetry; apply Z.ltb_ge; lia).
    rewrite andb_false_r. reflexivity.
Qed.

End TopicFacts.

(** X15.  The research topic for a plan and a pointer.  A pointer from 0
    to the length of the plan takes the description of that task; a
    negative pointer down to minus the length counts from the end of the
    plan; a pointer below that makes the indexing raise, so that the node
    ends with the status "error"; a pointer at or beyond the length, and
    an empty plan, fall back to the user query or the messages as if
    there were no plan. *)
Theorem research_topic_by_pointer
    (w : World) (state : OverallState) (config : RunnableConfig)
    (plan : list task) (pointer : Z) :
  let st := with_plan state (Some plan) (Some pointer) in
  let n := Z.of_nat (length plan) in
  (0 <= pointer < n ->
   exists t, nth_error plan (Z.to_nat pointer) = Some t
             /\ research_topic_of w st = topic_of_task t)
  /\ (- n <= pointer < 0 ->
      exists t, nth_error plan (Z.to_nat (n + pointer)) = Some t
                /\ research_topic_of w st = topic_of_task t)
  /\ (pointer < - n -> plan <> [] ->
      research_topic_of w st = Raise "list index out of range"
      /\ content_enhancement_analysis w st config
         = error_update "list index out of range")
  /\ (n <= pointer \/ plan = [] ->
      research_topic_of w st
      = research_topic_of w (with_plan state None None)).
Proof.
  intros st n.
  assert (Hne : plan <> [] -> negb (Nat.eqb (length plan) 0) = true).
  { destruct plan; [congruence | reflexivity]. }
  unfold st. rewrite research_topic_with_plan. fold n.
  split; [| split; [| split]].
  - intros Hp. rewrite Hne by (intros ->; simpl in *; lia).
    replace (pointer <? n) with true by (symmetry; apply Z.ltb_lt; lia).
    destruct (py_index_in_range plan pointer Hp) as [t [Ht ->]].
    exists t. split; [exact Ht | reflexivity].
  - intros Hp. rewrite Hne by (intros ->; simpl in *; lia).
    replace (pointer <? n) with true by (symmetry; apply Z.ltb_lt; lia).
    destruct (py_index_negative plan pointer Hp) as [t [Ht ->]].
    exists t. split; [exact Ht | reflexivity].
  - intros Hp Hplan.
    assert (Ht : research_topic_of w
                   (with_plan state (Some plan) (Some pointer))
                 = Raise "list index out of range").
    { rewrite research_topic_with_plan, Hne by exact Hplan. fold n.
      replace (pointer <? n) with true by (symmetry; apply Z.ltb_lt; lia).
      rewrite py_index_out_of_range by (left; exact Hp). reflexivity. }
    rewrite research_topic_with_plan in Ht. fold n in Ht.
    split; [exact Ht |].
    unfold content_enhancement_analysis, analysis_body, analysis_decision.
    rewrite research_topic_with_plan. fold n. rewrite Ht. reflexivity.
  - intros [Hp | ->].
    + replace (pointer <? n) with false by (symmetry; apply Z.ltb_ge; lia).
      rewrite andb_false_r. reflexivity.
    + reflexivity.
Qed.

Lemma research_topic_by_pointer_witness :
  research_topic_of world_ok
    (with_plan example_state (Some example_plan) (Some (-3)))
  = Raise "list index out of range"
  /\ content_enhancement_analysis world_ok
       (with_plan example_state (Some example_plan) (Some (-3)))
       example_config
     = error_update "list index out of range".
Proof.
  apply (research_topic_by_pointer
           world_ok example_state example_config example_plan (-3)).
  - simpl. lia.
  - discriminate.
Defined.

Section GroundingFacts.

Lemma with_all_keys_complete (src : source) :
  complete_source (with_all_keys src).
Proof. repeat split; eexists; reflexivity. Qed.

Lemma with_all_keys_score (src : source) :
  _calculate_url_priority (with_all_keys src) = _calculate_url_priority src.
Proof. reflexivity. Qed.

Lemma with_all_keys_of_complete (src : source) :
  complete_source src -> with_all_keys src = src.
Proof.
  destruct src as [t u s]. intros ([t' Ht] & [u' Hu] & [s' Hs]).
  simpl in *. subst. reflexivity.
Qed.

Lemma complete_source_line (src : source) :
  complete_source src ->
  source_line src
  = "- " +:+ dict_get (src_title src) "" +:+ ": "
    +:+ dict_get (src_url src) "".
Proof.
  destruct src as [t u s]. intros ([t' Ht] & [u' Hu] & _).
  simpl in *. subst. reflexivity.
Qed.

(** The dicts of a list of gathered values, each with its keys filled in. *)
Lemma dicts_of_gathered (l : list gathered) :
  let gs :=
    flat_map
      (fun g =>
         match g with
         | GDict src =>
             [ {| src_title := Some (dict_get (src_title src) "");
                  src_url := Some (dict_get (src_url src) "");
                  src_snippet := Some (dict_get (src_snippet src) "") |} ]
         | GOther => []
         end) l in
  (length gs <= length l)%nat
  /\ Forall (fun s => exists src, In (GDict src) l /\ s = with_all_keys src)
            gs.
Proof.
  induction l as [|g l [IHlen IHall]]; cbv zeta.
  - split; [simpl; lia | constructor].
  - assert (Hweak :
      Forall (fun s => exists src,
                In (GDict src) (g :: l) /\ s = with_all_keys src)
        (flat_map
           (fun g =>
              match g with
              | GDict src =>
                  [ {| src_title := Some (dict_get (src_title src) "");
                       src_url := Some (dict_get (src_url src) "");
                       src_snippet := Some (dict_get (src_snippet src) "") |} ]
              | GOther => []
              end) l)).
    { eapply List.Forall_impl; [| exact IHall].
      intros s [src [Hin Hs]]. exists src. split; [right; exact Hin | exact Hs]. }
    destruct g as [src|]; cbn [flat_map List.app length].
    + split; [lia |]. constructor; [| exact Hweak].
      exists src. split; [left; reflexivity | reflexivity].
    + split; [lia | exact Hweak].
Qed.

Lemma dicts_of_complete (srcs : list source) :
  Forall complete_source srcs ->
  flat_map
    (fun g =>
       match g with
       | GDict src =>
           [ {| src_title := Some (dict_get (src_title src) "");
                src_url := Some (dict_get (src_url src) "");
                src_snippet := Some (dict_get (src_snippet src) "") |} ]
       | GOther => []
       end) (map GDict srcs)
  = srcs.
Proof.
  induction 1 as [|src srcs Hc _ IH]; [reflexivity |].
  cbn [map flat_map List.app]. rewrite IH. f_equal.
  apply (with_all_keys_of_complete src Hc).
Qed.

Lemma In_skipn_In {A : Type} (n : nat) (l : list A) (x : A) :
  In x (skipn n l) -> In x l.
Proof.
  revert l. induction n as [|n IH]; intros [|y l] H; simpl in *; auto.
Qed.

End GroundingFacts.

(** X16.  The grounding sources that the node hands to the decision
    maker: there are at most ten; each one is a dict among the gathered
    values with its three keys filled in, the empty text for a key that
    was absent, so that the prompt never shows the placeholder of a
    missing title or URL, and its score is the score of the original;
    ten or fewer complete dicts pass unchanged; and only the last ten
    gathered values count. *)
Theorem grounding_sources_invariants (state : OverallState) :
  let gathered := default [] (st_sources_gathered state) in
  let gs := grounding_sources_of state in
  (length gs <= 10)%nat
  /\ Forall
       (fun s =>
          complete_source s
          /\ source_line s
             = "- " +:+ dict_get (src_title s) "" +:+ ": "
               +:+ dict_get (src_url s) ""
          /\ exists src,
               In (GDict src) gathered
               /\ s = with_all_keys src
               /\ _calculate_url_priority s = _calculate_url_priority src)
       gs
  /\ (forall srcs,
        gathered = map GDict srcs -> (length srcs <= 10)%nat ->
        Forall complete_source srcs -> gs = srcs)
  /\ (forall older recent state',
        gathered = older ++ recent -> length recent = 10%nat ->
        default [] (st_sources_gathered state') = recent ->
        grounding_sources_of state' = gs).
Proof.
  intros gathered gs. unfold gs, grounding_sources_of. fold gathered.
  pose proof (dicts_of_gathered
                (skipn (length gathered - 10) gathered)) as [Hlen Hall].
  split; [| split; [| split]].
  - eapply Nat.le_trans; [exact Hlen |]. rewrite length_skipn. lia.
  - eapply List.Forall_impl; [| exact Hall].
    intros s [src [Hin ->]].
    split; [apply with_all_keys_complete |].
    split; [apply complete_source_line, with_all_keys_complete |].
    exists src. split; [eapply In_skipn_In; exact Hin |].
    split; [reflexivity | apply with_all_keys_score].
  - intros srcs Hg Hle Hc. rewrite Hg, length_map.
    replace (length srcs - 10)%nat with 0%nat by lia.
    cbn [skipn]. apply dicts_of_complete, Hc.
  - intros older recent state' Hg Hten Hrecent.
    rewrite Hrecent, Hg, length_app, Hten.
    replace (10 - 10)%nat with 0%nat by lia.
    replace (length older + 10 - 10)%nat with (length older + 0)%nat by lia.
    rewrite skipn_app, Nat.add_0_r, skipn_all.
    replace (length older - length older)%nat with 0%nat by lia.
    reflexivity.
Qed.

Section OutcomeFacts.

Variable w : World.

Lemma truthy_false (s : string) : truthy s = false -> s = "".
Proof.
  unfold truthy. intros H. apply negb_false_iff in H.
  apply String.eqb_eq, H.
Qed.

Lemma crawl_nil_iff (app : FirecrawlApp) (k : nat)
    (urls : list priority_url) :
  crawl w app k urls = [] <-> Forall (scrape_fails app) urls.
Proof.
  revert k. induction urls as [|u rest IH]; intros k.
  - split; [constructor | reflexivity].
  - assert (Hskip : scrape_fails app u ->
              (crawl w app k rest = []
               <-> Forall (scrape_fails app) (u :: rest))).
    { intros Hf. rewrite IH. split.
      - intros H. constructor; assumption.
      - intros H. inversion H; assumption. }
    cbn [crawl].
    destruct (truthy (pu_url u)) eqn:Hu; cbn [negb].
    2: { apply Hskip. left. apply truthy_false, Hu. }
    destruct (scrape_url app (pu_url u)) as [[resp|]|e] eqn:Hs.
    + destruct (success resp) eqn:Hok.
      * split; [discriminate |].
        intros H. inversion H as [|x l Hf _]; subst.
        destruct Hf as [He | [[e He] | [He | [r [He Hr]]]]].
        -- rewrite He in Hu. discriminate.
        -- rewrite Hs in He. discriminate.
        -- rewrite Hs in He. discriminate.
        -- rewrite Hs in He. injection He as <-. congruence.
      * apply Hskip. right. right. right. exists resp. auto.
    + apply Hskip. right. right. left. exact Hs.
    + apply Hskip. right. left. exists e. exact Hs.
Qed.

Lemma priority_urls_at_most_3 (text : string) (srcs : list source) :
  (length (priority_urls (_parse_llm_decision text srcs)) <= 3)%nat.
Proof.
  pose proof (parse_priority_urls_unfold text srcs) as Hu. cbv zeta in Hu.
  rewrite Hu.
  destruct (needs_enhancement (_parse_llm_decision text srcs));
    [| simpl; lia].
  destruct srcs as [|s0 rest]; [simpl; lia |].
  rewrite length_map.
  eapply Nat.le_trans; [apply filter_length_le |].
  eapply Nat.le_trans; [apply firstn_le_length |].
  unfold max_urls_of.
  destruct (String.eqb _ "comprehensive"); lia.
Qed.

Lemma analysis_decision_parsed (state : OverallState)
    (config : RunnableConfig) (maker : DecisionMakerInstance)
    (d : EnhancementDecision) :
  analysis_decision w state config = Ok (maker, d) ->
  get_decision_maker w = Ok maker
  /\ exists topic text,
       research_topic_of w state = Ok topic
       /\ llm_invoke w config
            (_build_analysis_prompt topic
               (default [] (st_web_research_result state))
               (grounding_sources_of state))
          = Ok text
       /\ d = _parse_llm_decision text (grounding_sources_of state).
Proof.
  unfold analysis_decision, analyze_enhancement_need.
  destruct (research_topic_of w state) as [topic|e]; [| discriminate].
  cbn.
  destruct (get_decision_maker w) as [maker'|e]; [| discriminate].
  cbn.
  destruct (llm_invoke w config _) as [text|e] eqn:Hllm; [| discriminate].
  cbn. intros [= <- <-]. split; [reflexivity |].
  exists topic, text. split; [reflexivity |]. split; [exact Hllm | reflexivity].
Qed.

End OutcomeFacts.

#[local] Ltac no_such_decision :=
  let H := fresh "H" in
  intros H;
  repeat match type of H with
         | ex _ => let x := fresh "x" in destruct H as [x H]
         end;
  decompose [and] H; clear H;
  repeat match goal with
         | E : Ok _ = Ok _ |- _ => injection E as E; subst
         | E : Raise _ = Ok _ |- _ => discriminate E
         | E : (_, _) = (_, _) |- _ => injection E as E; subst
         | E1 : firecrawl_app ?m = Some _,
           E2 : firecrawl_app ?m = Some _ |- _ =>
             rewrite E1 in E2; injection E2 as E2; subst
         end;
  first [congruence | contradiction].

(** X17.  The status of a run that has a decision tells how it ended:
    "skipped" exactly when the decision needs no enhancement;
    "skipped_no_api" exactly when it needs one and the decision maker has
    no crawl client; "failed" exactly when there is a client and every
    priority URL is empty or fails to be scraped, which includes a
    decision without priority URLs; "completed" exactly when there is a
    client and some priority URL is scraped.  The number of enhanced
    sources is written only with the status "completed" and lies between
    1 and 3. *)
Theorem node_status_by_outcome
    (w : World) (state : OverallState) (config : RunnableConfig) :
  let u := content_enhancement_analysis w state config in
  (u !! "enhancement_status" = Some (VStr "skipped")
   <-> exists maker d,
         analysis_decision w state config = Ok (maker, d)
         /\ needs_enhancement d = false)
  /\ (u !! "enhancement_status" = Some (VStr "skipped_no_api")
      <-> exists maker d,
            analysis_decision w state config = Ok (maker, d)
            /\ needs_enhancement d = true /\ firecrawl_app maker = None)
  /\ (u !! "enhancement_status" = Some (VStr "failed")
      <-> exists maker d app,
            analysis_decision w state config = Ok (maker, d)
            /\ needs_enhancement d = true /\ firecrawl_app maker = Some app
            /\ Forall (scrape_fails app) (priority_urls d))
  /\ (u !! "enhancement_status" = Some (VStr "completed")
      <-> exists maker d app,
            analysis_decision w state config = Ok (maker, d)
            /\ needs_enhancement d = true /\ firecrawl_app maker = Some app
            /\ ~ Forall (scrape_fails app) (priority_urls d))
  /\ (forall n, u !! "enhanced_sources_count" = Some (VInt n) ->
        1 <= n <= 3
        /\ u !! "enhancement_status" = Some (VStr "completed")).
Proof.
  intros u. unfold u. rewrite node_decision.
  destruct (analysis_decision w state config) as [[maker d]|e] eqn:Hdec.
  2: { destruct (error_update_lookup e) as (Hs & _ & _ & _ & _ & Hc).
       rewrite Hs, Hc.
       split; [split; [intros H; discriminate H | no_such_decision] |].
       split; [split; [intros H; discriminate H | no_such_decision] |].
       split; [split; [intros H; discriminate H | no_such_decision] |].
       split; [split; [intros H; discriminate H | no_such_decision] |].
       intros n H; discriminate H. }
  pose proof (analysis_update_lookup w maker d) as Hu. cbv zeta in Hu.
  destruct Hu as (_ & Hs & _ & Hkeys). rewrite Hs.
  destruct (analysis_decision_parsed w state config maker d Hdec)
    as (_ & topic & text & _ & _ & Hd).
  pose proof (priority_urls_at_most_3 text (grounding_sources_of state))
    as H3.
  rewrite <- Hd in H3. clear Hd Hs.
  assert (Hcases :
    (outcome_of w maker d = Skipped /\ needs_enhancement d = false)
    \/ (outcome_of w maker d = SkippedNoApi
        /\ needs_enhancement d = true /\ firecrawl_app maker = None)
    \/ (exists app,
          outcome_of w maker d = Failed
          /\ needs_enhancement d = true /\ firecrawl_app maker = Some app
          /\ Forall (scrape_fails app) (priority_urls d))
    \/ (exists app,
          outcome_of w maker d = Completed
          /\ needs_enhancement d = true /\ firecrawl_app maker = Some app
          /\ ~ Forall (scrape_fails app) (priority_urls d)
          /\ crawl w app 0 (priority_urls d) <> [])).
  { unfold outcome_of.
    destruct (needs_enhancement d); cbn [negb]; [| left; auto].
    destruct (firecrawl_app maker) as [app|]; [| right; left; auto].
    cbv beta iota.
    destruct (crawl w app 0 (priority_urls d)) as [|r rs] eqn:Hc.
    - right. right. left. exists app.
      repeat (split; [reflexivity |]). apply (crawl_nil_iff w app 0), Hc.
    - right. right. right. exists app.
      repeat (split; [reflexivity |]).
      split; [| rewrite Hc; discriminate].
      intros HF. apply (crawl_nil_iff w app 0) in HF. congruence. }
  destruct Hcases as [(Ho & Hn) | [(Ho & Hn & Ha)
                     | [(app & Ho & Hn & Ha & HF)
                       | (app & Ho & Hn & Ha & HF & Hne)]]];
    rewrite Ho in *; cbn [status_of].
  - split; [split; [intros _; exists maker, d; auto | reflexivity] |].
    split; [split; [intros H; discriminate H | no_such_decision] |].
    split; [split; [intros H; discriminate H | no_such_decision] |].
    split; [split; [intros H; discriminate H | no_such_decision] |].
    destruct Hkeys as (_ & _ & Hc). rewrite Hc. intros n H; discriminate H.
  - split; [split; [intros H; discriminate H | no_such_decision] |].
    split; [split; [intros _; exists maker, d; auto | reflexivity] |].
    split; [split; [intros H; discriminate H | no_such_decision] |].
    split; [split; [intros H; discriminate H | no_such_decision] |].
    destruct Hkeys as (_ & _ & Hc). rewrite Hc. intros n H; discriminate H.
  - split; [split; [intros H; discriminate H | no_such_decision] |].
    split; [split; [intros H; discriminate H | no_such_decision] |].
    split; [split; [intros _; exists maker, d, app; auto | reflexivity] |].
    split; [split; [intros H; discriminate H | no_such_decision] |].
    destruct Hkeys as (_ & _ & Hc). rewrite Hc. intros n H; discriminate H.
  - split; [split; [intros H; discriminate H | no_such_decision] |].
    split; [split; [intros H; discriminate H | no_such_decision] |].
    split; [split; [intros H; discriminate H | no_such_decision] |].
    split; [split; [intros _; exists maker, d, app; auto | reflexivity] |].
    destruct Hkeys as (app' & Ha' & _ & _ & Hc). rewrite Hc.
    rewrite Ha in Ha'. injection Ha' as <-.
    intros n [= <-]. split; [| reflexivity].
    destruct (crawl_results w app 0 (priority_urls d)) as [_ Hle].
    destruct (crawl w app 0 (priority_urls d)); [congruence |].
    simpl in *. lia.
Qed.

Section AfterNodeFacts.

Variables (w : World) (state : OverallState) (config : RunnableConfig).

Lemma node_status_values (s : string) :
  content_enhancement_analysis w state config !! "enhancement_status"
  = Some (VStr s) ->
  In s ["skipped"; "skipped_no_api"; "failed"; "completed"; "error"].
Proof.
  rewrite node_decision.
  destruct (analysis_decision w state config) as [[maker d]|e].
  - pose proof (analysis_update_lookup w maker d) as Hu. cbv zeta in Hu.
    destruct Hu as (_ & Hs & _). rewrite Hs. intros [= <-].
    destruct (outcome_of w maker d); simpl; tauto.
  - destruct (error_update_lookup e) as (Hs & _). rewrite Hs.
    intros [= <-]. simpl; tauto.
Qed.

Lemma node_count_range (n : Z) :
  content_enhancement_analysis w state config !! "enhanced_sources_count"
  = Some (VInt n) ->
  1 <= n <= 3.
Proof.
  rewrite node_decision.
  destruct (analysis_decision w state config) as [[maker d]|e] eqn:Hdec.
  2: { destruct (error_update_lookup e) as (_ & _ & _ & _ & _ & Hc).
       rewrite Hc. discriminate. }
  destruct (analysis_decision_parsed w state config maker d Hdec)
    as (_ & topic & text & _ & _ & Hd).
  pose proof (priority_urls_at_most_3 text (grounding_sources_of state))
    as H3.
  rewrite <- Hd in H3.
  unfold analysis_update.
  destruct (needs_enhancement d); cbn [negb].
  2: { intros H. simplify_map_eq. }
  destruct (firecrawl_app maker) as [app|].
  2: { intros H. simplify_map_eq. }
  destruct (crawl_results w app 0 (priority_urls d)) as [_ Hle].
  destruct (crawl w app 0 (priority_urls d)) as [|r rs].
  { intros H. simplify_map_eq. }
  cbv zeta. intros H. simplify_map_eq. simpl in *. lia.
Qed.

End AfterNodeFacts.

Section OverflowFacts.




End OverflowFacts.

(** X18.  The reflection after a run of the analysis node.  When the
    state holds the status "completed" and the number of enhanced
    sources that the node wrote, [enhanced_reflection] returns a verdict:
    the number is between 1 and 3, so its conversion to a float cannot
    overflow.  A sufficient base verdict stays; an insufficient one is
    overridden exactly when the node enhanced two or three sources, and
    stays when it enhanced one. *)
Theorem reflection_after_node
    (w : World) (state : OverallState) (config : RunnableConfig)
    (w' : World) (state' : OverallState) (config' : RunnableConfig)
    (base : ReflectionState) (n : Z) :
  content_enhancement_analysis w state config !! "enhanced_sources_count"
  = Some (VInt n) ->
  st_enhancement_status state' = Some "completed" ->
  st_enhanced_sources_count state' = Some n ->
  reflection w' state' config' = Ok base ->
  enhanced_reflection w' state' config'
  = Ok (if is_sufficient base then base
        else if 2 <=? n then overridden base else base).
Proof.
  intros Hnode Hstatus Hcount Hbase.
  apply node_count_range in Hnode.
  destruct (boost_check n) as [x [Hx Hg]];
    [split; [lia |]; apply Z.lt_le_trans with 4; [lia |];
     apply Z.pow_le_mono_r with (a := 2) (b := 2) (c := 1023); lia |].
  unfold enhanced_reflection. rewrite Hbase, Hstatus, Hcount. cbn.
  replace (0 <? n) with true by (symmetry; apply Z.ltb_lt; lia).
  destruct (is_sufficient base); cbn; [reflexivity |].
  rewrite Hx. cbn. rewrite Hg.
  destruct (2 <=? n); reflexivity.
Qed.

Lemma reflection_after_node_witness :
  enhanced_reflection world_ok (state_after_enhancement 1) example_config
  = Ok (if is_sufficient example_reflection then example_reflection
        else if 2 <=? 1 then overridden example_reflection
             else example_reflection).
Proof.
  apply (reflection_after_node
           world_ok example_state example_config
           world_ok (state_after_enhancement 1) example_config
           example_reflection 1).
  - vm_compute; reflexivity.
  - reflexivity.
  - reflexivity.
  - reflexivity.
Defined.

(** X19.  The gate after a run of the analysis node.  When the state
    holds the status that the node wrote, the gate sends the graph to the
    analysis again exactly when the credential is set, a research loop is
    done, there is a finding, and the run ended with "skipped_no_api",
    "failed" or "error"; after "completed" and after "skipped" the
    analysis is not entered again. *)
Theorem gate_after_node
    (w : World) (state : OverallState) (config : RunnableConfig)
    (w' : World) (state' : OverallState) (s : string) :
  content_enhancement_analysis w state config !! "enhancement_status"
  = Some (VStr s) ->
  st_enhancement_status state' = Some s ->
  (snd (should_enhance_content w' state') = "analyze_enhancement_need"
   <-> (exists key, getenv w' "FIRECRAWL_API_KEY" = Some key /\ key <> "")
       /\ 1 <= default 0 (st_research_loop_count state')
       /\ default [] (st_web_research_result state') <> []
       /\ (s = "skipped_no_api" \/ s = "failed" \/ s = "error")).
Proof.
  intros Hnode Hstatus. apply node_status_values in Hnode.
  assert (Hcfg : truthy (default "" (getenv w' "FIRECRAWL_API_KEY")) = true
                 <-> exists key,
                       getenv w' "FIRECRAWL_API_KEY" = Some key /\ key <> "").
  { unfold truthy.
    destruct (getenv w' "FIRECRAWL_API_KEY") as [key|]; simpl.
    - rewrite negb_true_iff. split.
      + intros Hk. exists key. split; [reflexivity |].
        intros ->. discriminate.
      + intros [key' [[= <-] Hne]]. apply String.eqb_neq, Hne.
    - split; [discriminate | intros [key [H _]]; discriminate]. }
  unfold should_enhance_content. rewrite Hstatus.
  destruct (truthy (default "" (getenv w' "FIRECRAWL_API_KEY"))) eqn:Hc;
    cbn [negb].
  2: { cbn [snd]. split; [discriminate |].
       intros (H & _). apply Hcfg in H. discriminate. }
  assert (Hy : exists key,
             getenv w' "FIRECRAWL_API_KEY" = Some key /\ key <> "")
    by (apply Hcfg; reflexivity).
  destruct (default 0 (st_research_loop_count state') <? 1) eqn:Hl.
  { apply Z.ltb_lt in Hl. cbn [snd]. split; [discriminate |].
    intros (_ & H & _). lia. }
  apply Z.ltb_ge in Hl.
  assert (Hf : (length (default [] (st_web_research_result state')) <? 1)%nat
               = true
               <-> default [] (st_web_research_result state') = []).
  { rewrite Nat.ltb_lt.
    destruct (default [] (st_web_research_result state')); simpl; split;
      intros; try reflexivity; try discriminate; lia. }
  simpl in Hnode.
  destruct Hnode as [<- | [<- | [<- | [<- | [<- | []]]]]];
    cbn [String.eqb Ascii.eqb Bool.eqb orb andb];
    try (cbn [snd]; split; [discriminate |];
         intros (_ & _ & _ & [H | [H | H]]); discriminate H);
    destruct (length (default [] (st_web_research_result state')) <? 1)%nat
      eqn:Hlen; cbn [snd];
    try (split; [discriminate |];
         intros (_ & _ & H & _); exfalso; apply H, Hf; reflexivity);
    (split; [intros _ | reflexivity];
     split; [exact Hy |]; split; [exact Hl |];
     split; [intros H; apply Hf in H; discriminate | tauto]).
Qed.

Lemma gate_after_node_witness :
  snd (should_enhance_content world_ok
         (with_enhancement example_state "error" None))
  = "analyze_enhancement_need"
  <-> (exists key, getenv world_ok "FIRECRAWL_API_KEY" = Some key
                   /\ key <> "")
      /\ 1 <= default 0 (st_research_loop_count
                           (with_enhancement example_state "error" None))
      /\ default [] (st_web_research_result
                       (with_enhancement example_state "error" None)) <> []
      /\ ("error" = "skipped_no_api" \/ "error" = "failed"
          \/ "error" = "error").
Proof.
  apply (gate_after_node
           world_llm_down example_state example_config
           world_ok (with_enhancement example_state "error" None) "error").
  - vm_compute; reflexivity.
  - reflexivity.
Defined.



(* ================================================================== *)
(** ** The log of a decision *)
(* ================================================================== *)

Section LogFacts.

Lemma url_lines_length (i : Z) (urls : list priority_url) :
  length (Log.url_lines i urls) = length urls.
Proof.
  revert i. induction urls as [|u rest IH]; intros i; [reflexivity |].
  cbn [Log.url_lines length]. rewrite IH. reflexivity.
Qed.

Lemma url_lines_nth (i : Z) (urls : list priority_url) (k : nat)
    (u : priority_url) :
  nth_error urls k = Some u ->
  nth_error (Log.url_lines i urls) k
  = Some ("    " +:+ PyStr.of_int (i + Z.of_nat k) +:+ ". " +:+ pu_title u
          +:+ " (Score: " +:+ F64.format_2f (pu_priority_score u) +:+ ")").
Proof.
  revert i k. induction urls as [|u0 rest IH]; intros i [|k] H;
    try discriminate.
  - injection H as <-. cbn [Log.url_lines nth_error].
    rewrite Z.add_0_r. reflexivity.
  - cbn [Log.url_lines nth_error]. cbn [nth_error] in H.
    rewrite (IH (i + 1) k H).
    replace (i + 1 + Z.of_nat k) with (i + Z.of_nat (S k)) by lia.
    reflexivity.
Qed.

End LogFacts.

(** X21.  The lines of [format_enhancement_decision_log].  There are six
    lines for a decision without priority URLs and seven more than
    priority URLs otherwise: five lines of the head, the heading of the
    URLs, one line for each priority URL in their order, numbered from 1,
    with the title and the score in two decimals, and the line of the
    reasoning, which holds the first 200 characters of the reasoning and
    then three dots, also when the reasoning is shorter. *)
Theorem decision_log_lines (decision : EnhancementDecision) :
  let lines := Log.log_lines decision in
  let urls := priority_urls decision in
  length lines
  = (match urls with [] => 6 | _ :: _ => 7 + length urls end)%nat
  /\ (forall k u,
        nth_error urls k = Some u ->
        nth_error lines 5 = Some "  Priority URLs:"
        /\ nth_error lines (6 + k)
           = Some ("    " +:+ PyStr.of_int (Z.of_nat k + 1) +:+ ". "
                   +:+ pu_title u +:+ " (Score: "
                   +:+ F64.format_2f (pu_priority_score u) +:+ ")"))
  /\ nth_error lines (length lines - 1)
     = Some ("  Reasoning: " +:+ PyStr.take 200 (reasoning decision)
             +:+ "...")
  /\ ((String.length (reasoning decision) <= 200)%nat ->
      nth_error lines (length lines - 1)
      = Some ("  Reasoning: " +:+ reasoning decision +:+ "..."))
  /\ Log.format_enhancement_decision_log decision
     = PyStr.join PyStr.nl lines.
Proof.
  intros lines urls.
  assert (Hlast : nth_error lines (length lines - 1)
                  = Some ("  Reasoning: "
                          +:+ PyStr.take 200 (reasoning decision)
                          +:+ "...")).
  { unfold lines, Log.log_lines. fold urls.
    destruct urls as [|u0 rest].
    - reflexivity.
    - rewrite !length_app. cbn [length].
      rewrite url_lines_length. cbn [length].
      rewrite nth_error_app2
        by (rewrite !length_app, url_lines_length; cbn [length]; lia).
      rewrite !length_app, url_lines_length. cbn [length].
      replace (5 + (1 + S (length rest)) + 1 - 1
               - (5 + (1 + S (length rest))))%nat with 0%nat by lia.
      reflexivity. }
  split; [| split; [| split; [exact Hlast | split]]].
  - unfold lines, Log.log_lines. fold urls.
    destruct urls as [|u0 rest]; [reflexivity |].
    rewrite !length_app. cbn [length]. rewrite url_lines_length.
    cbn [length]. lia.
  - intros k u Hk. unfold lines, Log.log_lines. fold urls.
    destruct urls as [|u0 rest] eqn:Hurls; [destruct k; discriminate |].
    rewrite <- Hurls in *. split; [reflexivity |].
    assert (Hlen : (k < length urls)%nat)
      by (apply nth_error_Some; congruence).
    rewrite nth_error_app1
      by (rewrite !length_app; cbn [length]; rewrite url_lines_length; lia).
    rewrite nth_error_app2 by (cbn [length]; lia).
    cbn [length].
    replace (6 + k - 5)%nat with (S k) by lia.
    cbn [List.app nth_error].
    rewrite (url_lines_nth 1 urls k u Hk).
    rewrite (Z.add_comm 1). reflexivity.
  - intros Hshort. rewrite Hlast.
    rewrite (take_short 200 (reasoning decision) Hshort). reflexivity.
  - reflexivity.
Qed.

(* ================================================================== *)
(** ** The configuration *)
(* ================================================================== *)

Section ConfigFacts.

Lemma lookup_field_values (f : string -> option string) (l : list string)
    (name : string) :
  (list_to_map
     (omap (fun n =>
              match f n with
              | Some v => Some (n, v)
              | None => None
              end) l) : gmap string string) !! name
  = if decide (name ∈ l) then f name else None.
Proof.
  induction l as [|n l IH].
  - rewrite decide_False by (apply not_elem_of_nil). apply lookup_empty.
  - cbn [omap list_omap]. destruct (f n) as [v|] eqn:Hn.
    + rewrite list_to_map_cons.
      destruct (decide (n = name)) as [->|Hne].
      * rewrite lookup_insert_eq, decide_True by (apply list_elem_of_here).
        symmetry; exact Hn.
      * rewrite lookup_insert_ne by exact Hne. rewrite IH.
        destruct (decide (name ∈ l)) as [Hin|Hout].
        -- rewrite decide_True by (apply list_elem_of_further, Hin).
           reflexivity.
        -- rewrite decide_False; [reflexivity |].
           intros H. apply elem_of_cons in H. destruct H; congruence.
    + rewrite IH.
      destruct (decide (name ∈ l)) as [Hin|Hout].
      * rewrite decide_True by (apply list_elem_of_further, Hin).
        reflexivity.
      * destruct (decide (name ∈ n :: l)) as [Hin|]; [| reflexivity].
        apply elem_of_cons in Hin. destruct Hin as [->|]; congruence.
Qed.

Lemma lookup_values (getenv : string -> option string)
    (config : option RunnableConfig) (name : string) :
  Config.values getenv config !! name
  = if decide (name ∈ Config.model_fields)
    then Config.raw_value getenv (configurable_of config) name
    else None.
Proof.
  unfold Config.values. fold (configurable_of config).
  apply (lookup_field_values
           (Config.raw_value getenv (configurable_of config))).
Qed.

End ConfigFacts.

(** X22.  The values that [from_runnable_config] hands to the
    configuration class.  Only the five fields of the class can be keys;
    for a field, a variable of the environment with the name of the field
    in capitals wins over the entry of the configuration, which is used
    when the variable is not set; a field that neither has is left out,
    so that the class fills in its default.  Two configurations that
    agree on the fields which the environment does not set give the same
    result. *)
Theorem configuration_values_precedence
    (getenv : string -> option string) (config : option RunnableConfig) :
  let values := Config.values getenv config in
  (forall name, name ∉ Config.model_fields -> values !! name = None)
  /\ (forall name v,
        name ∈ Config.model_fields ->
        getenv (Config.upper name) = Some v -> values !! name = Some v)
  /\ (forall name,
        name ∈ Config.model_fields ->
        getenv (Config.upper name) = None ->
        values !! name = configurable_of config !! name)
  /\ map Config.upper Config.model_fields
     = [ "QUERY_GENERATOR_MODEL"; "REFLECTION_MODEL"; "ANSWER_MODEL";
         "NUMBER_OF_INITIAL_QUERIES"; "MAX_RESEARCH_LOOPS" ]
  /\ (forall (C : Type) (cls : gmap string string -> result C) config',
        (forall name,
           name ∈ Config.model_fields ->
           getenv (Config.upper name) = None ->
           configurable_of config' !! name = configurable_of config !! name) ->
        Config.from_runnable_config cls getenv config'
        = Config.from_runnable_config cls getenv config).
Proof.
  intros values. unfold values.
  split; [| split; [| split; [| split]]].
  - intros name Hout. rewrite lookup_values, decide_False by exact Hout.
    reflexivity.
  - intros name v Hin Henv.
    rewrite lookup_values, decide_True by exact Hin.
    unfold Config.raw_value. rewrite Henv. reflexivity.
  - intros name Hin Henv.
    rewrite lookup_values, decide_True by exact Hin.
    unfold Config.raw_value. rewrite Henv. reflexivity.
  - vm_compute. reflexivity.
  - intros C cls config' Hagree. unfold Config.from_runnable_config.
    f_equal. apply map_eq. intros name. rewrite !lookup_values.
    destruct (decide (name ∈ Config.model_fields)) as [Hin|]; [| reflexivity].
    unfold Config.raw_value.
    destruct (getenv (Config.upper name)) eqn:Henv; [reflexivity |].
    apply Hagree; assumption.
Qed.

Lemma configuration_values_precedence_witness :
  Config.values env_with_model (Some config_with_model) !! "reflection_model"
  = Some "gemini-2.5-pro".
Proof.
  apply (proj1 (proj2 (configuration_values_precedence
                         env_with_model (Some config_with_model)))
               "reflection_model" "gemini-2.5-pro").
  - unfold Config.model_fields. apply list_elem_of_further, list_elem_of_here.
  - reflexivity.
Defined.

(* ================================================================== *)
(** ** From the gathered sources to the crawled pages *)
(* ================================================================== *)

Section SelectionFacts.

Lemma priority_url_from_source (text : string) (srcs : list source)
    (u : priority_url) :
  In u (priority_urls (_parse_llm_decision text srcs)) ->
  exists src,
    In src srcs
    /\ u = make_priority_url (src, _calculate_url_priority src)
    /\ F64.gtb (_calculate_url_priority src) F64.f0_3 = true.
Proof.
  pose proof (parse_priority_urls_unfold text srcs) as Hu. cbv zeta in Hu.
  rewrite Hu.
  destruct (needs_enhancement (_parse_llm_decision text srcs));
    [| intros []].
  destruct srcs as [|s0 rest] eqn:Hsrcs; [intros [] |].
  rewrite <- Hsrcs. intros Hin.
  apply in_map_iff in Hin. destruct Hin as [[src sc] [<- Hin]].
  apply filter_In in Hin. destruct Hin as [Hin Habove].
  apply In_firstn_In in Hin.
  apply (Permutation_in _ (sort_desc_perm (score_sources srcs))) in Hin.
  unfold score_sources in Hin. apply in_map_iff in Hin.
  destruct Hin as [src' [[= <- <-] Hsrc]].
  exists src'. split; [exact Hsrc |]. split; [reflexivity | exact Habove].
Qed.

Lemma grounding_source_gathered (state : OverallState) (s : source) :
  In s (grounding_sources_of state) ->
  exists src,
    In (GDict src) (default [] (st_sources_gathered state))
    /\ s = with_all_keys src.
Proof.
  unfold grounding_sources_of. intros Hin.
  pose proof (dicts_of_gathered
                (skipn (length (default [] (st_sources_gathered state)) - 10)
                       (default [] (st_sources_gathered state))))
    as [_ Hall].
  cbv zeta in Hall. rewrite List.Forall_forall in Hall.
  destruct (Hall s Hin) as [src [Hsrc ->]].
  exists src. split; [eapply In_skipn_In; exact Hsrc | reflexivity].
Qed.

End SelectionFacts.

(** X23.  The pages that the node crawls come from the gathered sources
    alone, never from the text of the language model: every enhanced
    result in the update has the URL and the title of a dict among the
    gathered sources, its score as the original priority, a URL that is
    not empty, and at least one rule of the scorer fires on that
    source. *)
Theorem node_crawls_only_gathered_sources
    (w : World) (state : OverallState) (config : RunnableConfig)
    (results : list enhanced_result) :
  content_enhancement_analysis w state config !! "enhanced_content_results"
  = Some (VResults results) ->
  Forall
    (fun r =>
       er_url r <> ""
       /\ exists src,
            In (GDict src) (default [] (st_sources_gathered state))
            /\ er_url r = dict_get (src_url src) ""
            /\ er_title r = dict_get (src_title src) ""
            /\ er_original_priority r = _calculate_url_priority src
            /\ any_rule_fires src = true)
    results.
Proof.
  rewrite node_decision.
  destruct (analysis_decision w state config) as [[maker d]|e] eqn:Hdec.
  2: { destruct (error_update_lookup e) as (_ & _ & _ & _ & Hr & _).
       rewrite Hr. discriminate. }
  destruct (analysis_decision_parsed w state config maker d Hdec)
    as (_ & topic & text & _ & _ & Hd).
  pose proof (analysis_update_lookup w maker d) as Hu. cbv zeta in Hu.
  destruct Hu as (_ & _ & _ & Hkeys).
  destruct (outcome_of w maker d);
    try (destruct Hkeys as (_ & Hr & _); rewrite Hr; discriminate).
  destruct Hkeys as (app & _ & _ & Hr & _). rewrite Hr.
  intros [= <-].
  destruct (crawl_results w app 0 (priority_urls d)) as [Hfrom _].
  eapply List.Forall_impl; [| exact Hfrom].
  intros r (_ & _ & u & Hin & Hurl & Hne & Htitle & Hscore).
  split; [rewrite Hurl; exact Hne |].
  rewrite Hd in Hin. apply priority_url_from_source in Hin.
  destruct Hin as [s [Hs [-> Habove]]].
  apply grounding_source_gathered in Hs. destruct Hs as [src [Hsrc ->]].
  exists src. split; [exact Hsrc |].
  cbn [make_priority_url pu_url pu_title pu_priority_score] in *.
  split; [exact Hurl |]. split; [exact Htitle |].
  split; [rewrite Hscore; apply with_all_keys_score |].
  rewrite <- (gtb_threshold_any_rule src).
  rewrite <- (with_all_keys_score src). exact Habove.
Qed.

Lemma node_crawls_only_gathered_sources_witness :
  Forall
    (fun r =>
       er_url r <> ""
       /\ exists src,
            In (GDict src) (default [] (st_sources_gathered example_state))
            /\ er_url r = dict_get (src_url src) ""
            /\ er_title r = dict_get (src_title src) ""
            /\ er_original_priority r = _calculate_url_priority src
            /\ any_rule_fires src = true)
    (crawl world_ok {| scrape_url := example_page |} 0
           (priority_urls example_decision)).
Proof.
  apply (node_crawls_only_gathered_sources
           world_ok example_state example_config).
  vm_compute; reflexivity.
Defined.

(** X24.  The text that a priority URL carries is one of eight: the
    scores above the threshold print, in two decimals, as 0.30, 0.40 and
    so on up to 1.00.  The text "Score: 0.30" belongs to the sources on
    which a single rule of weight 0.2 fires, whose score 0.2 + 0.1 is
    just above 0.3 in binary64. *)
Theorem priority_url_reasoning_texts
    (decision_text : string) (grounding_sources : list source) :
  Forall
    (fun u =>
       In (pu_reasoning u)
          [ "Score: 0.30"; "Score: 0.40"; "Score: 0.50"; "Score: 0.60";
            "Score: 0.70"; "Score: 0.80"; "Score: 0.90"; "Score: 1.00" ]
       /\ (pu_reasoning u = "Score: 0.30"
           <-> pu_priority_score u = F64.add F64.f0_2 F64.f0_1))
    (priority_urls (_parse_llm_decision decision_text grounding_sources)).
Proof.
  apply List.Forall_forall. intros u Hin.
  apply priority_url_from_source in Hin.
  destruct Hin as [src [_ [-> Habove]]].
  cbn [make_priority_url pu_reasoning pu_priority_score].
  rewrite calculate_url_priority_rules in *.
  destruct (fires official_domains (src_url src)),
           (fires known_platforms (src_url src)),
           (fires technical_keywords (src_title src)),
           (fires company_names (src_url src));
    vm_compute in Habove; try discriminate Habove;
    vm_compute; (split; [tauto | split; intros H; first [reflexivity | discriminate H]]).
Qed.

(* ================================================================== *)
(** ** The confidence from the answer to the log *)
(* ================================================================== *)

Section DigitFacts.

Lemma is_digit_cases (c : ascii) :
  PyStr.is_digit c = true ->
  In c [ "0"; "1"; "2"; "3"; "4"; "5"; "6"; "7"; "8"; "9" ]%char.
Proof.
  destruct c as [[] [] [] [] [] [] [] []]; intros H;
    vm_compute in H; try discriminate H; simpl; tauto.
Qed.

Lemma decimal_text_prints (g : string) :
  decimal_text g ->
  exists v, py_float g = Some v /\ F64.format_2f v = g +:+ "0".
Proof.
  intros [a [b [-> [Ha Hb]]]].
  apply is_digit_cases in Ha, Hb. simpl in Ha, Hb.
  destruct Ha as [<-|[<-|[<-|[<-|[<-|[<-|[<-|[<-|[<-|[<-|[]]]]]]]]]]];
    destruct Hb as [<-|[<-|[<-|[<-|[<-|[<-|[<-|[<-|[<-|[<-|[]]]]]]]]]]];
    eexists; (split; [reflexivity | vm_compute; reflexivity]).
Qed.

End DigitFacts.

(** X25.  The confidence goes from the answer of the model to the log
    without a change of its digits: when the pattern finds the decimal
    [a.b] in the answer, the log of the decision shows it as [a.b0], and
    when the pattern finds nothing the log shows 0.50.  The conversion to
    a double and the rounding to two decimals lose nothing. *)
Theorem confidence_prints_as_written
    (decision_text : string) (grounding_sources : list source) :
  let d := _parse_llm_decision decision_text grounding_sources in
  F64.format_2f (confidence_score d)
  = match re_search_confidence (PyStr.lower decision_text) with
    | Some g => g +:+ "0"
    | None => "0.50"
    end
  /\ nth_error (Log.log_lines d) 2
     = Some ("  Confidence: "
             +:+ match re_search_confidence (PyStr.lower decision_text) with
                 | Some g => g +:+ "0"
                 | None => "0.50"
                 end).
Proof.
  intros d.
  assert (H : F64.format_2f (confidence_score d)
              = match re_search_confidence (PyStr.lower decision_text) with
                | Some g => g +:+ "0"
                | None => "0.50"
                end).
  { unfold d, _parse_llm_decision. cbn [confidence_score].
    destruct (re_search_confidence (PyStr.lower decision_text))
      as [g|] eqn:Hs.
    - apply re_search_decimal_text in Hs.
      destruct (decimal_text_prints g Hs) as [v [-> Hv]]. exact Hv.
    - vm_compute. reflexivity. }
  split; [exact H |].
  rewrite <- H. unfold Log.log_lines.
  destruct (priority_urls d); reflexivity.
Qed.
